(** * movies-oop: the storage backends and the collection manager

    A shallow embedding of [storage_csv.py], [storage_json.py],
    [movie_app.py] and [main.py], and the properties of the specification proved (or
    refuted) on it.

    Conventions of the embedding.
    - A Python [str] is a [string]; characters are code points below 256.
    - A Python [int] is a [Z], a Python [float] is a binary64 [float].
    - A raised exception is a value [Raise e] of [result]; an exception that
      the source catches is matched where the source catches it.
    - A dict is an association list in insertion order, as Python iterates it.
    - The library calls ([int], [float], [repr], [format], [sum], [max],
      [min], the [csv] writer, reader and [DictReader], text-mode reading)
      follow CPython 3.11. [sum] adds from left to right; later versions
      compensate the rounding of a sum of floats, which changes no sum that
      is exact.
    - A JSON file is its document: the members of the top-level object, in
      order. A CSV file is its text.
    - The prompts of the commands are not part of the output recorded; the
      answers typed are arguments of the commands. *)

From Stdlib Require Import ZArith NArith List String Ascii Bool Lia Floats.
From Stdlib Require Import Decimal DecimalString DecimalZ DecimalFacts.
Import ListNotations.

Set Implicit Arguments.

(* ================================================================== *)
(** * Exceptions *)
(* ================================================================== *)

Inductive exn : Type :=
| TypeError
| ValueError
| KeyError
| OverflowError
| ZeroDivisionError
| UnicodeDecodeError
| CsvError.

Inductive result (A : Type) : Type :=
| Ok (a : A)
| Raise (e : exn).

Arguments Ok {A} a.
Arguments Raise {A} e.

Definition bind {A B : Type} (c : result A) (k : A -> result B) : result B :=
  match c with
  | Ok a => k a
  | Raise e => Raise e
  end.

Notation "x <- c ;; k" := (bind c (fun x => k))
  (at level 61, c at next level, right associativity).

Definition is_ok {A : Type} (c : result A) : bool :=
  match c with Ok _ => true | Raise _ => false end.

(* ================================================================== *)
(** * Python builtins used by the sources *)
(* ================================================================== *)

Module Py.

Definition text := list ascii.

Definition code (c : ascii) : N := N_of_ascii c.

Definition LF : ascii := "010"%char.
Definition CR : ascii := "013"%char.
Definition QUOTE : ascii := "034"%char.
Definition COMMA : ascii := ","%char.

(** [str.isspace] on the code points below 256. *)
Definition isspace (c : ascii) : bool :=
  let n := code c in
  ((9 <=? n) && (n <=? 13) || (28 <=? n) && (n <=? 32) || (n =? 133) || (n =? 160))%N.

(** The white space that [int(s)] and [float(s)] skip at both ends. *)
Definition isspace_num (c : ascii) : bool :=
  let n := code c in
  ((9 <=? n) && (n <=? 13) || (n =? 32) || (n =? 133) || (n =? 160))%N.

Fixpoint lstrip (p : ascii -> bool) (s : text) : text :=
  match s with
  | c :: r => if p c then lstrip p r else s
  | [] => []
  end.

Definition rstrip (p : ascii -> bool) (s : text) : text :=
  List.rev (lstrip p (List.rev s)).

(** [s.strip()] *)
Definition strip (s : string) : string :=
  string_of_list_ascii (rstrip isspace (lstrip isspace (list_ascii_of_string s))).

(** ** Decimal digits *)

Definition digit_of_char (c : ascii) : option (uint -> uint) :=
  match c with
  | "0"%char => Some D0 | "1"%char => Some D1 | "2"%char => Some D2
  | "3"%char => Some D3 | "4"%char => Some D4 | "5"%char => Some D5
  | "6"%char => Some D6 | "7"%char => Some D7 | "8"%char => Some D8
  | "9"%char => Some D9
  | _ => None
  end.

(** After a digit: the rest of [digit (["_"] digit)*]. *)
Fixpoint digitpart_tail (s : text) : uint * text :=
  match s with
  | c :: r =>
      match digit_of_char c with
      | Some d => let (u, rest) := digitpart_tail r in (d u, rest)
      | None =>
          if Ascii.eqb c "_" then
            match r with
            | c2 :: r2 =>
                match digit_of_char c2 with
                | Some d => let (u, rest) := digitpart_tail r2 in (d u, rest)
                | None => (Nil, s)
                end
            | [] => (Nil, s)
            end
          else (Nil, s)
      end
  | [] => (Nil, [])
  end.

Definition digitpart (s : text) : option (uint * text) :=
  match s with
  | c :: r =>
      match digit_of_char c with
      | Some d => let (u, rest) := digitpart_tail r in Some (d u, rest)
      | None => None
      end
  | [] => None
  end.

Definition sign_of (s : text) : bool * text :=
  match s with
  | "-"%char :: r => (true, r)
  | "+"%char :: r => (false, r)
  | _ => (false, s)
  end.

(** [int(s)] for a [str] argument; [None] is [ValueError].  The
    interpreter's limit on the digits of an [int] read from or written as
    text ([sys.set_int_max_str_digits], 4300 by default) is taken as
    lifted, here and in [str_of_int]. *)
Definition int_of_str (s : string) : option Z :=
  let t := rstrip isspace_num (lstrip isspace_num (list_ascii_of_string s)) in
  let (neg, t1) := sign_of t in
  match digitpart t1 with
  | Some (u, []) => Some (if neg then Z.opp (Z.of_uint u) else Z.of_uint u)
  | _ => None
  end.

(** [str(n)] for an [int]. *)
Definition str_of_int (z : Z) : string := NilZero.string_of_int (Z.to_int z).

(** The characters of a string of decimal digits. *)
Definition chars (d : uint) : text :=
  list_ascii_of_string (NilEmpty.string_of_uint d).

(** ** Floats *)

Definition SFnearest (neg : bool) (m : Z) (k : Z) : spec_float :=
  (* the binary64 value nearest to [m * 10^k], ties to even, for [0 <= m] *)
  if (m =? 0)%Z then S754_zero neg
  else if (0 <=? k)%Z then
    binary_normalize prec emax (cond_Zopp neg (m * 10 ^ k)) 0 neg
  else
    let '(q, e, l) := SFdiv_core_binary prec emax m 0 (10 ^ (- k)) 0 in
    binary_round_aux prec emax neg q e l.

Definition float_of_decimal (neg : bool) (m : Z) (k : Z) : float :=
  SF2Prim (SFnearest neg m k).

Definition lower (c : ascii) : ascii :=
  let n := code c in
  if ((65 <=? n) && (n <=? 90))%N then ascii_of_N (n + 32) else c.

Definition text_eqb (a b : text) : bool :=
  String.eqb (string_of_list_ascii a) (string_of_list_ascii b).

Definition opt_digitpart (s : text) : option uint * text :=
  match digitpart s with
  | Some (u, r) => (Some u, r)
  | None => (None, s)
  end.

(** [exponent ::= ("e" | "E") [sign] digitpart], when present. *)
Definition exponent_of (s : text) : option (Z * text) :=
  match s with
  | c :: r =>
      if Ascii.eqb (lower c) "e" then
        let (neg, r1) := sign_of r in
        match digitpart r1 with
        | Some (u, r2) => Some (if neg then Z.opp (Z.of_uint u) else Z.of_uint u, r2)
        | None => None
        end
      else Some (0%Z, s)
  | [] => Some (0%Z, [])
  end.

Definition number_of (neg : bool) (s : text) : option float :=
  let (ip, r1) := opt_digitpart s in
  let '(fp, r2, dot) :=
    match r1 with
    | "."%char :: r => let (fp, r') := opt_digitpart r in (fp, r', true)
    | _ => (None, r1, false)
    end in
  let mant :=
    match ip, fp with
    | Some i, Some f => Some (Decimal.app i f, Z.of_nat (nb_digits f))
    | Some i, None => Some (i, 0%Z)
    | None, Some f => if dot then Some (f, Z.of_nat (nb_digits f)) else None
    | None, None => None
    end in
  match mant with
  | Some (u, nfrac) =>
      match exponent_of r2 with
      | Some (ex, []) => Some (float_of_decimal neg (Z.of_uint u) (ex - nfrac))
      | _ => None
      end
  | None => None
  end.

(** [float(s)] for a [str] argument; [None] is [ValueError]. *)
Definition float_of_str (s : string) : option float :=
  let t := rstrip isspace_num (lstrip isspace_num (list_ascii_of_string s)) in
  let (neg, t1) := sign_of t in
  let l := List.map lower t1 in
  if text_eqb l (list_ascii_of_string "inf") || text_eqb l (list_ascii_of_string "infinity")
  then Some (if neg then neg_infinity else infinity)
  else if text_eqb l (list_ascii_of_string "nan") then Some nan
  else number_of neg t1.

(** ** Printing numbers *)

Definition digit_char (d : Z) : ascii := ascii_of_N (48 + Z.to_N d).

(** The decimal digits of a natural number, most significant first. *)
Definition digits_of (n : Z) : text :=
  list_ascii_of_string (NilZero.string_of_uint (N.to_uint (Z.to_N n))).

(** [a / b] rounded to the nearest integer, ties to even ([0 <= a], [0 < b]). *)
Definition div_half_even (a b : Z) : Z :=
  let q := (a / b)%Z in
  let r := (a mod b)%Z in
  match (2 * r ?= b)%Z with
  | Lt => q
  | Gt => (q + 1)%Z
  | Eq => if Z.even q then q else (q + 1)%Z
  end.

(** [format(x, ".2f")] *)
Definition format_2f (x : float) : string :=
  match Prim2SF x with
  | S754_nan => "nan"
  | S754_infinity s => if s then "-inf" else "inf"
  | S754_zero s => if s then "-0.00" else "0.00"
  | S754_finite s m e =>
      let n :=
        if (0 <=? e)%Z then (Zpos m * 2 ^ e * 100)%Z
        else div_half_even (Zpos m * 100) (2 ^ (- e)) in
      let frac := (n mod 100)%Z in
      string_of_list_ascii
        ((if s then ["-"%char] else []) ++ digits_of (n / 100)
           ++ ["."%char; digit_char (frac / 10); digit_char (frac mod 10)])
  end.

(** The position of the decimal point of [num / den]: the [k] with
    [10^(k-1) <= num / den < 10^k], for positive [num] and [den]. *)
Definition decimal_point (num den : Z) : Z :=
  let nd x := Z.of_nat (List.length (digits_of x)) in
  if (den <=? num)%Z then nd (num / den)%Z
  else
    let j := (nd den - nd num)%Z in
    if (den <=? num * 10 ^ j)%Z then (1 - Z.max j 1)%Z else (- j)%Z.

Fixpoint strip_zeros_rev (s : text) : text :=
  match s with
  | "0"%char :: r => strip_zeros_rev r
  | _ => s
  end.

Definition strip_trailing_zeros (s : text) : text :=
  List.rev (strip_zeros_rev (List.rev s)).

(** The shortest digit string that reads back as the float [S754_finite
    false m e], and its decimal point: the pair [(digits, decpt)] with value
    [0.digits * 10^decpt].  Candidates with [n] digits are the two that
    bracket the exact value; among those that read back, the nearer one. *)
Fixpoint shortest_from (fuel : nat) (n : Z) (m : positive) (e : Z) (num den k : Z)
  : text * Z :=
  let sh := (n - k)%Z in
  let a := if (0 <=? sh)%Z then (num * 10 ^ sh)%Z else num in
  let b := if (0 <=? sh)%Z then den else (den * 10 ^ (- sh))%Z in
  let lo := (a / b)%Z in
  let r := (a mod b)%Z in
  let back c :=
    match SFnearest false c (k - n) with
    | S754_finite false m' e' => Pos.eqb m m' && Z.eqb e e'
    | _ => false
    end in
  let pick c :=
    let ds := digits_of c in
    (strip_trailing_zeros ds, (k + (Z.of_nat (List.length ds) - n))%Z) in
  let nearest := div_half_even a b in
  match fuel with
  | O => pick nearest
  | S fuel' =>
      if (r =? 0)%Z then (if back lo then pick lo else shortest_from fuel' (n + 1) m e num den k)
      else
        match back lo, back (lo + 1)%Z with
        | true, true => pick nearest
        | true, false => pick lo
        | false, true => pick (lo + 1)%Z
        | false, false => shortest_from fuel' (n + 1) m e num den k
        end
  end.

Definition shortest_digits (m : positive) (e : Z) : text * Z :=
  let num := if (0 <=? e)%Z then (Zpos m * 2 ^ e)%Z else Zpos m in
  let den := if (0 <=? e)%Z then 1%Z else (2 ^ (- e))%Z in
  shortest_from 16 1 m e num den (decimal_point num den).

Definition zeros (n : Z) : text := List.repeat "0"%char (Z.to_nat n).

(** [repr(x)] for a [float] (which is also [str(x)]). *)
Definition repr_float (x : float) : string :=
  match Prim2SF x with
  | S754_nan => "nan"
  | S754_infinity s => if s then "-inf" else "inf"
  | S754_zero s => if s then "-0.0" else "0.0"
  | S754_finite s m e =>
      let (ds, decpt) := shortest_digits m e in
      let nd := Z.of_nat (List.length ds) in
      let body :=
        if ((decpt <=? -4) || (16 <? decpt))%Z then
          let ex := (decpt - 1)%Z in
          let exd := digits_of (Z.abs ex) in
          List.firstn 1 ds
            ++ (if (1 <? nd)%Z then "."%char :: List.skipn 1 ds else [])
            ++ ["e"%char; if (ex <? 0)%Z then "-"%char else "+"%char]
            ++ (if (Z.abs ex <? 10)%Z then "0"%char :: exd else exd)
        else if (decpt <=? 0)%Z then
          ["0"%char; "."%char] ++ zeros (- decpt) ++ ds
        else if (nd <=? decpt)%Z then
          ds ++ zeros (decpt - nd) ++ ["."%char; "0"%char]
        else
          List.firstn (Z.to_nat decpt) ds ++ "."%char :: List.skipn (Z.to_nat decpt) ds in
      string_of_list_ascii ((if s then ["-"%char] else []) ++ body)
  end.

(** ** Values

    The scalars that a field of a movie record can hold. *)

Inductive value : Type :=
| PNone
| PBool (b : bool)
| PInt (z : Z)
| PFloat (f : float)
| PStr (s : string).

(** [isinstance(v, (int, float))]; [bool] is a subclass of [int]. *)
Definition isinstance_number (v : value) : bool :=
  match v with
  | PBool _ | PInt _ | PFloat _ => true
  | PNone | PStr _ => false
  end.

Inductive num : Type :=
| NInt (z : Z)
| NFloat (f : float).

Definition as_num (v : value) : option num :=
  match v with
  | PBool b => Some (NInt (Z.b2z b))
  | PInt z => Some (NInt z)
  | PFloat f => Some (NFloat f)
  | PNone | PStr _ => None
  end.

(** The conversion of an [int] to a [float]: nearest, ties to even. *)
Definition float_of_int (z : Z) : result float :=
  match binary_normalize prec emax z 0 false with
  | S754_infinity _ => Raise OverflowError
  | sf => Ok (SF2Prim sf)
  end.

Definition to_float (n : num) : result float :=
  match n with
  | NInt z => float_of_int z
  | NFloat f => Ok f
  end.

(** [a + b] *)
Definition add (a b : value) : result value :=
  match as_num a, as_num b with
  | Some (NInt x), Some (NInt y) => Ok (PInt (x + y))
  | Some x, Some y =>
      fx <- to_float x ;; fy <- to_float y ;; Ok (PFloat (fx + fy))
  | _, _ =>
      match a, b with
      | PStr x, PStr y => Ok (PStr (x ++ y))
      | _, _ => Raise TypeError
      end
  end.

(** [sum(l)]: the fold of [+] from the [int] 0. *)
Fixpoint sum_from (acc : value) (l : list value) : result value :=
  match l with
  | [] => Ok acc
  | x :: r => acc' <- add acc x ;; sum_from acc' r
  end.

Definition sum (l : list value) : result value := sum_from (PInt 0) l.

(** [a / b] on two [int]s: the quotient rounded to the nearest float. *)
Definition int_truediv (a b : Z) : result float :=
  if (b =? 0)%Z then Raise ZeroDivisionError
  else
    let neg := xorb (a <? 0)%Z (b <? 0)%Z in
    if (a =? 0)%Z then Ok (SF2Prim (S754_zero neg))
    else
      let '(q, e, l) := SFdiv_core_binary prec emax (Z.abs a) 0 (Z.abs b) 0 in
      match binary_round_aux prec emax neg q e l with
      | S754_infinity _ => Raise OverflowError
      | sf => Ok (SF2Prim sf)
      end.

(** [a / b]: a [float], whatever the numbers are. *)
Definition truediv (a b : value) : result float :=
  match as_num a, as_num b with
  | Some (NInt x), Some (NInt y) => int_truediv x y
  | Some x, Some y =>
      fx <- to_float x ;; fy <- to_float y ;;
      if PrimFloat.eqb fy 0 then Raise ZeroDivisionError else Ok (fx / fy)%float
  | _, _ => Raise TypeError
  end.

(** The order of an [int] and a [float], compared exactly. *)
Definition compare_int_float (z : Z) (f : float) : option comparison :=
  match Prim2SF f with
  | S754_nan => None
  | S754_infinity s => Some (if s then Gt else Lt)
  | S754_zero _ => Some (z ?= 0)%Z
  | S754_finite s m e =>
      let v := cond_Zopp s (Zpos m) in
      if (0 <=? e)%Z then Some (z ?= v * 2 ^ e)%Z
      else Some (z * 2 ^ (- e) ?= v)%Z
  end.

Definition num_compare (a b : num) : option comparison :=
  match a, b with
  | NInt x, NInt y => Some (x ?= y)%Z
  | NInt x, NFloat y => compare_int_float x y
  | NFloat x, NInt y => option_map CompOpp (compare_int_float y x)
  | NFloat x, NFloat y =>
      match PrimFloat.compare x y with
      | FEq => Some Eq
      | FLt => Some Lt
      | FGt => Some Gt
      | FNotComparable => None
      end
  end.

(** [a > b] and [a < b]: numbers with numbers, strings with strings. *)
Definition gt (a b : value) : result bool :=
  match as_num a, as_num b with
  | Some x, Some y =>
      Ok (match num_compare x y with Some Gt => true | _ => false end)
  | _, _ =>
      match a, b with
      | PStr x, PStr y => Ok (String.ltb y x)
      | _, _ => Raise TypeError
      end
  end.

Definition lt (a b : value) : result bool :=
  match as_num a, as_num b with
  | Some x, Some y =>
      Ok (match num_compare x y with Some Lt => true | _ => false end)
  | _, _ =>
      match a, b with
      | PStr x, PStr y => Ok (String.ltb x y)
      | _, _ => Raise TypeError
      end
  end.

(** [str(v)] *)
Definition str (v : value) : string :=
  match v with
  | PNone => "None"
  | PBool true => "True"
  | PBool false => "False"
  | PInt z => str_of_int z
  | PFloat f => repr_float f
  | PStr s => s
  end.

(** [int(v)] *)
Definition int_ (v : value) : result Z :=
  match v with
  | PNone => Raise TypeError
  | PBool b => Ok (Z.b2z b)
  | PInt z => Ok z
  | PFloat f =>
      match Prim2SF f with
      | S754_nan => Raise ValueError
      | S754_infinity _ => Raise OverflowError
      | S754_zero _ => Ok 0%Z
      | S754_finite s m e =>
          Ok (cond_Zopp s (if (0 <=? e)%Z then Zpos m * 2 ^ e else Zpos m / 2 ^ (- e)))%Z
      end
  | PStr s =>
      match int_of_str s with
      | Some z => Ok z
      | None => Raise ValueError
      end
  end.

(** [float(v)] *)
Definition float_ (v : value) : result float :=
  match v with
  | PNone => Raise TypeError
  | PBool b => float_of_int (Z.b2z b)
  | PInt z => float_of_int z
  | PFloat f => Ok f
  | PStr s =>
      match float_of_str s with
      | Some f => Ok f
      | None => Raise ValueError
      end
  end.

(** [try: c  except e: h] *)
Definition catch {A : Type} (c : result A) (handled : exn -> bool) (h : result A)
  : result A :=
  match c with
  | Ok a => Ok a
  | Raise e => if handled e then h else Raise e
  end.

Definition is_ValueError (e : exn) : bool :=
  match e with ValueError => true | _ => false end.

(** [max(l, key=keyf)] and [min(l, key=keyf)]: the first item is kept
    until a later one compares strictly greater (smaller). *)
Section MaxMin.
Variable A : Type.
Variable keyf : A -> result value.

Fixpoint max_loop (best : A) (bestval : value) (l : list A) : result A :=
  match l with
  | [] => Ok best
  | item :: r =>
      val <- keyf item ;;
      g <- gt val bestval ;;
      if g then max_loop item val r else max_loop best bestval r
  end.

Definition max_key (l : list A) : result A :=
  match l with
  | [] => Raise ValueError
  | item :: r => val <- keyf item ;; max_loop item val r
  end.

Fixpoint min_loop (best : A) (bestval : value) (l : list A) : result A :=
  match l with
  | [] => Ok best
  | item :: r =>
      val <- keyf item ;;
      g <- lt val bestval ;;
      if g then min_loop item val r else min_loop best bestval r
  end.

Definition min_key (l : list A) : result A :=
  match l with
  | [] => Raise ValueError
  | item :: r => val <- keyf item ;; min_loop item val r
  end.
End MaxMin.

(** ** Dicts

    An association list in insertion order; assigning to a key that is
    present keeps the key's position, as in Python. *)

Section Dict.
Variables K V : Type.
Variable eqb : K -> K -> bool.

Definition dict : Type := list (K * V).

Fixpoint dict_get (d : dict) (k : K) : option V :=
  match d with
  | [] => None
  | (k', v) :: r => if eqb k' k then Some v else dict_get r k
  end.

(** [k in d] *)
Definition dict_contains (d : dict) (k : K) : bool :=
  match dict_get d k with Some _ => true | None => false end.

(** [d[k] = v] *)
Fixpoint dict_set (d : dict) (k : K) (v : V) : dict :=
  match d with
  | [] => [(k, v)]
  | (k', v') :: r =>
      if eqb k' k then (k', v) :: r else (k', v') :: dict_set r k v
  end.

(** [del d[k]] *)
Fixpoint dict_del (d : dict) (k : K) : dict :=
  match d with
  | [] => []
  | (k', v') :: r => if eqb k' k then r else (k', v') :: dict_del r k
  end.

(** The value under [k] replaced by [f] of it, in place. *)
Fixpoint dict_modify (d : dict) (k : K) (f : V -> V) : dict :=
  match d with
  | [] => []
  | (k', v') :: r =>
      if eqb k' k then (k', f v') :: r else (k', v') :: dict_modify r k f
  end.

Definition dict_keys (d : dict) : list K := List.map fst d.
Definition dict_values (d : dict) : list V := List.map snd d.

(** [dict(pairs)] *)
Definition dict_of (pairs : list (K * V)) : dict :=
  List.fold_left (fun d kv => dict_set d (fst kv) (snd kv)) pairs [].
End Dict.

(** A key of the collection: a title, or [None]. *)
Definition key : Type := option string.

Definition key_eqb (a b : key) : bool :=
  match a, b with
  | Some x, Some y => String.eqb x y
  | None, None => true
  | _, _ => false
  end.

(** [str(k)], as an f-string prints a key. *)
Definition str_key (k : key) : string :=
  match k with
  | Some s => s
  | None => "None"
  end.

(** ** [str.replace]

    [s.replace(old, new)] for a non-empty [old]: the occurrences of [old]
    are found from left to right, none overlapping the one before; [skip]
    counts the characters of an occurrence still to be passed over. *)
Fixpoint replace_from (skip : nat) (old new s : string) : string :=
  match s with
  | EmptyString => EmptyString
  | String c r =>
      match skip with
      | S k => replace_from k old new r
      | O =>
          if String.prefix old s
          then new ++ replace_from (String.length old - 1) old new r
          else String c (replace_from 0 old new r)
      end
  end.

Definition replace (s old new : string) : string := replace_from 0 old new s.

End Py.

(* ================================================================== *)
(** * The data model *)
(* ================================================================== *)

(** The dict [{"year": ..., "rating": ..., "poster": ...}] that both
    backends store under a title. *)
Record info : Type := Info { year : Py.value; rating : Py.value; poster : Py.value }.

(** The collection: a dict from title to record. *)
Definition collection : Type := list (Py.key * info).

Definition get (d : collection) (k : Py.key) : option info := Py.dict_get Py.key_eqb d k.
Definition contains (d : collection) (k : Py.key) : bool := Py.dict_contains Py.key_eqb d k.
Definition set (d : collection) (k : Py.key) (v : info) : collection := Py.dict_set Py.key_eqb d k v.
Definition del (d : collection) (k : Py.key) : collection := Py.dict_del Py.key_eqb d k.

(** [d[k]["rating"] = r] *)
Definition set_rating (d : collection) (k : Py.key) (r : Py.value) : collection :=
  Py.dict_modify Py.key_eqb d k (fun i => Info (year i) r (poster i)).

(* ================================================================== *)
(** * The [csv] module, for the default (excel) dialect

    Delimiter [,], quote character the double quote, doubled quotes inside
    a quoted field, line terminator CR LF, minimal quoting, no escape
    character, not strict. *)
(* ================================================================== *)

Module Csv.
Import Py.

Definition row : Type := list text.

(** ** [csv.writer] *)

Definition special (c : ascii) : bool :=
  Ascii.eqb c COMMA || Ascii.eqb c QUOTE || Ascii.eqb c CR || Ascii.eqb c LF.

Fixpoint double_quotes (s : text) : text :=
  match s with
  | [] => []
  | c :: r => if Ascii.eqb c QUOTE then QUOTE :: QUOTE :: double_quotes r
              else c :: double_quotes r
  end.

Definition join_field (f : text) : text :=
  if List.existsb special f then QUOTE :: double_quotes f ++ [QUOTE] else f.

Fixpoint join_fields (r : row) : text :=
  match r with
  | [] => []
  | [f] => join_field f
  | f :: r' => join_field f ++ COMMA :: join_fields r'
  end.

(** [writer.writerow(r)]: the text written. *)
Definition writerow (r : row) : text :=
  match r with
  | [ [] ] => [QUOTE; QUOTE; CR; LF]
  | _ => join_fields r ++ [CR; LF]
  end.

(** ** Reading a text file opened without [newline=""]

    Universal newlines: CR LF and a lone CR are read as LF.  Iterating over
    the file yields its lines, each with its LF. *)

Fixpoint universal_newlines (s : text) : text :=
  match s with
  | [] => []
  | c :: r =>
      if Ascii.eqb c CR then
        LF :: match r with
              | c2 :: r2 => if Ascii.eqb c2 LF then universal_newlines r2
                            else universal_newlines r
              | [] => []
              end
      else c :: universal_newlines r
  end.

Fixpoint lines (s : text) : list text :=
  match s with
  | [] => []
  | c :: r =>
      if Ascii.eqb c LF then [c] :: lines r
      else match lines r with
           | [] => [[c]]
           | l :: ls => (c :: l) :: ls
           end
  end.

(** ** [csv.reader] *)

Definition field_limit : N := 131072.

Inductive pstate : Type :=
| START_RECORD
| START_FIELD
| IN_FIELD
| IN_QUOTED_FIELD
| QUOTE_IN_QUOTED_FIELD
| EAT_CRNL.

(** The reader object: the field being read (last character first), its
    length, and the fields of the record read so far (last field first). *)
Record reader : Type := Reader {
  state : pstate;
  field : text;
  field_len : N;
  fields : list text
}.

Definition parse_reset : reader := Reader START_RECORD [] 0 [].

Definition set_state (s : pstate) (r : reader) : reader :=
  Reader s (field r) (field_len r) (fields r).

Definition parse_add_char (r : reader) (c : ascii) : result reader :=
  if (field_limit <=? field_len r)%N then Raise CsvError
  else Ok (Reader (state r) (c :: field r) (field_len r + 1) (fields r)).

Definition parse_save_field (r : reader) : reader :=
  Reader (state r) [] 0 (List.rev (field r) :: fields r).

Definition is_nl (c : ascii) : bool := Ascii.eqb c LF || Ascii.eqb c CR.

(** The case [START_FIELD], which [START_RECORD] falls through to. *)
Definition start_field (r : reader) (c : option ascii) : result reader :=
  match c with
  | None => Ok (set_state START_RECORD (parse_save_field r))
  | Some ch =>
      if is_nl ch then Ok (set_state EAT_CRNL (parse_save_field r))
      else if Ascii.eqb ch QUOTE then Ok (set_state IN_QUOTED_FIELD r)
      else if Ascii.eqb ch COMMA then Ok (set_state START_FIELD (parse_save_field r))
      else r' <- parse_add_char r ch ;; Ok (set_state IN_FIELD r')
  end.

(** [parse_process_char]; the character [None] is the end of a line. *)
Definition parse_process_char (r : reader) (c : option ascii) : result reader :=
  match state r with
  | START_RECORD =>
      match c with
      | None => Ok r
      | Some ch => if is_nl ch then Ok (set_state EAT_CRNL r) else start_field r c
      end
  | START_FIELD => start_field r c
  | IN_FIELD =>
      match c with
      | None => Ok (set_state START_RECORD (parse_save_field r))
      | Some ch =>
          if is_nl ch then Ok (set_state EAT_CRNL (parse_save_field r))
          else if Ascii.eqb ch COMMA then Ok (set_state START_FIELD (parse_save_field r))
          else parse_add_char r ch
      end
  | IN_QUOTED_FIELD =>
      match c with
      | None => Ok r
      | Some ch =>
          if Ascii.eqb ch QUOTE then Ok (set_state QUOTE_IN_QUOTED_FIELD r)
          else parse_add_char r ch
      end
  | QUOTE_IN_QUOTED_FIELD =>
      match c with
      | None => Ok (set_state START_RECORD (parse_save_field r))
      | Some ch =>
          if Ascii.eqb ch QUOTE then
            r' <- parse_add_char r ch ;; Ok (set_state IN_QUOTED_FIELD r')
          else if Ascii.eqb ch COMMA then Ok (set_state START_FIELD (parse_save_field r))
          else if is_nl ch then Ok (set_state EAT_CRNL (parse_save_field r))
          else r' <- parse_add_char r ch ;; Ok (set_state IN_FIELD r')
      end
  | EAT_CRNL =>
      match c with
      | None => Ok (set_state START_RECORD r)
      | Some ch => if is_nl ch then Ok r else Raise CsvError
      end
  end.

Fixpoint feed (r : reader) (line : text) : result reader :=
  match line with
  | [] => Ok r
  | c :: l => r' <- parse_process_char r (Some c) ;; feed r' l
  end.

Definition pstate_eqb (a b : pstate) : bool :=
  match a, b with
  | START_RECORD, START_RECORD | START_FIELD, START_FIELD | IN_FIELD, IN_FIELD
  | IN_QUOTED_FIELD, IN_QUOTED_FIELD
  | QUOTE_IN_QUOTED_FIELD, QUOTE_IN_QUOTED_FIELD | EAT_CRNL, EAT_CRNL => true
  | _, _ => false
  end.

(** The rows that iterating over the reader yields, and the exception that
    ends the iteration, if one does: the rows before it were yielded. *)
Fixpoint read_rows (r : reader) (ls : list text) : list row * option exn :=
  match ls with
  | [] =>
      if (0 <? field_len r)%N || pstate_eqb (state r) IN_QUOTED_FIELD
      then ([List.rev (fields (parse_save_field r))], None)
      else ([], None)
  | l :: ls' =>
      match (r1 <- feed r l ;; parse_process_char r1 None) with
      | Raise e => ([], Some e)
      | Ok r2 =>
          if pstate_eqb (state r2) START_RECORD then
            let (rows, err) := read_rows parse_reset ls' in
            (List.rev (fields r2) :: rows, err)
          else read_rows r2 ls'
      end
  end.

Definition reader_rows (ls : list text) : list row * option exn :=
  read_rows parse_reset ls.

(** ** [csv.DictReader]

    The first row names the fields.  A row without fields is skipped; a
    short row is completed with [None]; the surplus fields of a long row go
    under the key [None], which no string key reads. *)

Definition rowdict : Type := list (string * option string).

Definition rowdict_get (d : rowdict) (k : string) : result (option string) :=
  match dict_get String.eqb d k with
  | Some v => Ok v
  | None => Raise KeyError
  end.

Definition zip_row (fieldnames : list string) (r : row) : rowdict :=
  let d := dict_of String.eqb
             (List.map (fun kv => (fst kv, Some (string_of_list_ascii (snd kv))))
                       (List.combine fieldnames r)) in
  List.fold_left (fun d k => dict_set String.eqb d k None)
                 (List.skipn (List.length r) fieldnames) d.

Definition is_blank (r : row) : bool :=
  match r with [] => true | _ => false end.

Definition DictReader (ls : list text) : list rowdict * option exn :=
  match reader_rows ls with
  | ([], err) => ([], err)
  | (header :: data, err) =>
      let fieldnames := List.map string_of_list_ascii header in
      (List.map (zip_row fieldnames) (List.filter (fun r => negb (is_blank r)) data), err)
  end.

(** ** [csv.DictWriter] with the field names given *)

(** A field as the writer takes it: [None] is written empty, a [str] as it
    is, anything else as its [str()]. *)
Definition field_text (v : value) : text :=
  match v with
  | PNone => []
  | _ => list_ascii_of_string (str v)
  end.

(** ** An auxiliary view of the reader

    The reader fed the characters [s], the end of a line after each line
    feed, as long as that completes no record and raises nothing. *)
Fixpoint advance (r : reader) (s : text) : option reader :=
  match s with
  | [] => Some r
  | c :: s' =>
      if Ascii.eqb c LF then
        match (r1 <- parse_process_char r (Some c) ;; parse_process_char r1 None) with
        | Ok r2 => if pstate_eqb (state r2) START_RECORD then None else advance r2 s'
        | Raise _ => None
        end
      else
        match parse_process_char r (Some c) with
        | Ok r1 => advance r1 s'
        | Raise _ => None
        end
  end.

(** The length of a text, as the reader counts it. *)
Definition len (t : text) : N := N.of_nat (List.length t).

(** A text without a carriage return. *)
Definition no_cr (t : text) : Prop := List.existsb (Ascii.eqb CR) t = false.

End Csv.

(* ================================================================== *)
(** * storage_csv.py *)
(* ================================================================== *)

Module StorageCsv.
Import Py.

(** The file at [file_path]: absent, or bytes that are not UTF-8 (the first
    read raises [UnicodeDecodeError]), or a text. *)
Inductive file : Type :=
| Absent
| Undecodable
| Text (s : string).

Definition fieldnames : list string := ["title"; "year"; "rating"; "poster"]%string.

(** [except (IOError, KeyError, csv.Error)] *)
Definition handled (e : exn) : bool :=
  match e with
  | KeyError | CsvError => true
  | _ => false
  end.

Definition opt_value (o : option string) : value :=
  match o with
  | Some s => PStr s
  | None => PNone
  end.

(** The body of [for row in reader]. *)
Definition load_row (row : Csv.rowdict) (movies : collection) : result collection :=
  title <- Csv.rowdict_get row "title" ;;
  y <- Csv.rowdict_get row "year" ;;
  year <- catch (z <- int_ (opt_value y) ;; Ok (PInt z)) is_ValueError (Ok PNone) ;;
  r <- Csv.rowdict_get row "rating" ;;
  rating <- catch (f <- float_ (opt_value r) ;; Ok (PFloat f)) is_ValueError (Ok PNone) ;;
  p <- Csv.rowdict_get row "poster" ;;
  Ok (set movies title (Info year rating (opt_value p))).

Fixpoint load_rows (rows : list Csv.rowdict) (movies : collection) : result collection :=
  match rows with
  | [] => Ok movies
  | row :: rest => m <- load_row row movies ;; load_rows rest m
  end.

Definition _load_data (f : file) : result collection :=
  match f with
  | Absent => Ok []
  | Undecodable => Raise UnicodeDecodeError
  | Text s =>
      let (rows, err) :=
        Csv.DictReader (Csv.lines (Csv.universal_newlines (list_ascii_of_string s))) in
      catch (m <- load_rows rows [] ;;
             match err with Some e => Raise e | None => Ok m end)
            handled (Ok [])
  end.

Definition title_text (k : key) : text :=
  match k with
  | Some s => list_ascii_of_string s
  | None => []
  end.

Definition save_row (kv : key * info) : Csv.row :=
  [ title_text (fst kv); Csv.field_text (year (snd kv));
    Csv.field_text (rating (snd kv)); Csv.field_text (poster (snd kv)) ].

Definition header : Csv.row := List.map list_ascii_of_string fieldnames.

(** The file is opened for writing with [newline=""]: what the writer
    writes is what the file holds. *)
Definition _save_data (movies : collection) : file :=
  Text (string_of_list_ascii
          (Csv.writerow header ++ List.concat (List.map (fun kv => Csv.writerow (save_row kv)) movies))).

Definition list_movies (f : file) : result collection := _load_data f.

Definition add_movie (title : key) (year rating poster : value) (f : file) : result file :=
  movies <- _load_data f ;;
  Ok (_save_data (set movies title (Info year rating poster))).

Definition delete_movie (title : key) (f : file) : result file :=
  movies <- _load_data f ;;
  Ok (_save_data (if contains movies title then del movies title else movies)).

Definition update_movie (title : key) (rating : value) (f : file) : result file :=
  movies <- _load_data f ;;
  Ok (_save_data (if contains movies title then set_rating movies title rating else movies)).

(** ** The collections that the file represents exactly

    Titles and posters are texts, a year is an [int] or [None], a rating is
    a [float] or [None]; no title occurs twice; every field, as written,
    holds no carriage return and fits the field size limit of the reader;
    a rating reads back from its [repr] as itself (as every binary64 value
    does in CPython). *)

Definition field_ok (t : text) : bool :=
  negb (List.existsb (Ascii.eqb CR) t)
  && (N.of_nat (List.length t) <=? Csv.field_limit)%N.

Definition year_ok (v : value) : bool :=
  match v with
  | PNone | PInt _ => true
  | _ => false
  end.

Definition float_reads_back (x : float) : bool :=
  match float_of_str (repr_float x) with
  | Some y => PrimFloat.Leibniz.eqb x y
  | None => false
  end.

Definition rating_ok (v : value) : bool :=
  match v with
  | PNone => true
  | PFloat x => float_reads_back x
  | _ => false
  end.

Definition poster_ok (v : value) : bool :=
  match v with
  | PStr _ => true
  | _ => false
  end.

Definition entry_ok (kv : key * info) : bool :=
  match fst kv with Some _ => true | None => false end
  && year_ok (year (snd kv)) && rating_ok (rating (snd kv)) && poster_ok (poster (snd kv))
  && List.forallb field_ok (save_row kv).

(** A row that the writer can write and the reader read back: at least two
    fields, each without a carriage return and within the limit. *)
Definition writable (r : Csv.row) : Prop :=
  (2 <= List.length r)%nat /\ Forall (fun f => field_ok f = true) r.

Fixpoint distinct_keys (d : collection) : bool :=
  match d with
  | [] => true
  | (k, _) :: r => negb (contains r k) && distinct_keys r
  end.

Definition representable (d : collection) : bool :=
  distinct_keys d && List.forallb entry_ok d.

End StorageCsv.

(* ================================================================== *)
(** * storage_json.py

    [json.dump] and [json.load] are taken at the level of the document: the
    file is described by what [json.load] makes of it, not by its
    characters. *)
(* ================================================================== *)

Module StorageJson.
Import Py.

(** The file at [file_path]: absent; or bytes that are not UTF-8; or a text
    that [json.load] rejects with [JSONDecodeError] (the empty file is one);
    or the text of a JSON object whose members, in the order written, are
    the titles with their records. *)
Inductive file : Type :=
| Absent
| Undecodable
| Malformed
| Document (members : list (string * info)).

(** The key of a member as [json.dump] writes it: [None] becomes [null]. *)
Definition json_key (k : key) : string :=
  match k with
  | Some s => s
  | None => "null"
  end.

Definition _load_data (f : file) : result collection :=
  match f with
  | Absent => Ok []
  | Undecodable => Raise UnicodeDecodeError
  | Malformed => Ok []
  | Document members =>
      Ok (dict_of key_eqb (List.map (fun m => (Some (fst m), snd m)) members))
  end.

Definition _save_data (data : collection) : file :=
  Document (List.map (fun kv => (json_key (fst kv), snd kv)) data).

Definition list_movies (f : file) : result collection := _load_data f.

Definition add_movie (title : key) (year rating poster : value) (f : file) : result file :=
  movies <- _load_data f ;;
  Ok (_save_data (set movies title (Info year rating poster))).

Definition delete_movie (title : key) (f : file) : result file :=
  movies <- _load_data f ;;
  Ok (_save_data (if contains movies title then del movies title else movies)).

Definition update_movie (title : key) (rating : value) (f : file) : result file :=
  movies <- _load_data f ;;
  Ok (_save_data (if contains movies title then set_rating movies title rating else movies)).

End StorageJson.

(* ================================================================== *)
(** * The storage interface *)
(* ================================================================== *)

(** Modelled from the spec: [istorage.py], which declares the abstract base
    class [IStorage], is not among the sources; the interface is the four
    operations of the storage contract, as both backends define them and
    as [MovieApp] calls them.  [F] is the state of the backing file. *)
Class IStorage (F : Type) : Type := {
  list_movies : F -> result collection;
  add_movie : Py.key -> Py.value -> Py.value -> Py.value -> F -> result F;
  delete_movie : Py.key -> F -> result F;
  update_movie : Py.key -> Py.value -> F -> result F
}.

#[export] Instance StorageCsv_IStorage : IStorage StorageCsv.file := {
  list_movies := StorageCsv.list_movies;
  add_movie := StorageCsv.add_movie;
  delete_movie := StorageCsv.delete_movie;
  update_movie := StorageCsv.update_movie
}.

#[export] Instance StorageJson_IStorage : IStorage StorageJson.file := {
  list_movies := StorageJson.list_movies;
  add_movie := StorageJson.add_movie;
  delete_movie := StorageJson.delete_movie;
  update_movie := StorageJson.update_movie
}.

(* ================================================================== *)
(** * movie_app.py *)
(* ================================================================== *)

Module MovieApp.
Import Py.
Local Open Scope string_scope.

(** A call of a method of [self._storage]. *)
Inductive call : Type :=
| CallList
| CallAdd (title : key) (year rating poster : value)
| CallDelete (title : key)
| CallUpdate (title : key) (rating : value).

(** What [requests.get] and [response.json()] give for a title: no usable
    response ([RequestException]: no connection, timeout, error status, with
    its message), a body that is not JSON, or a JSON object, of which the
    members that are strings are kept, as the OMDb API sends them. *)
Inductive response : Type :=
| NoConnection (e : string)
| Garbled
| Reply (members : list (string * string)).

Definition metadata : Type := list (string * string).

(** [data.get(k, default)] *)
Definition get_default (data : metadata) (k default : string) : string :=
  match dict_get String.eqb data k with
  | Some v => v
  | None => default
  end.

(** ** The files of the website

    [_static/index_template.html] and [index.html]: a text file is absent,
    or bytes that are not UTF-8 (reading it raises [UnicodeDecodeError]),
    or a text.  The paths and the line ends written are those of a POSIX
    system: [os.path.join] joins with a slash, and a line feed is written
    as it is. *)
Inductive textfile : Type :=
| NoFile
| NotUtf8
| Content (s : string).

Record site : Type := Site {
  template : textfile;
  index_html : textfile
}.

Definition dq : string := String QUOTE "".
Definition nl : string := String LF "".

(** [os.path.join("_static", "index_template.html")] *)
Definition template_path : string := "_static/index_template.html".

(** [f.read()] on a file opened for reading without [newline]. *)
Definition read_text (s : string) : string :=
  string_of_list_ascii (Csv.universal_newlines (list_ascii_of_string s)).

(** The line of a movie in the list.  A record has its three fields, so
    the defaults of [info.get] are not reached. *)
Definition movie_line (kv : key * info) : string :=
  str_key (fst kv) ++ " (" ++ str (year (snd kv)) ++ ") - "
  ++ "Rating: " ++ str (rating (snd kv)) ++ " - "
  ++ "Poster: " ++ str (poster (snd kv)).

(** The [<li>] item of a movie in the page; the values are put in as
    [str] gives them, nothing escaped. *)
Definition movie_item (kv : key * info) : string :=
  let title := str_key (fst kv) in
  let poster_url := str (poster (snd kv)) in
  let year := str (year (snd kv)) in
  nl ++ "            <li>" ++ nl
  ++ "                <div class=" ++ dq ++ "movie" ++ dq ++ ">" ++ nl
  ++ "                    <img class=" ++ dq ++ "movie-poster" ++ dq
  ++ " src=" ++ dq ++ poster_url ++ dq ++ " alt=" ++ dq ++ "Poster" ++ dq ++ ">" ++ nl
  ++ "                    <div class=" ++ dq ++ "movie-title" ++ dq ++ ">" ++ title
  ++ "</div>" ++ nl
  ++ "                    <div class=" ++ dq ++ "movie-year" ++ dq ++ ">" ++ year
  ++ "</div>" ++ nl
  ++ "                </div>" ++ nl
  ++ "            </li>" ++ nl
  ++ "            ".

Section App.
Context {F : Type} {storage : IStorage F}.

(** What a command can change: the backing file of the storage, the
    lines printed, and the calls made on the storage. *)
Record world : Type := World {
  disk : F;
  stdout : list string;
  calls : list call
}.

Definition print (w : world) (s : string) : world :=
  World (disk w) (stdout w ++ [s])%list (calls w).

Definition storage_list_movies (w : world) : result (collection * world) :=
  movies <- list_movies (disk w) ;;
  Ok (movies, World (disk w) (stdout w) (calls w ++ [CallList])%list).

Definition storage_add_movie (title : key) (year rating poster : value) (w : world)
  : result world :=
  d <- add_movie title year rating poster (disk w) ;;
  Ok (World d (stdout w) (calls w ++ [CallAdd title year rating poster])%list).

Definition storage_delete_movie (title : key) (w : world) : result world :=
  d <- delete_movie title (disk w) ;;
  Ok (World d (stdout w) (calls w ++ [CallDelete title])%list).

Definition storage_update_movie (title : key) (rating : value) (w : world)
  : result world :=
  d <- update_movie title rating (disk w) ;;
  Ok (World d (stdout w) (calls w ++ [CallUpdate title rating])%list).

(** The metadata source: the response to a request for a title. *)
Variable omdb : string -> response.

Definition _fetch_movie_data (title : string) (w : world)
  : result (option metadata * world) :=
  match omdb title with
  | NoConnection e =>
      Ok (None, print w ("Error: Could not connect to OMDb API (" ++ e ++ ")."))
  | Garbled => Raise ValueError
  | Reply members =>
      let data := dict_of String.eqb members in
      match dict_get String.eqb data "Response" with
      | Some "False" =>
          Ok (None, print w ("Movie not found in OMDb for title '" ++ title ++ "'."))
      | _ => Ok (Some data, w)
      end
  end.

(** [line] is what the user types at the prompt. *)
Definition _command_add_movie (line : string) (w : world) : result world :=
  let title := strip line in
  if String.eqb title "" then
    Ok (print w "Title cannot be empty. Operation cancelled.")
  else
    fetched <- _fetch_movie_data title w ;;
    let (movie_data, w) := fetched in
    match movie_data with
    | None | Some [] => Ok w
    | Some data =>
        year <- catch (int_ (PStr (get_default data "Year" "0"))) is_ValueError (Ok 0%Z) ;;
        rating <- catch (float_ (PStr (get_default data "imdbRating" "0")))
                        is_ValueError (Ok 0%float) ;;
        let poster_url := get_default data "Poster" "N/A" in
        let real_title := get_default data "Title" title in
        w <- storage_add_movie (Some real_title) (PInt year) (PFloat rating)
                               (PStr poster_url) w ;;
        Ok (print w ("Movie '" ++ real_title ++ "' added successfully."))
    end.

Definition _command_delete_movie (line : string) (w : world) : result world :=
  let title := strip line in
  w <- storage_delete_movie (Some title) w ;;
  Ok (print w ("Movie '" ++ title ++ "' deleted (if it existed).")).

Definition _command_update_movie (line1 line2 : string) (w : world) : result world :=
  let title := strip line1 in
  if String.eqb title "" then Ok (print w "Title cannot be empty.")
  else
    let new_rating_str := strip line2 in
    if String.eqb new_rating_str "" then Ok (print w "Rating cannot be empty.")
    else
      match float_ (PStr new_rating_str) with
      | Raise ValueError => Ok (print w "Rating must be a number.")
      | Raise e => Raise e
      | Ok new_rating =>
          w <- storage_update_movie (Some title) (PFloat new_rating) w ;;
          Ok (print w ("Movie '" ++ title ++ "' rating updated (if it existed)."))
      end.

(** [movies[t]["rating"]] *)
Definition rating_of (movies : collection) (t : key) : result value :=
  match get movies t with
  | Some i => Ok (rating i)
  | None => Raise KeyError
  end.

Definition _command_movie_stats (w : world) : result world :=
  listed <- storage_list_movies w ;;
  let (movies, w) := listed in
  match movies with
  | [] => Ok (print w "No movies found. Cannot calculate statistics.")
  | _ =>
      let ratings :=
        List.filter isinstance_number (List.map rating (dict_values movies)) in
      match ratings with
      | [] => Ok (print w "No valid ratings found. Cannot calculate statistics.")
      | _ =>
          total <- sum ratings ;;
          avg_rating <- truediv total (PInt (Z.of_nat (List.length ratings))) ;;
          max_title <- max_key (rating_of movies) (dict_keys movies) ;;
          min_title <- min_key (rating_of movies) (dict_keys movies) ;;
          max_rating <- rating_of movies max_title ;;
          min_rating <- rating_of movies min_title ;;
          let w := print w (String LF "--- Movie Statistics ---") in
          let w := print w ("Number of Movies: "
                            ++ str_of_int (Z.of_nat (List.length movies))) in
          let w := print w ("Average Rating: " ++ format_2f avg_rating) in
          let w := print w ("Highest Rated: " ++ str_key max_title
                            ++ " (" ++ str max_rating ++ ")") in
          Ok (print w ("Lowest Rated: " ++ str_key min_title
                       ++ " (" ++ str min_rating ++ ")"))
      end
  end.

Definition _print_menu (w : world) : world :=
  let w := print w (nl ++ "--- Movie App Menu ---") in
  let w := print w "0. Exit" in
  let w := print w "1. List movies" in
  let w := print w "2. Add movie (fetch data from OMDb)" in
  let w := print w "3. Delete movie" in
  let w := print w "4. Update movie rating" in
  let w := print w "5. Show movie stats" in
  print w "9. Generate website".

Definition _command_list_movies (w : world) : result world :=
  listed <- storage_list_movies w ;;
  let (movies, w) := listed in
  match movies with
  | [] => Ok (print w "No movies found.")
  | _ =>
      let w := print w (nl ++ "--- List of Movies ---") in
      Ok (List.fold_left (fun w kv => print w (movie_line kv)) movies w)
  end.

Definition _command_generate_website (w : world) (fs : site) : result (world * site) :=
  listed <- storage_list_movies w ;;
  let (movies, w) := listed in
  match movies with
  | [] => Ok (print w "No movies found. Website not generated.", fs)
  | _ =>
      match template fs with
      | NoFile => Ok (print w ("Template file not found: " ++ template_path), fs)
      | NotUtf8 => Raise UnicodeDecodeError
      | Content s =>
          let template_html := read_text s in
          let movie_items_html :=
            List.fold_left (fun html kv => html ++ movie_item kv) movies "" in
          let final_html := replace template_html "{{MOVIES}}" movie_items_html in
          Ok (print w "Website was generated successfully.",
              Site (template fs) (Content final_html))
      end
  end.

(** How a run of the menu loop ends: by the choice 0; by an exception that
    no command catches, with the state in which the failing command began
    (a command prints and writes nothing before it raises, and the log
    of calls holds the calls of the commands that returned); or by the
    end of the input, where [input()] raises [EOFError]. *)
Inductive outcome : Type :=
| Exited (w : world) (fs : site)
| Crashed (e : exn) (w : world) (fs : site)
| EndOfInput (w : world) (fs : site).

(** [inputs] are the lines that the user types, one for each [input()]. *)
Fixpoint run (inputs : list string) (w : world) (fs : site) : outcome :=
  let w := _print_menu w in
  match inputs with
  | [] => EndOfInput w fs
  | line :: rest =>
      let command := strip line in
      if String.eqb command "0" then Exited (print w "Exiting the app.") fs
      else if String.eqb command "1" then
        match _command_list_movies w with
        | Ok w' => run rest w' fs
        | Raise e => Crashed e w fs
        end
      else if String.eqb command "2" then
        match rest with
        | [] => EndOfInput w fs
        | title :: rest =>
            match _command_add_movie title w with
            | Ok w' => run rest w' fs
            | Raise e => Crashed e w fs
            end
        end
      else if String.eqb command "3" then
        match rest with
        | [] => EndOfInput w fs
        | title :: rest =>
            match _command_delete_movie title w with
            | Ok w' => run rest w' fs
            | Raise e => Crashed e w fs
            end
        end
      else if String.eqb command "4" then
        match rest with
        | [] => EndOfInput w fs
        | title :: rest =>
            if String.eqb (strip title) "" then
              (* the rating is not asked for *)
              match _command_update_movie title "" w with
              | Ok w' => run rest w' fs
              | Raise e => Crashed e w fs
              end
            else
              match rest with
              | [] => EndOfInput w fs
              | new_rating_str :: rest =>
                  match _command_update_movie title new_rating_str w with
                  | Ok w' => run rest w' fs
                  | Raise e => Crashed e w fs
                  end
              end
        end
      else if String.eqb command "5" then
        match _command_movie_stats w with
        | Ok w' => run rest w' fs
        | Raise e => Crashed e w fs
        end
      else if String.eqb command "9" then
        match _command_generate_website w fs with
        | Ok (w', fs') => run rest w' fs'
        | Raise e => Crashed e w fs
        end
      else run rest (print w "Invalid choice. Try again.") fs
  end.

End App.

Arguments world F : clear implicits.
Arguments outcome F : clear implicits.

End MovieApp.

(* ================================================================== *)
(** * main.py *)
(* ================================================================== *)

Module Main.

(** [main()]: the application on the JSON storage of [movies.json];
    [movies_json] is that file when the program starts. *)
Definition main (omdb : string -> MovieApp.response) (inputs : list string)
    (movies_json : StorageJson.file) (fs : MovieApp.site)
  : MovieApp.outcome StorageJson.file :=
  MovieApp.run omdb inputs (MovieApp.World movies_json [] []) fs.

End Main.

(* ================================================================== *)
(** * Inputs used in the examples *)
(* ================================================================== *)

Module Examples.
Import Py.
Local Open Scope string_scope.

Definition CRLF : string := String CR (String LF "").
Definition NL : string := String LF "".

(** The lines [ls], each followed by [eol]. *)
Definition unlines (eol : string) (ls : list string) : string :=
  String.concat "" (List.map (fun l => l ++ eol) ls).

Definition header_line : string := "title,year,rating,poster".

(** A file as the CSV backend writes it, with three rated movies. *)
Definition csv_abc : StorageCsv.file :=
  StorageCsv.Text (unlines CRLF [header_line; "A,2000,5.0,N/A"; "B,2001,9.0,N/A"; "C,2002,9.0,N/A"]).

(** A file as the CSV backend writes it when the rating of B is [None]. *)
Definition csv_unrated : StorageCsv.file :=
  StorageCsv.Text (unlines CRLF [header_line; "A,2000,5.0,N/A"; "B,2001,,N/A"]).

(** A document in which the rating of B is [null], and one in which it is
    the string ["N/A"]. *)
Definition json_unrated : StorageJson.file :=
  StorageJson.Document
    [("A", Info (PInt 2000) (PFloat 5) (PStr "N/A"));
     ("B", Info (PInt 2001) PNone (PStr "N/A"))].

Definition json_text_rating : StorageJson.file :=
  StorageJson.Document
    [("A", Info (PInt 2000) (PFloat 5) (PStr "N/A"));
     ("B", Info (PInt 2001) (PStr "N/A") (PStr "N/A"))].

(** A file cut short after the title of its only row, and one cut short
    inside the year of its second row. *)
Definition csv_cut_after_title : StorageCsv.file :=
  StorageCsv.Text (unlines NL [header_line; "Titanic"]).

Definition csv_cut_in_year : StorageCsv.file :=
  StorageCsv.Text (unlines CRLF [header_line; "Titanic,1997,7.9,N/A"] ++ "Inception,20").

Definition header_only : StorageCsv.file :=
  StorageCsv.Text (unlines CRLF [header_line]).

Definition omdb_inception (title : string) : MovieApp.response :=
  MovieApp.Reply [("Title", "Inception"); ("Year", "2010"); ("imdbRating", "8.5");
                  ("Poster", "https://example.com/inception.jpg"); ("Response", "True")].

Definition omdb_not_found (title : string) : MovieApp.response :=
  MovieApp.Reply [("Response", "False"); ("Error", "Movie not found!")].

(** The collection that [csv_abc] holds. *)
Definition abc : collection :=
  [ (Some "A", Info (PInt 2000) (PFloat 5) (PStr "N/A"));
    (Some "B", Info (PInt 2001) (PFloat 9) (PStr "N/A"));
    (Some "C", Info (PInt 2002) (PFloat 9) (PStr "N/A")) ].

Definition json_abc : StorageJson.file :=
  StorageJson.Document
    [ ("A", Info (PInt 2000) (PFloat 5) (PStr "N/A"));
      ("B", Info (PInt 2001) (PFloat 9) (PStr "N/A"));
      ("C", Info (PInt 2002) (PFloat 9) (PStr "N/A")) ].

(** A file whose only row has three fields: the poster is missing. *)
Definition csv_three_fields : StorageCsv.file :=
  StorageCsv.Text (unlines NL [header_line; "A,1999,8.0"]).

(** A file whose header names the title last, and whose only row has three
    fields: the title is missing. *)
Definition csv_title_last : StorageCsv.file :=
  StorageCsv.Text (unlines NL ["year,rating,poster,title"; "1999,8.0,N/A"]).

(** A collection with a carriage return in a title, and the same with a
    line feed in its place. *)
Definition cr_title : collection :=
  [ (Some ("Line" ++ String CR "Break"), Info (PInt 2000) (PFloat 7) (PStr "N/A")) ].

Definition lf_title : collection :=
  [ (Some ("Line" ++ String LF "Break"), Info (PInt 2000) (PFloat 7) (PStr "N/A")) ].

End Examples.

(* ================================================================== *)
(** * What the properties speak of *)
(* ================================================================== *)

(** From [m] to [m'], only the rating under [title] was replaced, by [r]. *)
Definition only_rating_replaced (m m' : collection) (title : Py.key) (r : Py.value) : Prop :=
  (exists i, get m title = Some i /\ get m' title = Some (Info (year i) r (poster i)))
  /\ (forall t, t <> title -> get m' t = get m t)
  /\ List.map fst m' = List.map fst m.

(** The year and the rating that Add is to store for a metadata document:
    the field parsed, 0 (0.0) when it is missing or does not parse. *)
Definition normal_year (data : MovieApp.metadata) : Z :=
  match Py.dict_get String.eqb data "Year"%string with
  | Some s => match Py.int_of_str s with Some z => z | None => 0%Z end
  | None => 0%Z
  end.

Definition normal_rating (data : MovieApp.metadata) : float :=
  match Py.dict_get String.eqb data "imdbRating"%string with
  | Some s => match Py.float_of_str s with Some x => x | None => 0%float end
  | None => 0%float
  end.

(** Every key is a text. *)
Definition text_keys (d : collection) : Prop :=
  Forall (fun k => exists s : string, k = Some s) (List.map fst d).

(** The state in which a run of the menu loop ends. *)
Definition final_world {F : Type} (o : MovieApp.outcome F) : MovieApp.world F :=
  match o with
  | MovieApp.Exited w _ | MovieApp.Crashed _ w _ | MovieApp.EndOfInput w _ => w
  end.

(** The lines of the menu. *)
Definition menu_lines : list string :=
  [ (MovieApp.nl ++ "--- Movie App Menu ---")%string; "0. Exit"; "1. List movies";
    "2. Add movie (fetch data from OMDb)"; "3. Delete movie"; "4. Update movie rating";
    "5. Show movie stats"; "9. Generate website" ]%string.

(** A line that, typed as a choice, is none of add, delete and update. *)
Definition reads_only (line : string) : bool :=
  let command := Py.strip line in
  negb (String.eqb command "2" || String.eqb command "3" || String.eqb command "4")%string.

(** [old in s] *)
Fixpoint contains_text (old s : string) : bool :=
  String.prefix old s
  || match s with
     | EmptyString => false
     | String _ r => contains_text old r
     end.

(** The mark of the template that the page generator replaces, and the
    items of a collection, in its order. *)
Definition placeholder : string := "{{MOVIES}}".

Definition movie_items (m : collection) : string :=
  String.concat "" (List.map MovieApp.movie_item m).

(** A row of four fields, as the CSV writer takes it, and the entry that a
    row of the file stands for: the title and the poster as they are, the
    year and the rating as numbers, [None] when the text is not one. *)
Definition fields (r : string * string * string * string) : Csv.row :=
  let '(a, b, c, d) := r in
  [list_ascii_of_string a; list_ascii_of_string b;
   list_ascii_of_string c; list_ascii_of_string d].

Definition loaded_entry (r : string * string * string * string) : Py.key * info :=
  let '(a, b, c, d) := r in
  (Some a,
   Info (match Py.int_of_str b with Some z => Py.PInt z | None => Py.PNone end)
        (match Py.float_of_str c with Some x => Py.PFloat x | None => Py.PNone end)
        (Py.PStr d)).

(** From [m] to [m'], [title] was bound to [i]: where it stood when it was
    there, after the other titles when it was not. *)
Definition bound (m m' : collection) (title : Py.key) (i : info) : Prop :=
  get m' title = Some i
  /\ (forall t, t <> title -> get m' t = get m t)
  /\ List.map fst m'
     = if contains m title then List.map fst m else (List.map fst m ++ [title])%list.

(** From [m] to [m'], [title] was removed; the other titles keep their
    records and their order. *)
Definition removed (m m' : collection) (title : Py.key) : Prop :=
  get m' title = None
  /\ (forall t, t <> title -> get m' t = get m t)
  /\ List.map fst m'
     = List.filter (fun t => negb (Py.key_eqb t title)) (List.map fst m).

(* ================================================================== *)
(** * Properties *)
(* ================================================================== *)

Import Py.
Local Open Scope string_scope.

(** ** Statistics *)

(** Statistics, step by step: when each step of the command returns, the
    command returns, having printed the five lines. *)
Lemma stats_returns :
  forall (F : Type) (storage : IStorage F) (w : MovieApp.world F)
         (movies : collection) (total : value) (avg : float)
         (max_title min_title : key) (max_rating min_rating : value),
    list_movies (MovieApp.disk w) = Ok movies ->
    movies <> [] ->
    List.filter isinstance_number (List.map rating (dict_values movies)) <> [] ->
    sum (List.filter isinstance_number (List.map rating (dict_values movies))) = Ok total ->
    truediv total
      (PInt (Z.of_nat (List.length
         (List.filter isinstance_number (List.map rating (dict_values movies))))))
    = Ok avg ->
    max_key (MovieApp.rating_of movies) (dict_keys movies) = Ok max_title ->
    min_key (MovieApp.rating_of movies) (dict_keys movies) = Ok min_title ->
    MovieApp.rating_of movies max_title = Ok max_rating ->
    MovieApp.rating_of movies min_title = Ok min_rating ->
    MovieApp._command_movie_stats w
    = Ok (MovieApp.World (MovieApp.disk w)
            (MovieApp.stdout w
               ++ [ String LF "--- Movie Statistics ---";
                    ("Number of Movies: " ++ str_of_int (Z.of_nat (List.length movies)))%string;
                    ("Average Rating: " ++ format_2f avg)%string;
                    ("Highest Rated: " ++ str_key max_title ++ " (" ++ str max_rating ++ ")")%string;
                    ("Lowest Rated: " ++ str_key min_title ++ " (" ++ str min_rating ++ ")")%string ])%list
            (MovieApp.calls w ++ [MovieApp.CallList])%list).
Proof.
  intros F storage w movies total avg max_title min_title max_rating min_rating
         Hlist Hne Hrne Hsum Hdiv Hmax Hmin Hmaxr Hminr.
  unfold MovieApp._command_movie_stats, MovieApp.storage_list_movies.
  rewrite Hlist. cbn [bind].
  destruct movies as [|entry rest]; [congruence|].
  destruct (List.filter isinstance_number (List.map rating (dict_values (entry :: rest))))
    as [|r0 rs] eqn:Hr; [congruence|].
  rewrite Hsum. cbn [bind]. rewrite Hdiv. cbn [bind].
  rewrite Hmax. cbn [bind]. rewrite Hmin. cbn [bind].
  rewrite Hmaxr. cbn [bind]. rewrite Hminr. cbn [bind].
  unfold MovieApp.print. cbn [MovieApp.disk MovieApp.stdout MovieApp.calls].
  rewrite <- !List.app_assoc. reflexivity.
Qed.

(** C2.  On the collection A: 5.0, B: 9.0, C: 9.0, in that order, whatever
    the years and posters and whatever the backend, Statistics returns
    normally and prints the count 3, the mean 7.67, B as the highest rated
    (the first of the two rated 9.0) and A as the lowest rated; it makes one
    call on the storage, [list_movies], and leaves the file as it was. *)
Theorem stats_three_movies :
  forall (F : Type) (storage : IStorage F) (w : MovieApp.world F)
         (ya pa yb pb yc pc : value),
    list_movies (MovieApp.disk w)
    = Ok [ (Some "A", Info ya (PFloat 5) pa);
           (Some "B", Info yb (PFloat 9) pb);
           (Some "C", Info yc (PFloat 9) pc) ] ->
    MovieApp._command_movie_stats w
    = Ok (MovieApp.World (MovieApp.disk w)
            (MovieApp.stdout w
               ++ [ String LF "--- Movie Statistics ---";
                    "Number of Movies: 3";
                    "Average Rating: 7.67";
                    "Highest Rated: B (9.0)";
                    "Lowest Rated: A (5.0)" ])%list
            (MovieApp.calls w ++ [MovieApp.CallList])%list).
Proof.
  intros F storage w ya pa yb pb yc pc Hlist.
  exact (@stats_returns F storage w _ (PFloat 23) (23 / 3)%float
           (Some "B") (Some "A") (PFloat 9) (PFloat 5) Hlist
           ltac:(discriminate) ltac:(discriminate)
           eq_refl eq_refl eq_refl eq_refl eq_refl eq_refl).
Qed.

Lemma stats_three_movies_witness :
  MovieApp._command_movie_stats (MovieApp.World Examples.csv_abc [] [])
  = Ok (MovieApp.World Examples.csv_abc
          [ String LF "--- Movie Statistics ---";
            "Number of Movies: 3";
            "Average Rating: 7.67";
            "Highest Rated: B (9.0)";
            "Lowest Rated: A (5.0)" ]
          [MovieApp.CallList]).
Proof.
  apply (@stats_three_movies StorageCsv.file StorageCsv_IStorage
           (MovieApp.World Examples.csv_abc [] [])
           (PInt 2000) (PStr "N/A") (PInt 2001) (PStr "N/A") (PInt 2002) (PStr "N/A")).
  vm_compute. reflexivity.
Defined.

(** C1.  Statistics raises [TypeError] on a collection that holds a record
    with a valid rating and a record whose rating is [None] (the file the
    CSV backend writes for it, and the same document in the JSON backend) or
    a string: the mean is taken over the filtered ratings, the maximum and
    the minimum over all records. *)
Theorem stats_raises_on_invalid_rating :
  MovieApp._command_movie_stats (MovieApp.World Examples.csv_unrated [] [])
  = Raise TypeError
  /\ MovieApp._command_movie_stats (MovieApp.World Examples.json_unrated [] [])
     = Raise TypeError
  /\ MovieApp._command_movie_stats (MovieApp.World Examples.json_text_rating [] [])
     = Raise TypeError.
Proof.
  repeat split; vm_compute; reflexivity.
Qed.

(** ** Loading *)

(** C3.  [list()] of the CSV backend raises [TypeError] on a file whose
    last row was cut short: after the title (one field), and inside the year
    (two fields).  [DictReader] completes the row with [None], and
    [int(None)], [float(None)] raise [TypeError], which neither the
    [except ValueError] around the conversion nor the
    [except (IOError, KeyError, csv.Error)] around the loop catches. *)
Theorem csv_list_raises_on_short_row :
  StorageCsv.list_movies Examples.csv_cut_after_title = Raise TypeError
  /\ StorageCsv.list_movies Examples.csv_cut_in_year = Raise TypeError.
Proof.
  split; vm_compute; reflexivity.
Qed.



(** ** Add *)

Lemma lstrip_all : forall (p : ascii -> bool) (s : text),
    Forall (fun c => p c = true) s -> lstrip p s = [].
Proof.
  intros p s H. induction H as [|c r Hc _ IH]; [reflexivity|].
  cbn. rewrite Hc. exact IH.
Qed.

(** A line of white space only is stripped to the empty string. *)
Lemma strip_blank : forall line : string,
    Forall (fun c => isspace c = true) (list_ascii_of_string line) ->
    strip line = "".
Proof.
  intros line H. unfold strip. rewrite (lstrip_all _ H). reflexivity.
Qed.

(** C4.  When the title typed is empty or white space only, or the
    metadata source cannot be reached, or it answers that the movie was not
    found, Add returns without having called the storage, and the backing
    file is the one it was: whatever the backend. *)
Theorem add_aborts_without_storage_call :
  forall (F : Type) (storage : IStorage F) (omdb : string -> MovieApp.response)
         (line : string) (w : MovieApp.world F),
    Forall (fun c => isspace c = true) (list_ascii_of_string line)
    \/ (exists e, omdb (strip line) = MovieApp.NoConnection e)
    \/ (exists members,
          omdb (strip line) = MovieApp.Reply members
          /\ dict_get String.eqb (dict_of String.eqb members) "Response" = Some "False") ->
    exists w',
      MovieApp._command_add_movie omdb line w = Ok w'
      /\ MovieApp.disk w' = MovieApp.disk w
      /\ MovieApp.calls w' = MovieApp.calls w.
Proof.
  intros F storage omdb line w H.
  unfold MovieApp._command_add_movie.
  destruct (String.eqb (strip line) "") eqn:Hempty.
  - eexists. split; [reflexivity|]. split; reflexivity.
  - destruct H as [Hblank | [[e He] | [members [Hm Hresp]]]].
    + apply strip_blank in Hblank. rewrite Hblank in Hempty. discriminate.
    + unfold MovieApp._fetch_movie_data. rewrite He. cbn [bind].
      eexists. split; [reflexivity|]. split; reflexivity.
    + unfold MovieApp._fetch_movie_data. rewrite Hm, Hresp. cbn [bind].
      eexists. split; [reflexivity|]. split; reflexivity.
Qed.

Lemma add_aborts_without_storage_call_witness :
  exists w',
    MovieApp._command_add_movie Examples.omdb_not_found "Inception"
      (MovieApp.World Examples.csv_abc [] []) = Ok w'
    /\ MovieApp.disk w' = Examples.csv_abc
    /\ MovieApp.calls w' = [].
Proof.
  apply (@add_aborts_without_storage_call StorageCsv.file StorageCsv_IStorage
           Examples.omdb_not_found "Inception" (MovieApp.World Examples.csv_abc [] [])).
  right. right. eexists. split; reflexivity.
Defined.

(** The branch that [data.get("Response") == "False"] takes on another string. *)
Lemma not_False_branch :
  forall (A : Type) (x y : A) (r : string),
    Some r <> Some "False" ->
    match r with
    | "False" => x
    | _ => y
    end = y.
Proof.
  intros A x y r Hr.
  destruct (String.eqb r "False") eqn:Hf.
  - apply String.eqb_eq in Hf. subst r. contradiction.
  - destruct r as [|c1 r]; [reflexivity|].
    repeat (match goal with
            | |- context [match ?c with Ascii _ _ _ _ _ _ _ _ => _ end] => destruct c
            | |- context [match ?b with true => _ | false => _ end] => destruct b
            | |- context [match ?s with EmptyString => _ | String _ _ => _ end] => destruct s
            end; try reflexivity; try discriminate).
Qed.

Lemma catch_year : forall data : MovieApp.metadata,
    catch (int_ (PStr (MovieApp.get_default data "Year" "0"))) is_ValueError (Ok 0%Z)
    = Ok (normal_year data).
Proof.
  intros data. unfold MovieApp.get_default, normal_year, int_.
  destruct (dict_get String.eqb data "Year") as [s|]; [|reflexivity].
  destruct (int_of_str s); reflexivity.
Qed.

Lemma catch_rating : forall data : MovieApp.metadata,
    catch (float_ (PStr (MovieApp.get_default data "imdbRating" "0"))) is_ValueError
          (Ok 0%float)
    = Ok (normal_rating data).
Proof.
  intros data. unfold MovieApp.get_default, normal_rating, float_.
  destruct (dict_get String.eqb data "imdbRating") as [s|]; [|reflexivity].
  destruct (float_of_str s); reflexivity.
Qed.

(** C5.  When the title typed is not empty and the metadata source answers
    with a document that has a title and is not a not-found answer, Add
    makes one call on the storage: [add_movie] with the title of the
    document (not the title typed), the year as an [int] (0 when the year of
    the document is missing or does not parse), the rating as a [float] (0.0
    likewise) and the poster; it returns when that call does. *)
Theorem add_stores_canonical_title :
  forall (F : Type) (storage : IStorage F) (omdb : string -> MovieApp.response)
         (line : string) (w : MovieApp.world F)
         (members : list (string * string)) (canonical : string),
    strip line <> "" ->
    omdb (strip line) = MovieApp.Reply members ->
    dict_get String.eqb (dict_of String.eqb members) "Response" <> Some "False" ->
    dict_get String.eqb (dict_of String.eqb members) "Title" = Some canonical ->
    let data := dict_of String.eqb members in
    let year := PInt (normal_year data) in
    let rating := PFloat (normal_rating data) in
    let poster := PStr (MovieApp.get_default data "Poster" "N/A") in
    MovieApp._command_add_movie omdb line w
    = (d <- add_movie (Some canonical) year rating poster (MovieApp.disk w) ;;
       Ok (MovieApp.World d
             (MovieApp.stdout w ++ ["Movie '" ++ canonical ++ "' added successfully."]%string)%list
             (MovieApp.calls w ++ [MovieApp.CallAdd (Some canonical) year rating poster])%list)).
Proof.
  intros F storage omdb line w members canonical Hline Homdb Hresp Htitle.
  cbv zeta. unfold MovieApp._command_add_movie.
  destruct (String.eqb (strip line) "") eqn:Hempty.
  { apply String.eqb_eq in Hempty. contradiction. }
  unfold MovieApp._fetch_movie_data. rewrite Homdb. cbv zeta.
  set (data := dict_of String.eqb members) in *. clearbody data.
  assert (Hdata : data <> []) by (intros ->; discriminate).
  revert Hresp.
  destruct (dict_get String.eqb data "Response") as [r|]; intros Hresp;
    [rewrite (not_False_branch _ _ Hresp)|]; cbn [bind];
    (destruct data as [|entry rest]; [congruence|]);
    rewrite catch_year, catch_rating; cbn [bind];
    unfold MovieApp.get_default; rewrite Htitle;
    unfold MovieApp.storage_add_movie;
    destruct (add_movie (Some canonical)); reflexivity.
Qed.

Lemma add_stores_canonical_title_witness :
  MovieApp._command_add_movie Examples.omdb_inception " inception "
    (MovieApp.World StorageJson.Absent [] [])
  = Ok (MovieApp.World
          (StorageJson.Document
             [("Inception",
               Info (PInt 2010) (PFloat 8.5) (PStr "https://example.com/inception.jpg"))])
          ["Movie 'Inception' added successfully."]
          [MovieApp.CallAdd (Some "Inception") (PInt 2010) (PFloat 8.5)
             (PStr "https://example.com/inception.jpg")]).
Proof.
  apply (@add_stores_canonical_title StorageJson.file StorageJson_IStorage
           Examples.omdb_inception " inception " (MovieApp.World StorageJson.Absent [] [])
           [("Title", "Inception"); ("Year", "2010"); ("imdbRating", "8.5");
            ("Poster", "https://example.com/inception.jpg"); ("Response", "True")]
           "Inception").
  - vm_compute. discriminate.
  - reflexivity.
  - vm_compute. discriminate.
  - vm_compute. reflexivity.
Defined.

(** ** Dicts *)

Section DictFacts.
Variables K V : Type.
Variable eqb : K -> K -> bool.
Hypothesis eqb_spec : forall a b, eqb a b = true <-> a = b.

Lemma eqb_same : forall a, eqb a a = true.
Proof. intros a. apply eqb_spec. reflexivity. Qed.

Lemma eqb_diff : forall a b, a <> b -> eqb a b = false.
Proof.
  intros a b H. destruct (eqb a b) eqn:E; [|reflexivity].
  apply eqb_spec in E. contradiction.
Qed.

Lemma dict_get_absent : forall (d : dict K V) k,
    dict_get eqb d k = None <-> ~ In k (List.map fst d).
Proof.
  induction d as [|[k' v'] r IH]; intros k; cbn.
  - split; [intros _ []|reflexivity].
  - destruct (eqb k' k) eqn:E.
    + apply eqb_spec in E. subst. split; [discriminate|]. intros H. exfalso. auto.
    + rewrite IH. split.
      * intros H [Heq|Hin]; [subst; rewrite eqb_same in E; discriminate|auto].
      * intros H Hin. auto.
Qed.

Lemma dict_set_absent : forall (d : dict K V) k v,
    dict_get eqb d k = None -> dict_set eqb d k v = (d ++ [(k, v)])%list.
Proof.
  induction d as [|[k' v'] r IH]; intros k v H; cbn in *; [reflexivity|].
  destruct (eqb k' k); [discriminate|]. rewrite IH by assumption. reflexivity.
Qed.

Lemma dict_of_from : forall (ps acc : list (K * V)),
    NoDup (List.map fst (acc ++ ps)) ->
    List.fold_left (fun d kv => dict_set eqb d (fst kv) (snd kv)) ps acc = (acc ++ ps)%list.
Proof.
  induction ps as [|[k v] ps IH]; intros acc H; cbn.
  - rewrite List.app_nil_r. reflexivity.
  - rewrite dict_set_absent.
    + rewrite IH; rewrite <- List.app_assoc; [reflexivity|exact H].
    + apply dict_get_absent. rewrite List.map_app in H. cbn in H.
      apply NoDup_remove_2 in H. intros Hin. apply H. apply List.in_or_app. left. exact Hin.
Qed.

(** [dict(pairs)] of pairs with distinct keys is the pairs. *)
Lemma dict_of_distinct : forall d : list (K * V),
    NoDup (List.map fst d) -> dict_of eqb d = d.
Proof.
  intros d H. unfold dict_of. rewrite dict_of_from; [reflexivity|exact H].
Qed.

Lemma dict_set_keys : forall (d : dict K V) k v,
    List.map fst (dict_set eqb d k v)
    = if dict_contains eqb d k then List.map fst d else (List.map fst d ++ [k])%list.
Proof.
  unfold dict_contains.
  induction d as [|[k' v'] r IH]; intros k v; cbn; [reflexivity|].
  destruct (eqb k' k) eqn:E; cbn; [reflexivity|].
  rewrite IH. destruct (dict_get eqb r k); reflexivity.
Qed.

Lemma dict_set_distinct : forall (d : dict K V) k v,
    NoDup (List.map fst d) -> NoDup (List.map fst (dict_set eqb d k v)).
Proof.
  intros d k v H. rewrite dict_set_keys. unfold dict_contains.
  destruct (dict_get eqb d k) eqn:E; [exact H|].
  apply dict_get_absent in E.
  apply NoDup_rev in H. rewrite <- (List.rev_involutive (_ ++ _)).
  apply NoDup_rev. rewrite List.rev_app_distr. cbn. constructor; [|exact H].
  intros Hin. apply List.in_rev in Hin. contradiction.
Qed.

Lemma dict_of_keys_distinct : forall ps : list (K * V),
    NoDup (List.map fst (dict_of eqb ps)).
Proof.
  intros ps. unfold dict_of.
  assert (H : forall acc : dict K V, NoDup (List.map fst acc) ->
            NoDup (List.map fst
              (List.fold_left (fun d kv => dict_set eqb d (fst kv) (snd kv)) ps acc))).
  { induction ps as [|[k v] ps IH]; intros acc Hacc; cbn; [exact Hacc|].
    apply IH. apply dict_set_distinct. exact Hacc. }
  apply H. constructor.
Qed.

Lemma dict_set_keys_incl : forall (d : dict K V) k v x,
    In x (List.map fst (dict_set eqb d k v)) -> x = k \/ In x (List.map fst d).
Proof.
  intros d k v x. rewrite dict_set_keys.
  destruct (dict_contains eqb d k); [auto|].
  intros H. apply List.in_app_or in H. destruct H as [H|[H|[]]]; auto.
Qed.

Lemma dict_of_keys_incl : forall (ps : list (K * V)) x,
    In x (List.map fst (dict_of eqb ps)) -> In x (List.map fst ps).
Proof.
  intros ps x. unfold dict_of.
  assert (H : forall acc : dict K V,
            In x (List.map fst
              (List.fold_left (fun d kv => dict_set eqb d (fst kv) (snd kv)) ps acc)) ->
            In x (List.map fst acc) \/ In x (List.map fst ps)).
  { induction ps as [|[k v] ps IH]; intros acc Hin; cbn in *; [auto|].
    apply IH in Hin. destruct Hin as [Hin|Hin]; [|auto].
    apply dict_set_keys_incl in Hin. destruct Hin as [->|Hin]; auto. }
  intros Hin. apply H in Hin. destruct Hin as [[]|Hin]. exact Hin.
Qed.

Lemma dict_del_absent : forall (d : dict K V) k,
    dict_get eqb d k = None -> dict_del eqb d k = d.
Proof.
  induction d as [|[k' v'] r IH]; intros k H; cbn in *; [reflexivity|].
  destruct (eqb k' k); [discriminate|]. rewrite IH by assumption. reflexivity.
Qed.

Lemma dict_del_keys_incl : forall (d : dict K V) k x,
    In x (List.map fst (dict_del eqb d k)) -> In x (List.map fst d).
Proof.
  induction d as [|[k' v'] r IH]; intros k x H; cbn in *; [exact H|].
  destruct (eqb k' k); cbn in *; [auto|].
  destruct H as [H|H]; [auto|]. right. exact (IH _ _ H).
Qed.

Lemma dict_del_distinct : forall (d : dict K V) k,
    NoDup (List.map fst d) -> NoDup (List.map fst (dict_del eqb d k)).
Proof.
  induction d as [|[k' v'] r IH]; intros k H; cbn in *; [exact H|].
  inversion H as [|? ? Hnotin Hr]; subst.
  destruct (eqb k' k); cbn; [exact Hr|].
  constructor; [|apply IH; exact Hr].
  intros Hin. apply Hnotin. exact (dict_del_keys_incl _ _ _ Hin).
Qed.

Lemma dict_del_gone : forall (d : dict K V) k,
    NoDup (List.map fst d) -> dict_get eqb (dict_del eqb d k) k = None.
Proof.
  induction d as [|[k' v'] r IH]; intros k H; cbn in *; [reflexivity|].
  inversion H as [|? ? Hnotin Hr]; subst.
  destruct (eqb k' k) eqn:E.
  - apply eqb_spec in E. subst. apply dict_get_absent. exact Hnotin.
  - cbn. rewrite E. apply IH. exact Hr.
Qed.

Lemma dict_del_other : forall (d : dict K V) k k',
    k' <> k -> dict_get eqb (dict_del eqb d k) k' = dict_get eqb d k'.
Proof.
  induction d as [|[k0 v0] r IH]; intros k k' H; cbn; [reflexivity|].
  destruct (eqb k0 k) eqn:E.
  - apply eqb_spec in E. subst. rewrite eqb_diff by auto. reflexivity.
  - cbn. destruct (eqb k0 k'); [reflexivity|]. apply IH. exact H.
Qed.

Lemma dict_modify_keys : forall (d : dict K V) k f,
    List.map fst (dict_modify eqb d k f) = List.map fst d.
Proof.
  induction d as [|[k' v'] r IH]; intros k f; cbn; [reflexivity|].
  destruct (eqb k' k); cbn; [reflexivity|]. rewrite IH. reflexivity.
Qed.

Lemma dict_modify_same : forall (d : dict K V) k f,
    dict_get eqb (dict_modify eqb d k f) k = option_map f (dict_get eqb d k).
Proof.
  induction d as [|[k' v'] r IH]; intros k f; cbn; [reflexivity|].
  destruct (eqb k' k) eqn:E; cbn; rewrite E; [reflexivity|]. apply IH.
Qed.

Lemma dict_modify_other : forall (d : dict K V) k k' f,
    k' <> k -> dict_get eqb (dict_modify eqb d k f) k' = dict_get eqb d k'.
Proof.
  induction d as [|[k0 v0] r IH]; intros k k' f H; cbn; [reflexivity|].
  destruct (eqb k0 k) eqn:E; cbn.
  - apply eqb_spec in E. subst. rewrite eqb_diff by auto. reflexivity.
  - destruct (eqb k0 k'); [reflexivity|]. apply IH. exact H.
Qed.

End DictFacts.

Lemma key_eqb_spec : forall a b : key, key_eqb a b = true <-> a = b.
Proof.
  intros [x|] [y|]; cbn; try (split; [discriminate|congruence]).
  - rewrite String.eqb_eq. split; congruence.
  - split; reflexivity.
Qed.

Lemma distinct_keys_NoDup : forall d : collection,
    StorageCsv.distinct_keys d = true <-> NoDup (List.map fst d).
Proof.
  induction d as [|[k v] r IH]; cbn.
  - split; [constructor|reflexivity].
  - rewrite andb_true_iff, negb_true_iff, IH. unfold contains, dict_contains.
    split.
    + intros [Hk Hr]. constructor; [|exact Hr].
      apply (dict_get_absent key_eqb key_eqb_spec). destruct (dict_get key_eqb r k); [discriminate|reflexivity].
    + intros H. inversion H as [|? ? Hk Hr]; subst. split; [|exact Hr].
      apply (dict_get_absent key_eqb key_eqb_spec) in Hk. rewrite Hk. reflexivity.
Qed.

(** ** The JSON backend: what is loaded, and loading what was saved *)

Lemma json_loaded : forall (f : StorageJson.file) (m : collection),
    StorageJson._load_data f = Ok m -> NoDup (List.map fst m) /\ text_keys m.
Proof.
  intros f m H. destruct f as [| | |members]; cbn in H; try discriminate;
    injection H as <-.
  - split; constructor.
  - split; constructor.
  - split; [apply (dict_of_keys_distinct key_eqb key_eqb_spec)|].
    apply Forall_forall. intros k Hin.
    apply (@dict_of_keys_incl _ _ key_eqb _ _) in Hin.
    rewrite List.map_map in Hin. apply List.in_map_iff in Hin.
    destruct Hin as [[s i] [<- _]]. exists s. reflexivity.
Qed.

Lemma json_load_save : forall m : collection,
    NoDup (List.map fst m) -> text_keys m ->
    StorageJson._load_data (StorageJson._save_data m) = Ok m.
Proof.
  intros m Hnd Htk. unfold StorageJson._save_data, StorageJson._load_data.
  rewrite List.map_map. cbn [fst snd].
  assert (Hmap : List.map (fun kv : key * info => (Some (StorageJson.json_key (fst kv)), snd kv)) m = m).
  { unfold text_keys in Htk. clear Hnd.
    induction m as [|[k i] r IH]; [reflexivity|].
    cbn in *. inversion Htk as [|? ? [s ->] Hr]; subst.
    cbn. rewrite IH by exact Hr. reflexivity. }
  rewrite Hmap. rewrite (dict_of_distinct key_eqb key_eqb_spec) by exact Hnd. reflexivity.
Qed.

Lemma text_keys_sub : forall d d' : collection,
    (forall x, In x (List.map fst d') -> In x (List.map fst d)) ->
    text_keys d -> text_keys d'.
Proof.
  unfold text_keys. intros d d' Hsub H. rewrite Forall_forall in *.
  intros x Hx. apply H. apply Hsub. exact Hx.
Qed.

(** ** The CSV reader on the lines of a text *)

Module CsvFacts.
Import Csv.
Local Open Scope list_scope.

Lemma lines_nonempty : forall s : text, s <> [] -> lines s <> [].
Proof.
  intros [|c s] H; [congruence|]. cbn.
  destruct (Ascii.eqb c LF); [discriminate|].
  destruct (lines s); discriminate.
Qed.

(** A character that is not a line feed, not the last of the text, is one
    step of the reader. *)
Lemma read_rows_char : forall (r : reader) (c : ascii) (s : text),
    Ascii.eqb c LF = false -> s <> [] ->
    read_rows r (lines (c :: s))
    = match parse_process_char r (Some c) with
      | Ok r' => read_rows r' (lines s)
      | Raise e => ([], Some e)
      end.
Proof.
  intros r c s Hc Hs. cbn [lines]. rewrite Hc.
  destruct (lines s) as [|l ls] eqn:Hl; [exfalso; exact (lines_nonempty Hs Hl)|].
  cbn [read_rows feed bind].
  destruct (parse_process_char r (Some c)) as [r'|e]; reflexivity.
Qed.

(** A line feed ends its line: the reader is told so, and yields the record
    if that completes it. *)
Lemma read_rows_LF : forall (r : reader) (s : text),
    read_rows r (lines (LF :: s))
    = match (r1 <- parse_process_char r (Some LF) ;; parse_process_char r1 None) with
      | Raise e => ([], Some e)
      | Ok r2 =>
          if pstate_eqb (state r2) START_RECORD then
            let (rows, err) := read_rows parse_reset (lines s) in
            (List.rev (fields r2) :: rows, err)
          else read_rows r2 (lines s)
      end.
Proof.
  intros r s. cbn [lines]. change (Ascii.eqb LF LF) with true. cbn iota.
  cbn [read_rows feed bind].
  destruct (parse_process_char r (Some LF)) as [r'|e]; reflexivity.
Qed.

Lemma read_rows_advance : forall (s : text) (r r' : reader) (rest : text),
    advance r s = Some r' -> rest <> [] ->
    read_rows r (lines (s ++ rest)) = read_rows r' (lines rest).
Proof.
  induction s as [|c s IH]; intros r r' rest Hadv Hrest.
  - cbn in Hadv. injection Hadv as <-. reflexivity.
  - cbn [advance] in Hadv. cbn [List.app].
    destruct (Ascii.eqb c LF) eqn:Hc.
    + apply Ascii.eqb_eq in Hc. subst c. rewrite read_rows_LF.
      destruct (r1 <- parse_process_char r (Some LF);; parse_process_char r1 None)
        as [r2|e]; [|discriminate].
      destruct (pstate_eqb (state r2) START_RECORD); [discriminate|].
      apply IH; assumption.
    + rewrite read_rows_char; [|exact Hc|].
      * destruct (parse_process_char r (Some c)) as [r1|e]; [|discriminate].
        apply IH; assumption.
      * destruct s; cbn; [exact Hrest|discriminate].
Qed.

Lemma advance_app : forall (a b : text) (r : reader),
    advance r (a ++ b)
    = match advance r a with
      | Some r1 => advance r1 b
      | None => None
      end.
Proof.
  induction a as [|c a IH]; intros b r; [reflexivity|].
  cbn [List.app advance].
  destruct (Ascii.eqb c LF).
  - destruct (r1 <- parse_process_char r (Some c);; parse_process_char r1 None) as [r2|e];
      [|reflexivity].
    destruct (pstate_eqb (state r2) START_RECORD); [reflexivity|]. apply IH.
  - destruct (parse_process_char r (Some c)) as [r1|e]; [|reflexivity]. apply IH.
Qed.

Lemma add_char_ok : forall (r : reader) (c : ascii),
    (field_len r < field_limit)%N ->
    parse_add_char r c = Ok (Reader (state r) (c :: field r) (field_len r + 1) (fields r)).
Proof.
  intros r c H. unfold parse_add_char.
  apply N.leb_gt in H. rewrite H. reflexivity.
Qed.

Lemma len_cons : forall (c : ascii) (t : text), len (c :: t) = (len t + 1)%N.
Proof.
  intros c t. unfold len. cbn [List.length]. lia.
Qed.

Lemma special_cases : forall c : ascii,
    special c = false ->
    Ascii.eqb c COMMA = false /\ Ascii.eqb c QUOTE = false
    /\ Ascii.eqb c CR = false /\ Ascii.eqb c LF = false.
Proof.
  intros c H. unfold special in H.
  repeat (apply orb_false_iff in H; destruct H as [H ?]). auto.
Qed.

(** The characters of an unquoted field, inside the field. *)
Lemma advance_plain : forall (f acc : text) (n : N) (fs : list text),
    List.existsb special f = false ->
    (n + len f <= field_limit)%N ->
    advance (Reader IN_FIELD acc n fs) f
    = Some (Reader IN_FIELD (List.rev f ++ acc) (n + len f) fs).
Proof.
  induction f as [|c f IH]; intros acc n fs Hsp Hlen.
  - cbn. unfold len. cbn. rewrite N.add_0_r. reflexivity.
  - cbn [List.existsb] in Hsp. apply orb_false_iff in Hsp. destruct Hsp as [Hc Hf].
    destruct (special_cases _ Hc) as (Hcomma & Hquote & Hcr & Hlf).
    rewrite len_cons in Hlen.
    cbn [advance]. rewrite Hlf.
    cbn [parse_process_char state]. unfold is_nl. rewrite Hlf, Hcr, Hcomma. cbn [orb].
    rewrite add_char_ok by (unfold set_state; cbn [field_len]; lia).
    cbn [state field field_len fields].
    rewrite IH; [|exact Hf|lia].
    rewrite len_cons. cbn [List.rev]. rewrite <- List.app_assoc. cbn [List.app].
    f_equal. f_equal. lia.
Qed.

(** The characters of a quoted field, inside the quotes. *)
Lemma advance_quoted : forall (f acc : text) (n : N) (fs : list text),
    (n + len f <= field_limit)%N ->
    advance (Reader IN_QUOTED_FIELD acc n fs) (double_quotes f)
    = Some (Reader IN_QUOTED_FIELD (List.rev f ++ acc) (n + len f) fs).
Proof.
  induction f as [|c f IH]; intros acc n fs Hlen.
  - cbn. unfold len. cbn. rewrite N.add_0_r. reflexivity.
  - rewrite len_cons in Hlen. cbn [double_quotes].
    assert (Hnext : advance (Reader IN_QUOTED_FIELD (c :: acc) (n + 1) fs) (double_quotes f)
                    = Some (Reader IN_QUOTED_FIELD (List.rev (c :: f) ++ acc) (n + len (c :: f)) fs)).
    { rewrite IH by lia. rewrite len_cons. cbn [List.rev].
      rewrite <- List.app_assoc. cbn [List.app]. f_equal. f_equal. lia. }
    destruct (Ascii.eqb c QUOTE) eqn:Hq.
    + apply Ascii.eqb_eq in Hq. subst c.
      cbn [advance]. change (Ascii.eqb QUOTE LF) with false. cbn iota.
      cbn [parse_process_char state]. change (Ascii.eqb QUOTE QUOTE) with true. cbn iota.
      cbn [set_state state field field_len fields parse_process_char].
      change (Ascii.eqb QUOTE QUOTE) with true. cbn iota.
      rewrite add_char_ok by (unfold set_state; cbn [field_len]; lia).
      unfold set_state. cbn [bind state field field_len fields]. exact Hnext.
    + cbn [advance]. destruct (Ascii.eqb c LF) eqn:Hlf.
      * cbn [parse_process_char state]. rewrite Hq.
        rewrite add_char_ok by (unfold set_state; cbn [field_len]; lia).
        cbn [bind parse_process_char state field field_len fields pstate_eqb]. exact Hnext.
      * cbn [parse_process_char state]. rewrite Hq.
        rewrite add_char_ok by (unfold set_state; cbn [field_len]; lia).
        cbn [state field field_len fields]. exact Hnext.
Qed.

Ltac delimiter a :=
  match a with
  | QUOTE => idtac
  | LF => idtac
  | CR => idtac
  | COMMA => idtac
  end.

(** Decides the comparisons of two of the delimiters. *)
Ltac compare_delimiters :=
  repeat match goal with
         | |- context [Ascii.eqb ?a ?b] =>
             delimiter a; delimiter b;
             let v := eval vm_compute in (Ascii.eqb a b) in
             change (Ascii.eqb a b) with v
         end;
  cbn [orb andb negb].

Ltac step_reader :=
  cbn [parse_process_char start_field state bind];
  unfold is_nl; compare_delimiters; cbn iota;
  unfold set_state, parse_save_field;
  cbn [state field field_len fields bind].

Lemma limit_positive : (0 < field_limit)%N.
Proof. reflexivity. Qed.

(** A field as the writer wrote it, read from the start of a field: the
    reader is then at the end of the field, where a comma or a line feed
    saves it. *)
Lemma field_body : forall (f : text) (st : pstate) (fs : list text),
    st = START_FIELD \/ st = START_RECORD ->
    (len f <= field_limit)%N ->
    exists mid : reader,
      advance (Reader st [] 0 fs) (join_field f) = Some mid
      /\ parse_process_char mid (Some COMMA) = Ok (Reader START_FIELD [] 0 (f :: fs))
      /\ (st = START_FIELD ->
          parse_process_char mid (Some LF) = Ok (Reader EAT_CRNL [] 0 (f :: fs))).
Proof.
  intros f st fs Hst Hlen. unfold join_field.
  destruct (List.existsb special f) eqn:Hsp.
  - exists (Reader QUOTE_IN_QUOTED_FIELD (List.rev f ++ []) (0 + len f) fs).
    split; [|split].
    + change (QUOTE :: double_quotes f ++ [QUOTE])
        with ([QUOTE] ++ double_quotes f ++ [QUOTE]).
      assert (Hopen : advance (Reader st [] 0 fs) [QUOTE]
                      = Some (Reader IN_QUOTED_FIELD [] 0 fs)).
      { cbn [advance]. compare_delimiters. cbn iota.
        destruct Hst as [-> | ->]; step_reader; reflexivity. }
      rewrite advance_app, Hopen. cbv beta iota.
      rewrite advance_app, advance_quoted by lia. cbv beta iota.
      cbn [advance]. compare_delimiters. cbn iota. step_reader. reflexivity.
    + step_reader. rewrite List.app_nil_r, List.rev_involutive. reflexivity.
    + intros _. step_reader. rewrite List.app_nil_r, List.rev_involutive. reflexivity.
  - destruct f as [|c f].
    + exists (Reader st [] 0 fs). split; [reflexivity|]. split.
      * destruct Hst as [-> | ->]; step_reader; reflexivity.
      * intros ->. step_reader. reflexivity.
    + cbn [List.existsb] in Hsp. apply orb_false_iff in Hsp. destruct Hsp as [Hc Hf].
      destruct (special_cases _ Hc) as (Hcomma & Hquote & Hcr & Hlf).
      rewrite len_cons in Hlen.
      exists (Reader IN_FIELD (List.rev f ++ [c]) (1 + len f) fs).
      split; [|split].
      * cbn [advance]. rewrite Hlf.
        assert (Hfirst : parse_process_char (Reader st [] 0 fs) (Some c)
                         = Ok (Reader IN_FIELD [c] 1 fs)).
        { destruct Hst as [-> | ->];
            cbn [parse_process_char start_field state]; unfold is_nl;
            rewrite Hlf, Hcr, Hquote, Hcomma; cbn [orb];
            rewrite add_char_ok by exact limit_positive; reflexivity. }
        rewrite Hfirst. apply advance_plain; [exact Hf|lia].
      * step_reader. rewrite List.rev_app_distr, List.rev_involutive. reflexivity.
      * intros _. step_reader. rewrite List.rev_app_distr, List.rev_involutive. reflexivity.
Qed.

(** The fields of a record after the first, up to the end of the record. *)
Lemma read_rows_fields : forall (fs : row) (done : list text) (rest : text),
    fs <> [] ->
    Forall (fun f => (len f <= field_limit)%N) fs ->
    read_rows (Reader START_FIELD [] 0 done) (lines (join_fields fs ++ LF :: rest))
    = let (rows, err) := read_rows parse_reset (lines rest) in
      ((List.rev done ++ fs) :: rows, err).
Proof.
  induction fs as [|f fs IH]; intros done rest Hne Hlen; [congruence|].
  inversion Hlen as [|? ? Hf Hfs]; subst.
  destruct (@field_body f START_FIELD done (or_introl eq_refl) Hf)
    as (mid & Hadv & Hcomma & Hlf).
  destruct fs as [|f' fs].
  - cbn [join_fields].
    rewrite (read_rows_advance _ _ Hadv) by discriminate.
    rewrite read_rows_LF. rewrite (Hlf eq_refl). cbn [bind].
    step_reader. cbn [pstate_eqb List.rev].
    destruct (read_rows parse_reset (lines rest)). reflexivity.
  - change (join_fields (f :: f' :: fs)) with (join_field f ++ COMMA :: join_fields (f' :: fs)).
    rewrite <- List.app_assoc. cbn [List.app].
    rewrite (read_rows_advance _ _ Hadv) by discriminate.
    rewrite read_rows_char; [|reflexivity|destruct (join_fields (f' :: fs)); discriminate].
    rewrite Hcomma. rewrite IH; [|discriminate|exact Hfs].
    destruct (read_rows parse_reset (lines rest)). cbn [List.rev].
    rewrite <- List.app_assoc. reflexivity.
Qed.

(** A record of at least two fields, as written and followed by a line
    feed, is read back as it was. *)
Lemma read_rows_record : forall (f1 f2 : text) (fs : row) (rest : text),
    Forall (fun f => (len f <= field_limit)%N) (f1 :: f2 :: fs) ->
    read_rows parse_reset (lines (join_fields (f1 :: f2 :: fs) ++ LF :: rest))
    = let (rows, err) := read_rows parse_reset (lines rest) in
      ((f1 :: f2 :: fs) :: rows, err).
Proof.
  intros f1 f2 fs rest Hlen. inversion Hlen as [|? ? Hf1 Hrest]; subst.
  destruct (@field_body f1 START_RECORD [] (or_intror eq_refl) Hf1)
    as (mid & Hadv & Hcomma & _).
  change (join_fields (f1 :: f2 :: fs)) with (join_field f1 ++ COMMA :: join_fields (f2 :: fs)).
  rewrite <- List.app_assoc. cbn [List.app].
  unfold parse_reset.
  rewrite (read_rows_advance _ _ Hadv) by discriminate.
  rewrite read_rows_char; [|reflexivity|destruct (join_fields (f2 :: fs)); discriminate].
  rewrite Hcomma. rewrite read_rows_fields; [|discriminate|exact Hrest].
  reflexivity.
Qed.

(** *** The text of a file, read with universal newlines *)

Lemma universal_newlines_line : forall a b : text,
    no_cr a ->
    universal_newlines (a ++ CR :: LF :: b) = a ++ LF :: universal_newlines b.
Proof.
  unfold no_cr. induction a as [|c a IH]; intros b H.
  - cbn [List.app universal_newlines]. compare_delimiters. reflexivity.
  - cbn [List.existsb] in H. apply orb_false_iff in H. destruct H as [Hc Ha].
    cbn [List.app universal_newlines].
    rewrite Ascii.eqb_sym, Hc. rewrite IH by exact Ha. reflexivity.
Qed.

Lemma no_cr_app : forall a b : text, no_cr a -> no_cr b -> no_cr (a ++ b).
Proof.
  unfold no_cr. intros a b Ha Hb. rewrite List.existsb_app, Ha, Hb. reflexivity.
Qed.

Lemma no_cr_double_quotes : forall f : text, no_cr f -> no_cr (double_quotes f).
Proof.
  unfold no_cr. induction f as [|c f IH]; intros H; [reflexivity|].
  cbn [List.existsb] in H. apply orb_false_iff in H. destruct H as [Hc Hf].
  cbn [double_quotes]. destruct (Ascii.eqb c QUOTE) eqn:Hq.
  - apply Ascii.eqb_eq in Hq. subst c. cbn [List.existsb].
    rewrite Hc, (IH Hf). reflexivity.
  - cbn [List.existsb]. rewrite Hc, (IH Hf). reflexivity.
Qed.

Lemma no_cr_join_field : forall f : text, no_cr f -> no_cr (join_field f).
Proof.
  intros f H. unfold join_field. destruct (List.existsb special f); [|exact H].
  change (QUOTE :: double_quotes f ++ [QUOTE]) with ([QUOTE] ++ double_quotes f ++ [QUOTE]).
  apply no_cr_app; [reflexivity|].
  apply no_cr_app; [apply no_cr_double_quotes; exact H|reflexivity].
Qed.

Lemma no_cr_join_fields : forall r : row, Forall no_cr r -> no_cr (join_fields r).
Proof.
  induction r as [|f r IH]; intros H; [reflexivity|].
  inversion H as [|? ? Hf Hr]; subst.
  destruct r as [|f' r]; [exact (no_cr_join_field Hf)|].
  change (join_fields (f :: f' :: r)) with (join_field f ++ [COMMA] ++ join_fields (f' :: r)).
  apply no_cr_app; [exact (no_cr_join_field Hf)|].
  apply no_cr_app; [reflexivity|exact (IH Hr)].
Qed.

Lemma writerow_fields : forall (f1 f2 : text) (fs : row),
    writerow (f1 :: f2 :: fs) = join_fields (f1 :: f2 :: fs) ++ [CR; LF].
Proof.
  intros [|c f1] f2 fs; reflexivity.
Qed.

Lemma field_ok_spec : forall f : text,
    StorageCsv.field_ok f = true -> no_cr f /\ (len f <= field_limit)%N.
Proof.
  intros f H. unfold StorageCsv.field_ok in H.
  apply andb_true_iff in H. destruct H as [Hcr Hlen].
  apply negb_true_iff in Hcr. apply N.leb_le in Hlen. split; assumption.
Qed.

(** The rows of a file as the writer wrote it, with at least two fields to
    a row, no carriage return in a field and no field beyond the limit, are
    read back as they were. *)
Lemma reader_rows_written : forall rows : list row,
    Forall StorageCsv.writable rows ->
    reader_rows (lines (universal_newlines (List.concat (List.map writerow rows))))
    = (rows, None).
Proof.
  unfold reader_rows.
  induction rows as [|r rows IH]; intros H; [reflexivity|].
  inversion H as [|? ? [Hlen Hr] Hrows]; subst.
  destruct r as [|f1 [|f2 fs]]; cbn in Hlen; try lia.
  cbn [List.map List.concat]. rewrite writerow_fields.
  rewrite <- List.app_assoc. cbn [List.app].
  rewrite universal_newlines_line.
  - rewrite read_rows_record.
    + rewrite (IH Hrows). reflexivity.
    + eapply Forall_impl; [|exact Hr]. intros f Hf. apply (field_ok_spec _ Hf).
  - apply no_cr_join_fields.
    eapply Forall_impl; [|exact Hr]. intros f Hf. apply (field_ok_spec _ Hf).
Qed.

End CsvFacts.

(** ** Numbers printed and read back *)

Module PyFacts.
Local Open Scope list_scope.

Lemma digitpart_tail_chars : forall d : uint, digitpart_tail (chars d) = (d, []).
Proof.
  unfold chars.
  induction d as [|d IH|d IH|d IH|d IH|d IH|d IH|d IH|d IH|d IH|d IH];
    cbn [NilEmpty.string_of_uint list_ascii_of_string digitpart_tail];
    [reflexivity| |  | | | | | | | | ];
    cbn [digit_of_char]; rewrite IH; reflexivity.
Qed.

Lemma digitpart_chars : forall d : uint,
    d <> Nil -> digitpart (chars d) = Some (d, []).
Proof.
  unfold chars. intros d Hd.
  destruct d; [congruence| | | | | | | | | | ];
    cbn [NilEmpty.string_of_uint list_ascii_of_string digitpart digit_of_char];
    fold (chars d); rewrite digitpart_tail_chars; reflexivity.
Qed.

Lemma chars_no_space : forall d : uint,
    Forall (fun c => isspace_num c = false) (chars d).
Proof.
  unfold chars.
  induction d; cbn [NilEmpty.string_of_uint list_ascii_of_string];
    constructor; solve [reflexivity | assumption].
Qed.

Lemma lstrip_head : forall (p : ascii -> bool) (c : ascii) (s : text),
    p c = false -> lstrip p (c :: s) = c :: s.
Proof.
  intros p c s H. cbn. rewrite H. reflexivity.
Qed.

Lemma strip_none : forall (p : ascii -> bool) (s : text),
    Forall (fun c => p c = false) s -> rstrip p (lstrip p s) = s.
Proof.
  intros p s H.
  assert (Hl : forall t : text, Forall (fun c => p c = false) t -> lstrip p t = t).
  { intros [|c t] Ht; [reflexivity|]. inversion Ht; subst. apply lstrip_head. assumption. }
  rewrite (Hl s H). unfold rstrip. rewrite Hl.
  - apply List.rev_involutive.
  - apply Forall_rev. exact H.
Qed.

Lemma sign_of_chars : forall d : uint, sign_of (chars d) = (false, chars d).
Proof.
  unfold chars. destruct d; reflexivity.
Qed.

Lemma int_of_digits : forall d : uint,
    d <> Nil -> int_of_str (NilEmpty.string_of_uint d) = Some (Z.of_uint d).
Proof.
  intros d Hd. unfold int_of_str. fold (chars d).
  rewrite (strip_none _ (chars_no_space d)), sign_of_chars.
  rewrite (digitpart_chars Hd). reflexivity.
Qed.

Lemma int_of_minus_digits : forall d : uint,
    d <> Nil ->
    int_of_str (String "-" (NilEmpty.string_of_uint d)) = Some (- Z.of_uint d)%Z.
Proof.
  intros d Hd. unfold int_of_str.
  cbn [list_ascii_of_string]. fold (chars d).
  rewrite strip_none.
  - cbn [sign_of]. rewrite (digitpart_chars Hd). reflexivity.
  - constructor; [reflexivity|apply chars_no_space].
Qed.

Lemma string_of_digits : forall d : uint,
    d <> Nil -> NilZero.string_of_uint d = NilEmpty.string_of_uint d.
Proof.
  intros d Hd. destruct d; [congruence| | | | | | | | | | ]; reflexivity.
Qed.

(** [int(str(z)) == z] *)
Lemma int_of_str_of_int : forall z : Z, int_of_str (str_of_int z) = Some z.
Proof.
  intros z. unfold str_of_int.
  rewrite <- (DecimalZ.of_to z) at 2.
  destruct z as [|p|p]; cbn [Z.to_int NilZero.string_of_int Z.of_int].
  - reflexivity.
  - pose proof (DecimalPos.Unsigned.to_uint_nonnil p) as Hp.
    rewrite (string_of_digits Hp). apply int_of_digits. exact Hp.
  - pose proof (DecimalPos.Unsigned.to_uint_nonnil p) as Hp.
    rewrite (string_of_digits Hp). apply int_of_minus_digits. exact Hp.
Qed.

End PyFacts.

(** ** The CSV backend: loading what was saved *)

Module StorageCsvFacts.
Import StorageCsv.
Local Open Scope list_scope.

Lemma forallb_Forall : forall (A : Type) (f : A -> bool) (l : list A),
    List.forallb f l = true -> Forall (fun x => f x = true) l.
Proof.
  induction l as [|x l IH]; intros H; [constructor|].
  cbn in H. apply andb_true_iff in H. destruct H as [Hx Hl].
  constructor; [exact Hx|exact (IH Hl)].
Qed.

(** The body of the loop on a row of four fields. *)
Lemma load_row_fields : forall (a b c d : text) (acc : collection),
    load_row (Csv.zip_row fieldnames [a; b; c; d]) acc
    = (y <- catch (z <- int_ (PStr (string_of_list_ascii b)) ;; Ok (PInt z))
                  is_ValueError (Ok PNone) ;;
       r <- catch (x <- float_ (PStr (string_of_list_ascii c)) ;; Ok (PFloat x))
                  is_ValueError (Ok PNone) ;;
       Ok (set acc (Some (string_of_list_ascii a)) (Info y r (PStr (string_of_list_ascii d))))).
Proof.
  intros a b c d acc. reflexivity.
Qed.

Lemma year_read_back : forall y : value,
    year_ok y = true ->
    catch (z <- int_ (PStr (string_of_list_ascii (Csv.field_text y))) ;; Ok (PInt z))
          is_ValueError (Ok PNone)
    = Ok y.
Proof.
  intros [| b | z | x | s] H; try discriminate.
  - reflexivity.
  - unfold Csv.field_text, str. rewrite string_of_list_ascii_of_string.
    cbn [int_]. rewrite PyFacts.int_of_str_of_int. reflexivity.
Qed.

Lemma rating_read_back : forall r : value,
    rating_ok r = true ->
    catch (x <- float_ (PStr (string_of_list_ascii (Csv.field_text r))) ;; Ok (PFloat x))
          is_ValueError (Ok PNone)
    = Ok r.
Proof.
  intros [| b | z | x | s] H; try discriminate.
  - reflexivity.
  - unfold Csv.field_text, str. rewrite string_of_list_ascii_of_string.
    cbn [float_]. cbn [rating_ok] in H. unfold float_reads_back in H.
    destruct (float_of_str (repr_float x)) as [y|]; [|discriminate].
    apply FloatAxioms.Leibniz.eqb_spec in H. subst y. reflexivity.
Qed.

Lemma entry_ok_spec : forall kv : key * info,
    entry_ok kv = true ->
    (exists s, fst kv = Some s)
    /\ year_ok (year (snd kv)) = true
    /\ rating_ok (rating (snd kv)) = true
    /\ (exists p, poster (snd kv) = PStr p)
    /\ Forall (fun f => field_ok f = true) (save_row kv).
Proof.
  intros [k i] H. unfold entry_ok in H. cbn [fst snd] in *.
  repeat (apply andb_true_iff in H; destruct H as [H ?]).
  repeat split; try assumption.
  - destruct k as [s|]; [exists s; reflexivity|discriminate].
  - destruct (poster i) as [| | | |p]; try discriminate. exists p. reflexivity.
  - apply forallb_Forall. assumption.
Qed.

Lemma load_row_saved : forall (kv : key * info) (acc : collection),
    entry_ok kv = true ->
    load_row (Csv.zip_row fieldnames (save_row kv)) acc = Ok (set acc (fst kv) (snd kv)).
Proof.
  intros kv acc H.
  destruct (entry_ok_spec _ H) as ([s Hs] & Hy & Hr & [p Hp] & _).
  destruct kv as [k [y r po]]. cbn [fst snd year rating poster] in *. subst k po.
  unfold save_row. cbn [fst snd year rating poster title_text].
  rewrite load_row_fields.
  rewrite (year_read_back _ Hy). cbn [bind].
  rewrite (rating_read_back _ Hr). cbn [bind].
  unfold Csv.field_text, str. rewrite !string_of_list_ascii_of_string. reflexivity.
Qed.

Lemma load_rows_saved : forall (m acc : collection),
    Forall (fun kv => entry_ok kv = true) m ->
    load_rows (List.map (fun kv => Csv.zip_row fieldnames (save_row kv)) m) acc
    = Ok (List.fold_left (fun d kv => set d (fst kv) (snd kv)) m acc).
Proof.
  induction m as [|kv m IH]; intros acc H; [reflexivity|].
  inversion H as [|? ? Hkv Hm]; subst.
  cbn [List.map load_rows List.fold_left].
  rewrite (load_row_saved _ _ Hkv). cbn [bind]. apply IH. exact Hm.
Qed.

Lemma header_writable : StorageCsv.writable header.
Proof.
  split; [cbn; lia|]. repeat constructor.
Qed.

Lemma saved_rows_writable : forall m : collection,
    Forall (fun kv => entry_ok kv = true) m ->
    Forall StorageCsv.writable (List.map save_row m).
Proof.
  intros m H. apply Forall_map. eapply Forall_impl; [|exact H].
  intros kv Hkv. split; [cbn; lia|].
  apply (entry_ok_spec _ Hkv).
Qed.

Lemma representable_spec : forall m : collection,
    representable m = true ->
    NoDup (List.map fst m) /\ Forall (fun kv => entry_ok kv = true) m.
Proof.
  intros m H. unfold representable in H. apply andb_true_iff in H.
  destruct H as [Hd Hf]. split.
  - apply distinct_keys_NoDup. exact Hd.
  - apply forallb_Forall. exact Hf.
Qed.

(** A representable collection, saved and loaded, is the collection. *)
Theorem load_save : forall m : collection,
    representable m = true -> _load_data (_save_data m) = Ok m.
Proof.
  intros m H. destruct (representable_spec _ H) as [Hnd Hok].
  unfold _save_data, _load_data.
  rewrite list_ascii_of_string_of_list_ascii.
  change (Csv.writerow header
          ++ List.concat (List.map (fun kv => Csv.writerow (save_row kv)) m))
    with (List.concat (Csv.writerow header
                       :: List.map (fun kv => Csv.writerow (save_row kv)) m)).
  rewrite <- (List.map_map save_row Csv.writerow).
  change (Csv.writerow header :: List.map Csv.writerow (List.map save_row m))
    with (List.map Csv.writerow (header :: List.map save_row m)).
  unfold Csv.DictReader.
  rewrite CsvFacts.reader_rows_written
    by (constructor; [exact header_writable|exact (saved_rows_writable Hok)]).
  change (List.map string_of_list_ascii header) with fieldnames.
  assert (Hfilter : List.filter (fun r => negb (Csv.is_blank r)) (List.map save_row m)
                    = List.map save_row m).
  { clear. induction m as [|kv m IH]; [reflexivity|].
    cbn [List.map List.filter Csv.is_blank save_row negb]. rewrite IH. reflexivity. }
  rewrite Hfilter, List.map_map.
  rewrite (load_rows_saved _ Hok). cbn [bind catch].
  f_equal. apply (dict_of_from key_eqb key_eqb_spec). exact Hnd.
Qed.

Lemma Forall_forallb : forall (A : Type) (f : A -> bool) (l : list A),
    Forall (fun x => f x = true) l -> List.forallb f l = true.
Proof.
  induction 1 as [|x l Hx _ IH]; [reflexivity|].
  cbn. rewrite Hx, IH. reflexivity.
Qed.

Lemma representable_intro : forall m : collection,
    NoDup (List.map fst m) -> Forall (fun kv => entry_ok kv = true) m ->
    representable m = true.
Proof.
  intros m Hnd Hok. unfold representable. apply andb_true_iff. split.
  - apply distinct_keys_NoDup. exact Hnd.
  - apply Forall_forallb. exact Hok.
Qed.

Lemma dict_del_incl : forall (d : collection) (k : key) (x : key * info),
    In x (del d k) -> In x d.
Proof.
  unfold del. induction d as [|[k' v'] r IH]; intros k x H; cbn in *; [exact H|].
  destruct (key_eqb k' k); cbn in *; [auto|].
  destruct H as [H|H]; [auto|]. right. exact (IH _ _ H).
Qed.

(** Deleting a title from a representable collection leaves one. *)
Lemma representable_del : forall (m : collection) (k : key),
    representable m = true -> representable (del m k) = true.
Proof.
  intros m k H. destruct (representable_spec _ H) as [Hnd Hok].
  apply representable_intro.
  - unfold del. apply dict_del_distinct. exact Hnd.
  - rewrite Forall_forall in *. intros x Hx. apply Hok. exact (dict_del_incl _ _ _ Hx).
Qed.

Lemma entry_ok_rating : forall (k : key) (i : info) (r : value),
    entry_ok (k, i) = true -> rating_ok r = true -> field_ok (Csv.field_text r) = true ->
    entry_ok (k, Info (year i) r (poster i)) = true.
Proof.
  intros k i r H Hr Hf. unfold entry_ok in *.
  cbn [fst snd year rating poster save_row List.forallb] in *.
  apply andb_true_iff in H. destruct H as [H Hfields].
  repeat (apply andb_true_iff in H; destruct H as [H ?]).
  apply andb_true_iff in Hfields. destruct Hfields as [Ht Hfields].
  apply andb_true_iff in Hfields. destruct Hfields as [Hy Hfields].
  apply andb_true_iff in Hfields. destruct Hfields as [_ Hp].
  rewrite H, Hr, Hf, Ht, Hy, Hp.
  repeat match goal with Hx : _ = true |- _ => rewrite Hx; clear Hx end.
  reflexivity.
Qed.

(** Setting a rating that the file represents, in a representable
    collection, leaves one. *)
Lemma representable_set_rating : forall (m : collection) (k : key) (r : value),
    representable m = true -> rating_ok r = true -> field_ok (Csv.field_text r) = true ->
    representable (set_rating m k r) = true.
Proof.
  intros m k r H Hr Hf. destruct (representable_spec _ H) as [Hnd Hok].
  apply representable_intro.
  - unfold set_rating. rewrite dict_modify_keys. exact Hnd.
  - clear Hnd H. unfold set_rating.
    induction m as [|[k' i] m IH]; [constructor|].
    inversion Hok as [|? ? Hki Hm]; subst. cbn [dict_modify].
    destruct (key_eqb k' k).
    + constructor; [apply entry_ok_rating; assumption|exact Hm].
    + constructor; [exact Hki|exact (IH Hm)].
Qed.

End StorageCsvFacts.

(** ** Update, delete and save, in both backends *)

Local Open Scope list_scope.

Lemma contains_get : forall (m : collection) (k : key),
    contains m k = true -> exists i, get m k = Some i.
Proof.
  unfold contains, get, dict_contains. intros m k H.
  destruct (dict_get key_eqb m k) as [i|]; [exists i; reflexivity|discriminate].
Qed.

Lemma not_contains_get : forall (m : collection) (k : key),
    contains m k = false -> get m k = None.
Proof.
  unfold contains, get, dict_contains. intros m k H.
  destruct (dict_get key_eqb m k); [discriminate|reflexivity].
Qed.

Lemma set_rating_frame : forall (m : collection) (title : key) (r : value),
    contains m title = true ->
    only_rating_replaced m (set_rating m title r) title r.
Proof.
  intros m title r H. destruct (contains_get _ _ H) as [i Hi].
  unfold only_rating_replaced, set_rating, get in *. split; [|split].
  - exists i. split; [exact Hi|]. rewrite dict_modify_same, Hi. reflexivity.
  - intros t Ht. apply (dict_modify_other key_eqb key_eqb_spec). exact Ht.
  - apply dict_modify_keys.
Qed.

Lemma del_gone : forall (m : collection) (k : key),
    NoDup (List.map fst m) -> contains (del m k) k = false.
Proof.
  intros m k H. unfold contains, dict_contains, del.
  rewrite (dict_del_gone key_eqb key_eqb_spec) by exact H. reflexivity.
Qed.

(** What an operation of the JSON backend saves is listed afterwards. *)
Lemma json_saved_listed : forall (f : StorageJson.file) (m x : collection),
    StorageJson._load_data f = Ok m ->
    (forall k, In k (List.map fst x) -> In k (List.map fst m)) ->
    NoDup (List.map fst x) ->
    StorageJson.list_movies (StorageJson._save_data x) = Ok x.
Proof.
  intros f m x Hload Hsub Hnd. destruct (json_loaded _ Hload) as [_ Htk].
  apply json_load_save; [exact Hnd|]. exact (text_keys_sub _ Hsub Htk).
Qed.

Lemma json_update : forall (f : StorageJson.file) (m : collection) (title : key) (r : value),
    StorageJson.list_movies f = Ok m ->
    let x := if contains m title then set_rating m title r else m in
    StorageJson.update_movie title r f = Ok (StorageJson._save_data x)
    /\ StorageJson.list_movies (StorageJson._save_data x) = Ok x.
Proof.
  intros f m title r Hload x. unfold StorageJson.list_movies in Hload.
  split; [unfold StorageJson.update_movie; rewrite Hload; reflexivity|].
  destruct (json_loaded _ Hload) as [Hnd _].
  assert (Hkeys : List.map fst x = List.map fst m).
  { unfold x. destruct (contains m title); [apply dict_modify_keys|reflexivity]. }
  apply (@json_saved_listed f m _ Hload); rewrite Hkeys; [auto|exact Hnd].
Qed.

Lemma json_delete : forall (f : StorageJson.file) (m : collection) (title : key),
    StorageJson.list_movies f = Ok m ->
    let x := if contains m title then del m title else m in
    StorageJson.delete_movie title f = Ok (StorageJson._save_data x)
    /\ StorageJson.list_movies (StorageJson._save_data x) = Ok x
    /\ contains x title = false.
Proof.
  intros f m title Hload x. unfold StorageJson.list_movies in Hload.
  split; [unfold StorageJson.delete_movie; rewrite Hload; reflexivity|].
  destruct (json_loaded _ Hload) as [Hnd _].
  unfold x. destruct (contains m title) eqn:Hc.
  - split; [|apply del_gone; exact Hnd].
    apply (@json_saved_listed f m _ Hload).
    + intros k Hk. exact (dict_del_keys_incl _ _ _ _ Hk).
    + unfold del. apply dict_del_distinct. exact Hnd.
  - split; [|exact Hc]. apply (@json_saved_listed f m _ Hload); [auto|exact Hnd].
Qed.

Lemma csv_update : forall (f : StorageCsv.file) (m : collection) (title : key) (r : value),
    StorageCsv.list_movies f = Ok m ->
    StorageCsv.representable m = true ->
    StorageCsv.rating_ok r = true ->
    StorageCsv.field_ok (Csv.field_text r) = true ->
    let x := if contains m title then set_rating m title r else m in
    StorageCsv.update_movie title r f = Ok (StorageCsv._save_data x)
    /\ StorageCsv.list_movies (StorageCsv._save_data x) = Ok x.
Proof.
  intros f m title r Hload Hrep Hr Hf x. unfold StorageCsv.list_movies in *.
  split; [unfold StorageCsv.update_movie; rewrite Hload; reflexivity|].
  apply StorageCsvFacts.load_save. unfold x.
  destruct (contains m title); [|exact Hrep].
  apply StorageCsvFacts.representable_set_rating; assumption.
Qed.

Lemma csv_delete : forall (f : StorageCsv.file) (m : collection) (title : key),
    StorageCsv.list_movies f = Ok m ->
    StorageCsv.representable m = true ->
    let x := if contains m title then del m title else m in
    StorageCsv.delete_movie title f = Ok (StorageCsv._save_data x)
    /\ StorageCsv.list_movies (StorageCsv._save_data x) = Ok x
    /\ contains x title = false.
Proof.
  intros f m title Hload Hrep x. unfold StorageCsv.list_movies in *.
  split; [unfold StorageCsv.delete_movie; rewrite Hload; reflexivity|].
  destruct (StorageCsvFacts.representable_spec _ Hrep) as [Hnd _].
  unfold x. destruct (contains m title) eqn:Hc.
  - split; [|apply del_gone; exact Hnd].
    apply StorageCsvFacts.load_save. apply StorageCsvFacts.representable_del. exact Hrep.
  - split; [|exact Hc]. apply StorageCsvFacts.load_save. exact Hrep.
Qed.

(** *** Update of a title that is present *)

(** C6, as amended.  In both backends, [update(title, rating)] of a title
    that is present returns, and [list()] then gives the collection in which
    only the rating under that title was replaced: the year and the poster of
    that record, every other record and the order of the titles are as they
    were.  For the CSV backend the collection is one that the file
    represents exactly, and so is the new rating. *)
Theorem update_replaces_only_rating :
  (forall (f : StorageJson.file) (m : collection) (title : key) (r : value),
      StorageJson.list_movies f = Ok m ->
      contains m title = true ->
      exists f' m',
        StorageJson.update_movie title r f = Ok f'
        /\ StorageJson.list_movies f' = Ok m'
        /\ only_rating_replaced m m' title r)
  /\ (forall (f : StorageCsv.file) (m : collection) (title : key) (r : value),
         StorageCsv.list_movies f = Ok m ->
         StorageCsv.representable m = true ->
         StorageCsv.rating_ok r = true ->
         StorageCsv.field_ok (Csv.field_text r) = true ->
         contains m title = true ->
         exists f' m',
           StorageCsv.update_movie title r f = Ok f'
           /\ StorageCsv.list_movies f' = Ok m'
           /\ only_rating_replaced m m' title r).
Proof.
  split.
  - intros f m title r Hload Hc.
    destruct (@json_update f m title r Hload) as [Hup Hlist]. rewrite Hc in *.
    exists (StorageJson._save_data (set_rating m title r)), (set_rating m title r).
    split; [exact Hup|]. split; [exact Hlist|]. apply set_rating_frame. exact Hc.
  - intros f m title r Hload Hrep Hr Hf Hc.
    destruct (@csv_update f m title r Hload Hrep Hr Hf) as [Hup Hlist]. rewrite Hc in *.
    exists (StorageCsv._save_data (set_rating m title r)), (set_rating m title r).
    split; [exact Hup|]. split; [exact Hlist|]. apply set_rating_frame. exact Hc.
Qed.

Lemma update_replaces_only_rating_witness :
  (exists f' m',
      StorageJson.update_movie (Some "B") (PFloat 7.5) Examples.json_abc = Ok f'
      /\ StorageJson.list_movies f' = Ok m'
      /\ only_rating_replaced Examples.abc m' (Some "B") (PFloat 7.5))
  /\ (exists f' m',
         StorageCsv.update_movie (Some "B") (PFloat 7.5) Examples.csv_abc = Ok f'
         /\ StorageCsv.list_movies f' = Ok m'
         /\ only_rating_replaced Examples.abc m' (Some "B") (PFloat 7.5)).
Proof.
  split.
  - apply (proj1 update_replaces_only_rating Examples.json_abc Examples.abc
             (Some "B") (PFloat 7.5)); vm_compute; reflexivity.
  - apply (proj2 update_replaces_only_rating Examples.csv_abc Examples.abc
             (Some "B") (PFloat 7.5)); vm_compute; reflexivity.
Defined.

(** C6, as stated, fails for the CSV backend: in the file whose row
    [A,1999,8.0] has no poster field, the poster of A is listed as [None];
    after [update("A", 9.0)] it is listed as the empty string. *)
Lemma update_changes_missing_poster :
  ~ (forall (f : StorageCsv.file) (m : collection) (title : key) (r : value),
        StorageCsv.list_movies f = Ok m ->
        contains m title = true ->
        exists f' m',
          StorageCsv.update_movie title r f = Ok f'
          /\ StorageCsv.list_movies f' = Ok m'
          /\ only_rating_replaced m m' title r).
Proof.
  intros H.
  destruct (H Examples.csv_three_fields
              [(Some "A", Info (PInt 1999) (PFloat 8) PNone)] (Some "A") (PFloat 9)
              ltac:(vm_compute; reflexivity) ltac:(vm_compute; reflexivity))
    as (f' & m' & Hup & Hlist & ([i [Hi Hi']] & _)).
  vm_compute in Hup. injection Hup as <-.
  vm_compute in Hlist. injection Hlist as <-.
  vm_compute in Hi. injection Hi as <-.
  vm_compute in Hi'. discriminate.
Qed.

(** *** Update of a title that is absent *)

(** C7, as amended.  In both backends, [update(title, rating)] of a title
    that is not in the collection returns, and [list()] then gives the
    collection that it gave before.  For the CSV backend the collection is
    one that the file represents exactly. *)
Theorem update_absent_keeps_collection :
  (forall (f : StorageJson.file) (m : collection) (title : key) (r : value),
      StorageJson.list_movies f = Ok m ->
      contains m title = false ->
      exists f',
        StorageJson.update_movie title r f = Ok f'
        /\ StorageJson.list_movies f' = Ok m)
  /\ (forall (f : StorageCsv.file) (m : collection) (title : key) (r : value),
         StorageCsv.list_movies f = Ok m ->
         StorageCsv.representable m = true ->
         contains m title = false ->
         exists f',
           StorageCsv.update_movie title r f = Ok f'
           /\ StorageCsv.list_movies f' = Ok m).
Proof.
  split.
  - intros f m title r Hload Hc.
    destruct (@json_update f m title r Hload) as [Hup Hlist]. rewrite Hc in *.
    exists (StorageJson._save_data m). split; assumption.
  - intros f m title r Hload Hrep Hc. unfold StorageCsv.list_movies in *.
    exists (StorageCsv._save_data m). split.
    + unfold StorageCsv.update_movie. rewrite Hload. cbn [bind]. rewrite Hc. reflexivity.
    + apply StorageCsvFacts.load_save. exact Hrep.
Qed.

Lemma update_absent_keeps_collection_witness :
  (exists f',
      StorageJson.update_movie (Some "Z") (PFloat 7.5) Examples.json_abc = Ok f'
      /\ StorageJson.list_movies f' = Ok Examples.abc)
  /\ (exists f',
         StorageCsv.update_movie (Some "Z") (PFloat 7.5) Examples.csv_abc = Ok f'
         /\ StorageCsv.list_movies f' = Ok Examples.abc).
Proof.
  split.
  - apply (proj1 update_absent_keeps_collection Examples.json_abc Examples.abc
             (Some "Z") (PFloat 7.5)); vm_compute; reflexivity.
  - apply (proj2 update_absent_keeps_collection Examples.csv_abc Examples.abc
             (Some "Z") (PFloat 7.5)); vm_compute; reflexivity.
Defined.

(** C7, as stated, fails for the CSV backend: the file whose row
    [A,1999,8.0] has no poster field lists the poster of A as [None]; after
    [update("Z", 1.0)], of a title that is absent, it lists it as the empty
    string. *)
Lemma update_absent_changes_missing_poster :
  ~ (forall (f : StorageCsv.file) (m : collection) (title : key) (r : value),
        StorageCsv.list_movies f = Ok m ->
        contains m title = false ->
        exists f',
          StorageCsv.update_movie title r f = Ok f'
          /\ StorageCsv.list_movies f' = Ok m).
Proof.
  intros H.
  destruct (H Examples.csv_three_fields
              [(Some "A", Info (PInt 1999) (PFloat 8) PNone)] (Some "Z") (PFloat 1)
              ltac:(vm_compute; reflexivity) ltac:(vm_compute; reflexivity))
    as (f' & Hup & Hlist).
  vm_compute in Hup. injection Hup as <-.
  vm_compute in Hlist. discriminate.
Qed.

(** *** Delete *)

(** C8, as amended.  In both backends, [delete(title)] returns, a second
    [delete(title)] returns, and [list()] gives after the second what it
    gave after the first; and when the title is not in the collection,
    [list()] gives after [delete(title)] what it gave before.  For the CSV
    backend the collection is one that the file represents exactly. *)
Theorem delete_twice_as_once :
  (forall (f : StorageJson.file) (m : collection) (title : key),
      StorageJson.list_movies f = Ok m ->
      exists f1 f2 m1,
        StorageJson.delete_movie title f = Ok f1
        /\ StorageJson.delete_movie title f1 = Ok f2
        /\ StorageJson.list_movies f1 = Ok m1
        /\ StorageJson.list_movies f2 = Ok m1
        /\ get m1 title = None
        /\ (contains m title = false -> m1 = m))
  /\ (forall (f : StorageCsv.file) (m : collection) (title : key),
         StorageCsv.list_movies f = Ok m ->
         StorageCsv.representable m = true ->
         exists f1 f2 m1,
           StorageCsv.delete_movie title f = Ok f1
           /\ StorageCsv.delete_movie title f1 = Ok f2
           /\ StorageCsv.list_movies f1 = Ok m1
           /\ StorageCsv.list_movies f2 = Ok m1
           /\ get m1 title = None
           /\ (contains m title = false -> m1 = m)).
Proof.
  split.
  - intros f m title Hload.
    destruct (@json_delete f m title Hload) as (Hdel & Hlist & Hgone).
    set (x := if contains m title then del m title else m) in *.
    destruct (@json_delete _ x title Hlist) as (Hdel2 & Hlist2 & _).
    rewrite Hgone in Hdel2, Hlist2.
    exists (StorageJson._save_data x), (StorageJson._save_data x), x.
    repeat split; try assumption.
    + apply not_contains_get. exact Hgone.
    + intros Hc. unfold x. rewrite Hc. reflexivity.
  - intros f m title Hload Hrep.
    destruct (@csv_delete f m title Hload Hrep) as (Hdel & Hlist & Hgone).
    set (x := if contains m title then del m title else m) in *.
    assert (Hrepx : StorageCsv.representable x = true).
    { unfold x. destruct (contains m title); [|exact Hrep].
      apply StorageCsvFacts.representable_del. exact Hrep. }
    destruct (@csv_delete _ x title Hlist Hrepx) as (Hdel2 & Hlist2 & _).
    rewrite Hgone in Hdel2, Hlist2.
    exists (StorageCsv._save_data x), (StorageCsv._save_data x), x.
    repeat split; try assumption.
    + apply not_contains_get. exact Hgone.
    + intros Hc. unfold x. rewrite Hc. reflexivity.
Qed.

Lemma delete_twice_as_once_witness :
  (exists f1 f2 m1,
      StorageJson.delete_movie (Some "B") Examples.json_abc = Ok f1
      /\ StorageJson.delete_movie (Some "B") f1 = Ok f2
      /\ StorageJson.list_movies f1 = Ok m1
      /\ StorageJson.list_movies f2 = Ok m1
      /\ get m1 (Some "B") = None
      /\ (contains Examples.abc (Some "B") = false -> m1 = Examples.abc))
  /\ (exists f1 f2 m1,
         StorageCsv.delete_movie (Some "B") Examples.csv_abc = Ok f1
         /\ StorageCsv.delete_movie (Some "B") f1 = Ok f2
         /\ StorageCsv.list_movies f1 = Ok m1
         /\ StorageCsv.list_movies f2 = Ok m1
         /\ get m1 (Some "B") = None
         /\ (contains Examples.abc (Some "B") = false -> m1 = Examples.abc)).
Proof.
  split.
  - apply (proj1 delete_twice_as_once Examples.json_abc Examples.abc (Some "B")).
    vm_compute. reflexivity.
  - apply (proj2 delete_twice_as_once Examples.csv_abc Examples.abc (Some "B"));
      vm_compute; reflexivity.
Defined.

(** C8, as stated, fails for the CSV backend.  In the file whose header
    names the title last and whose row has three fields, the title is listed
    as [None]: [delete("")] finds no such title and saves the row with an
    empty title, which a second [delete("")] removes.  And in the file whose
    row [A,1999,8.0] has no poster field, [delete("Z")], of a title that is
    absent, changes what is listed. *)
Lemma delete_twice_differs_on_missing_title :
  ~ (forall (f : StorageCsv.file) (m : collection) (title : key),
        StorageCsv.list_movies f = Ok m ->
        exists f1 f2 m1,
          StorageCsv.delete_movie title f = Ok f1
          /\ StorageCsv.delete_movie title f1 = Ok f2
          /\ StorageCsv.list_movies f1 = Ok m1
          /\ StorageCsv.list_movies f2 = Ok m1)
  /\ ~ (forall (f : StorageCsv.file) (m : collection) (title : key),
           StorageCsv.list_movies f = Ok m ->
           contains m title = false ->
           exists f1,
             StorageCsv.delete_movie title f = Ok f1
             /\ StorageCsv.list_movies f1 = Ok m).
Proof.
  split.
  - intros H.
    destruct (H Examples.csv_title_last
                [(None, Info (PInt 1999) (PFloat 8) (PStr "N/A"))] (Some "")
                ltac:(vm_compute; reflexivity))
      as (f1 & f2 & m1 & Hd1 & Hd2 & Hl1 & Hl2).
    vm_compute in Hd1. injection Hd1 as <-.
    vm_compute in Hd2. injection Hd2 as <-.
    vm_compute in Hl1. injection Hl1 as <-.
    vm_compute in Hl2. discriminate.
  - intros H.
    destruct (H Examples.csv_three_fields
                [(Some "A", Info (PInt 1999) (PFloat 8) PNone)] (Some "Z")
                ltac:(vm_compute; reflexivity) ltac:(vm_compute; reflexivity))
      as (f1 & Hd1 & Hl1).
    vm_compute in Hd1. injection Hd1 as <-.
    vm_compute in Hl1. discriminate.
Qed.

(** *** Saving and loading *)

(** C9.  The CSV backend does not read back what it wrote when a title
    holds a carriage return: the file is written with [newline=""] and read
    without it, so the carriage return inside the quoted title is read as a
    line feed. *)
Theorem csv_save_load_carriage_return :
  StorageCsv.list_movies (StorageCsv._save_data Examples.cr_title) = Ok Examples.lf_title
  /\ Examples.lf_title <> Examples.cr_title.
Proof.
  split; [vm_compute; reflexivity|discriminate].
Qed.

(** The CSV backend reads back a collection that the file represents
    exactly. *)
Theorem csv_save_load :
  forall m : collection,
    StorageCsv.representable m = true ->
    StorageCsv.list_movies (StorageCsv._save_data m) = Ok m.
Proof.
  exact StorageCsvFacts.load_save.
Qed.

Lemma csv_save_load_witness :
  StorageCsv.list_movies (StorageCsv._save_data Examples.abc) = Ok Examples.abc.
Proof.
  apply (csv_save_load Examples.abc). vm_compute. reflexivity.
Defined.

(** The JSON backend reads back a collection whose titles are texts, each
    once: the values, numbers included, are the ones saved. *)
Theorem json_save_load :
  forall m : collection,
    NoDup (List.map fst m) -> text_keys m ->
    StorageJson.list_movies (StorageJson._save_data m) = Ok m.
Proof.
  exact json_load_save.
Qed.

Lemma json_save_load_witness :
  StorageJson.list_movies (StorageJson._save_data Examples.abc) = Ok Examples.abc.
Proof.
  apply (@json_save_load Examples.abc).
  - apply distinct_keys_NoDup. reflexivity.
  - repeat constructor; eexists; reflexivity.
Defined.

(** C10.  In both backends [delete(title)] and [update(title, rating)] save
    whether or not they changed the collection: on a title that is absent
    they return the file that saving the collection loaded gives, and when
    there is no file they create it, with the header only in the CSV backend
    and with the empty document in the JSON backend. *)
Theorem delete_update_always_save :
  (forall title : key,
      StorageCsv.delete_movie title StorageCsv.Absent = Ok Examples.header_only)
  /\ (forall (title : key) (r : value),
         StorageCsv.update_movie title r StorageCsv.Absent = Ok Examples.header_only)
  /\ (forall title : key,
         StorageJson.delete_movie title StorageJson.Absent = Ok (StorageJson.Document []))
  /\ (forall (title : key) (r : value),
         StorageJson.update_movie title r StorageJson.Absent = Ok (StorageJson.Document []))
  /\ (forall (f : StorageCsv.file) (m : collection) (title : key) (r : value),
         StorageCsv.list_movies f = Ok m -> contains m title = false ->
         StorageCsv.delete_movie title f = Ok (StorageCsv._save_data m)
         /\ StorageCsv.update_movie title r f = Ok (StorageCsv._save_data m))
  /\ (forall (f : StorageJson.file) (m : collection) (title : key) (r : value),
         StorageJson.list_movies f = Ok m -> contains m title = false ->
         StorageJson.delete_movie title f = Ok (StorageJson._save_data m)
         /\ StorageJson.update_movie title r f = Ok (StorageJson._save_data m)).
Proof.
  split; [reflexivity|]. split; [reflexivity|].
  split; [reflexivity|]. split; [reflexivity|]. split.
  - intros f m title r Hload Hc. unfold StorageCsv.list_movies in Hload.
    unfold StorageCsv.delete_movie, StorageCsv.update_movie.
    rewrite Hload. cbn [bind]. rewrite Hc. split; reflexivity.
  - intros f m title r Hload Hc. unfold StorageJson.list_movies in Hload.
    unfold StorageJson.delete_movie, StorageJson.update_movie.
    rewrite Hload. cbn [bind]. rewrite Hc. split; reflexivity.
Qed.

Lemma delete_update_always_save_witness :
  StorageCsv.delete_movie (Some "Z") Examples.csv_abc = Ok (StorageCsv._save_data Examples.abc)
  /\ StorageCsv.update_movie (Some "Z") (PFloat 1) Examples.csv_abc
     = Ok (StorageCsv._save_data Examples.abc).
Proof.
  apply (proj1 (proj2 (proj2 (proj2 (proj2 delete_update_always_save))))
           Examples.csv_abc Examples.abc (Some "Z") (PFloat 1));
    vm_compute; reflexivity.
Defined.

(* ------------------------------------------------------------------ *)
(** ** Adding and deleting in the storage *)

Section DictSetFacts.
Variables K V : Type.
Variable eqb : K -> K -> bool.
Hypothesis eqb_spec : forall a b, eqb a b = true <-> a = b.

Lemma dict_set_same : forall (d : dict K V) k v,
    dict_get eqb (dict_set eqb d k v) k = Some v.
Proof.
  induction d as [|[k' v'] r IH]; intros k v; cbn.
  - rewrite (eqb_same eqb eqb_spec). reflexivity.
  - destruct (eqb k' k) eqn:E; cbn; rewrite E; [reflexivity|apply IH].
Qed.

Lemma dict_set_other : forall (d : dict K V) k k' v,
    k' <> k -> dict_get eqb (dict_set eqb d k v) k' = dict_get eqb d k'.
Proof.
  induction d as [|[k0 v0] r IH]; intros k k' v Hne; cbn.
  - rewrite (eqb_diff eqb eqb_spec); [reflexivity|]. intro E. apply Hne. symmetry. exact E.
  - destruct (eqb k0 k) eqn:E; cbn.
    + apply eqb_spec in E. subst k0.
      rewrite (eqb_diff eqb eqb_spec); [reflexivity|]. intro E. apply Hne. symmetry. exact E.
    + destruct (eqb k0 k'); [reflexivity|apply IH; exact Hne].
Qed.

Lemma dict_set_set : forall (d : dict K V) k v v',
    dict_set eqb (dict_set eqb d k v) k v' = dict_set eqb d k v'.
Proof.
  induction d as [|[k0 v0] r IH]; intros k v v'; cbn.
  - rewrite (eqb_same eqb eqb_spec). reflexivity.
  - destruct (eqb k0 k) eqn:E; cbn; rewrite E; [reflexivity|]. rewrite IH. reflexivity.
Qed.

Lemma dict_del_set_absent : forall (d : dict K V) k v,
    dict_get eqb d k = None -> dict_del eqb (dict_set eqb d k v) k = d.
Proof.
  induction d as [|[k0 v0] r IH]; intros k v H; cbn in *.
  - rewrite (eqb_same eqb eqb_spec). reflexivity.
  - destruct (eqb k0 k) eqn:E; [discriminate|]. cbn. rewrite E, IH; [reflexivity|exact H].
Qed.

Lemma dict_set_incl : forall (d : dict K V) k v x,
    In x (dict_set eqb d k v) -> x = (k, v) \/ In x d.
Proof.
  induction d as [|[k0 v0] r IH]; intros k v x H; cbn in *.
  - destruct H as [H|[]]. left. symmetry. exact H.
  - destruct (eqb k0 k) eqn:E; cbn in H.
    + apply eqb_spec in E. subst k0.
      destruct H as [H|H]; [left; symmetry; exact H|right; right; exact H].
    + destruct H as [H|H]; [right; left; exact H|].
      destruct (IH _ _ _ H) as [H1|H1]; [left; exact H1|right; right; exact H1].
Qed.

Lemma filter_absent : forall (l : list K) k,
    ~ In k l -> List.filter (fun t => negb (eqb t k)) l = l.
Proof.
  induction l as [|a l IH]; intros k Hn; cbn; [reflexivity|].
  rewrite (eqb_diff eqb eqb_spec); [cbn|intro E; apply Hn; left; exact E].
  f_equal. apply IH. intro Hin. apply Hn. right. exact Hin.
Qed.

Lemma dict_del_keys : forall (d : dict K V) k,
    NoDup (List.map fst d) ->
    List.map fst (dict_del eqb d k)
    = List.filter (fun t => negb (eqb t k)) (List.map fst d).
Proof.
  induction d as [|[k0 v0] r IH]; intros k Hnd; cbn in *; [reflexivity|].
  inversion Hnd as [|? ? Hnotin Hnd']; subst.
  destruct (eqb k0 k) eqn:E; cbn.
  - apply eqb_spec in E. subst k0. symmetry. apply filter_absent. exact Hnotin.
  - f_equal. apply IH. exact Hnd'.
Qed.

End DictSetFacts.

Lemma set_bound : forall (m : collection) (title : key) (i : info),
    bound m (set m title i) title i.
Proof.
  intros m title i. unfold bound, set, get, contains. split; [|split].
  - apply (dict_set_same key_eqb key_eqb_spec).
  - intros t Ht. apply (dict_set_other key_eqb key_eqb_spec). exact Ht.
  - apply dict_set_keys.
Qed.

Lemma del_removed : forall (m : collection) (title : key),
    NoDup (List.map fst m) ->
    removed m (if contains m title then del m title else m) title.
Proof.
  intros m title Hnd.
  assert (E : (if contains m title then del m title else m) = del m title).
  { destruct (contains m title) eqn:Hc; [reflexivity|]. symmetry.
    apply (dict_del_absent key_eqb). apply not_contains_get. exact Hc. }
  rewrite E. unfold removed, del, get. split; [|split].
  - apply (dict_del_gone key_eqb key_eqb_spec). exact Hnd.
  - intros t Ht. apply (dict_del_other key_eqb key_eqb_spec). exact Ht.
  - apply (dict_del_keys key_eqb key_eqb_spec). exact Hnd.
Qed.

Lemma text_keys_set : forall (m : collection) (s : string) (i : info),
    text_keys m -> text_keys (set m (Some s) i).
Proof.
  intros m s i H. unfold text_keys in *. rewrite Forall_forall in *.
  intros k Hk. apply (dict_set_keys_incl key_eqb) in Hk.
  destruct Hk as [Hk|Hk]; [exists s; exact Hk|exact (H _ Hk)].
Qed.

Lemma json_add : forall (f : StorageJson.file) (m : collection) (s : string) (i : info),
    StorageJson.list_movies f = Ok m ->
    StorageJson.add_movie (Some s) (year i) (rating i) (poster i) f
    = Ok (StorageJson._save_data (set m (Some s) i))
    /\ StorageJson.list_movies (StorageJson._save_data (set m (Some s) i))
       = Ok (set m (Some s) i).
Proof.
  intros f m s [y r p] Hload. unfold StorageJson.list_movies in *.
  split; [unfold StorageJson.add_movie; rewrite Hload; reflexivity|].
  destruct (json_loaded _ Hload) as [Hnd Htk].
  apply json_load_save.
  - apply dict_set_distinct; [exact key_eqb_spec|exact Hnd].
  - apply text_keys_set. exact Htk.
Qed.

Lemma representable_set : forall (m : collection) (k : key) (i : info),
    StorageCsv.representable m = true -> StorageCsv.entry_ok (k, i) = true ->
    StorageCsv.representable (set m k i) = true.
Proof.
  intros m k i H Hi. destruct (StorageCsvFacts.representable_spec _ H) as [Hnd Hok].
  apply StorageCsvFacts.representable_intro.
  - apply dict_set_distinct; [exact key_eqb_spec|exact Hnd].
  - rewrite Forall_forall in *. intros x Hx.
    apply (dict_set_incl key_eqb key_eqb_spec) in Hx.
    destruct Hx as [Hx|Hx]; [subst x; exact Hi|exact (Hok _ Hx)].
Qed.

Lemma csv_add : forall (f : StorageCsv.file) (m : collection) (k : key) (i : info),
    StorageCsv.list_movies f = Ok m ->
    StorageCsv.representable m = true ->
    StorageCsv.entry_ok (k, i) = true ->
    StorageCsv.add_movie k (year i) (rating i) (poster i) f
    = Ok (StorageCsv._save_data (set m k i))
    /\ StorageCsv.list_movies (StorageCsv._save_data (set m k i)) = Ok (set m k i)
    /\ StorageCsv.representable (set m k i) = true.
Proof.
  intros f m k [y r p] Hload Hrep Hi. unfold StorageCsv.list_movies in *.
  split; [unfold StorageCsv.add_movie; rewrite Hload; reflexivity|].
  assert (Hx := representable_set _ _ _ Hrep Hi).
  split; [apply StorageCsvFacts.load_save; exact Hx|exact Hx].
Qed.

(** X5.  [add_movie] binds the title to the record given, in both backends:
    the file it writes lists the title with that record, every other title
    with the record it had, and the titles in the order they had, a new
    title last.  In the JSON backend the title is a text; in the CSV backend
    the collection listed and the new entry are ones that the file
    represents exactly, and so is the collection written. *)
Theorem add_binds_title :
  (forall (f : StorageJson.file) (m : collection) (s : string) (y r p : value),
      StorageJson.list_movies f = Ok m ->
      exists f' m',
        StorageJson.add_movie (Some s) y r p f = Ok f'
        /\ StorageJson.list_movies f' = Ok m'
        /\ bound m m' (Some s) (Info y r p))
  /\ (forall (f : StorageCsv.file) (m : collection) (title : key) (y r p : value),
         StorageCsv.list_movies f = Ok m ->
         StorageCsv.representable m = true ->
         StorageCsv.entry_ok (title, Info y r p) = true ->
         exists f' m',
           StorageCsv.add_movie title y r p f = Ok f'
           /\ StorageCsv.list_movies f' = Ok m'
           /\ bound m m' title (Info y r p)
           /\ StorageCsv.representable m' = true).
Proof.
  split.
  - intros f m s y r p Hload.
    destruct (@json_add f m s (Info y r p) Hload) as [Hadd Hlist].
    exists (StorageJson._save_data (set m (Some s) (Info y r p))),
           (set m (Some s) (Info y r p)).
    split; [exact Hadd|]. split; [exact Hlist|]. apply set_bound.
  - intros f m title y r p Hload Hrep Hi.
    destruct (@csv_add f m title (Info y r p) Hload Hrep Hi) as (Hadd & Hlist & Hx).
    exists (StorageCsv._save_data (set m title (Info y r p))),
           (set m title (Info y r p)).
    split; [exact Hadd|]. split; [exact Hlist|]. split; [apply set_bound|exact Hx].
Qed.

Lemma add_binds_title_witness :
  (exists f' m',
      StorageJson.add_movie (Some "D") (PInt 2010) (PFloat 8.5) (PStr "N/A")
        Examples.json_abc = Ok f'
      /\ StorageJson.list_movies f' = Ok m'
      /\ bound Examples.abc m' (Some "D") (Info (PInt 2010) (PFloat 8.5) (PStr "N/A")))
  /\ (exists f' m',
         StorageCsv.add_movie (Some "D") (PInt 2010) (PFloat 8.5) (PStr "N/A")
           Examples.csv_abc = Ok f'
         /\ StorageCsv.list_movies f' = Ok m'
         /\ bound Examples.abc m' (Some "D") (Info (PInt 2010) (PFloat 8.5) (PStr "N/A"))
         /\ StorageCsv.representable m' = true).
Proof.
  split.
  - apply (proj1 add_binds_title Examples.json_abc Examples.abc "D"
             (PInt 2010) (PFloat 8.5) (PStr "N/A")).
    vm_compute. reflexivity.
  - apply (proj2 add_binds_title Examples.csv_abc Examples.abc (Some "D")
             (PInt 2010) (PFloat 8.5) (PStr "N/A")); vm_compute; reflexivity.
Defined.

(** X6.  [delete_movie] removes the title, in both backends: the file it
    writes lists no record under the title, every other title with the
    record it had, and the titles that are left in the order they had.  In
    the CSV backend the collection listed is one that the file represents
    exactly, and so is the collection written. *)
Theorem delete_removes_title :
  (forall (f : StorageJson.file) (m : collection) (title : key),
      StorageJson.list_movies f = Ok m ->
      exists f' m',
        StorageJson.delete_movie title f = Ok f'
        /\ StorageJson.list_movies f' = Ok m'
        /\ removed m m' title)
  /\ (forall (f : StorageCsv.file) (m : collection) (title : key),
         StorageCsv.list_movies f = Ok m ->
         StorageCsv.representable m = true ->
         exists f' m',
           StorageCsv.delete_movie title f = Ok f'
           /\ StorageCsv.list_movies f' = Ok m'
           /\ removed m m' title
           /\ StorageCsv.representable m' = true).
Proof.
  split.
  - intros f m title Hload.
    destruct (@json_delete f m title Hload) as (Hdel & Hlist & _).
    destruct (json_loaded _ Hload) as [Hnd _].
    exists (StorageJson._save_data (if contains m title then del m title else m)),
           (if contains m title then del m title else m).
    split; [exact Hdel|]. split; [exact Hlist|]. apply del_removed. exact Hnd.
  - intros f m title Hload Hrep.
    destruct (@csv_delete f m title Hload Hrep) as (Hdel & Hlist & _).
    destruct (StorageCsvFacts.representable_spec _ Hrep) as [Hnd _].
    exists (StorageCsv._save_data (if contains m title then del m title else m)),
           (if contains m title then del m title else m).
    split; [exact Hdel|]. split; [exact Hlist|]. split; [apply del_removed; exact Hnd|].
    destruct (contains m title); [|exact Hrep].
    apply StorageCsvFacts.representable_del. exact Hrep.
Qed.

Lemma delete_removes_title_witness :
  (exists f' m',
      StorageJson.delete_movie (Some "B") Examples.json_abc = Ok f'
      /\ StorageJson.list_movies f' = Ok m'
      /\ removed Examples.abc m' (Some "B"))
  /\ (exists f' m',
         StorageCsv.delete_movie (Some "B") Examples.csv_abc = Ok f'
         /\ StorageCsv.list_movies f' = Ok m'
         /\ removed Examples.abc m' (Some "B")
         /\ StorageCsv.representable m' = true).
Proof.
  split.
  - apply (proj1 delete_removes_title Examples.json_abc Examples.abc (Some "B")).
    vm_compute. reflexivity.
  - apply (proj2 delete_removes_title Examples.csv_abc Examples.abc (Some "B"));
      vm_compute; reflexivity.
Defined.

Lemma contains_set : forall (m : collection) (k : key) (i : info),
    contains (set m k i) k = true.
Proof.
  intros m k i. unfold contains, set, dict_contains.
  rewrite (dict_set_same key_eqb key_eqb_spec). reflexivity.
Qed.

Lemma del_set_fresh : forall (m : collection) (k : key) (i : info),
    contains m k = false -> del (set m k i) k = m.
Proof.
  intros m k i H. unfold del, set.
  apply (dict_del_set_absent key_eqb key_eqb_spec). apply not_contains_get. exact H.
Qed.

(** X7.  Adding a title that the collection does not hold and deleting it
    again gives back the collection, in both backends: the file written by
    the delete lists the collection that was listed before the add. *)
Theorem add_then_delete_restores :
  (forall (f : StorageJson.file) (m : collection) (s : string) (y r p : value),
      StorageJson.list_movies f = Ok m ->
      contains m (Some s) = false ->
      exists f1 f2,
        StorageJson.add_movie (Some s) y r p f = Ok f1
        /\ StorageJson.delete_movie (Some s) f1 = Ok f2
        /\ StorageJson.list_movies f2 = Ok m)
  /\ (forall (f : StorageCsv.file) (m : collection) (title : key) (y r p : value),
         StorageCsv.list_movies f = Ok m ->
         StorageCsv.representable m = true ->
         StorageCsv.entry_ok (title, Info y r p) = true ->
         contains m title = false ->
         exists f1 f2,
           StorageCsv.add_movie title y r p f = Ok f1
           /\ StorageCsv.delete_movie title f1 = Ok f2
           /\ StorageCsv.list_movies f2 = Ok m).
Proof.
  split.
  - intros f m s y r p Hload Hfresh.
    destruct (@json_add f m s (Info y r p) Hload) as [Hadd Hlist].
    destruct (@json_delete _ _ (Some s) Hlist) as (Hdel & Hlist2 & _).
    rewrite contains_set, (del_set_fresh _ _ _ Hfresh) in Hdel, Hlist2.
    exists (StorageJson._save_data (set m (Some s) (Info y r p))),
           (StorageJson._save_data m).
    split; [exact Hadd|]. split; [exact Hdel|exact Hlist2].
  - intros f m title y r p Hload Hrep Hi Hfresh.
    destruct (@csv_add f m title (Info y r p) Hload Hrep Hi) as (Hadd & Hlist & Hx).
    destruct (@csv_delete _ _ title Hlist Hx) as (Hdel & Hlist2 & _).
    rewrite contains_set, (del_set_fresh _ _ _ Hfresh) in Hdel, Hlist2.
    exists (StorageCsv._save_data (set m title (Info y r p))),
           (StorageCsv._save_data m).
    split; [exact Hadd|]. split; [exact Hdel|exact Hlist2].
Qed.

Lemma add_then_delete_restores_witness :
  (exists f1 f2,
      StorageJson.add_movie (Some "D") (PInt 2010) (PFloat 8.5) (PStr "N/A")
        Examples.json_abc = Ok f1
      /\ StorageJson.delete_movie (Some "D") f1 = Ok f2
      /\ StorageJson.list_movies f2 = Ok Examples.abc)
  /\ (exists f1 f2,
         StorageCsv.add_movie (Some "D") (PInt 2010) (PFloat 8.5) (PStr "N/A")
           Examples.csv_abc = Ok f1
         /\ StorageCsv.delete_movie (Some "D") f1 = Ok f2
         /\ StorageCsv.list_movies f2 = Ok Examples.abc).
Proof.
  split.
  - apply (proj1 add_then_delete_restores Examples.json_abc Examples.abc "D"
             (PInt 2010) (PFloat 8.5) (PStr "N/A")); vm_compute; reflexivity.
  - apply (proj2 add_then_delete_restores Examples.csv_abc Examples.abc (Some "D")
             (PInt 2010) (PFloat 8.5) (PStr "N/A")); vm_compute; reflexivity.
Defined.

(** X8.  Adding a title twice keeps one entry, with the record given last:
    in both backends the second add writes the very file that adding the
    second record alone would have written, and that file lists the title
    once, bound to the second record. *)
Theorem add_twice_keeps_last :
  (forall (f : StorageJson.file) (m : collection) (s : string) (i1 i2 : info),
      StorageJson.list_movies f = Ok m ->
      exists f1 f2 m',
        StorageJson.add_movie (Some s) (year i1) (rating i1) (poster i1) f = Ok f1
        /\ StorageJson.add_movie (Some s) (year i2) (rating i2) (poster i2) f1 = Ok f2
        /\ StorageJson.add_movie (Some s) (year i2) (rating i2) (poster i2) f = Ok f2
        /\ StorageJson.list_movies f2 = Ok m'
        /\ bound m m' (Some s) i2)
  /\ (forall (f : StorageCsv.file) (m : collection) (title : key) (i1 i2 : info),
         StorageCsv.list_movies f = Ok m ->
         StorageCsv.representable m = true ->
         StorageCsv.entry_ok (title, i1) = true ->
         StorageCsv.entry_ok (title, i2) = true ->
         exists f1 f2 m',
           StorageCsv.add_movie title (year i1) (rating i1) (poster i1) f = Ok f1
           /\ StorageCsv.add_movie title (year i2) (rating i2) (poster i2) f1 = Ok f2
           /\ StorageCsv.add_movie title (year i2) (rating i2) (poster i2) f = Ok f2
           /\ StorageCsv.list_movies f2 = Ok m'
           /\ bound m m' title i2).
Proof.
  split.
  - intros f m s i1 i2 Hload.
    destruct (@json_add f m s i1 Hload) as [Hadd1 Hlist1].
    destruct (@json_add _ _ s i2 Hlist1) as [Hadd2 _].
    destruct (@json_add f m s i2 Hload) as [Hadd Hlist].
    unfold set in Hadd2. rewrite (dict_set_set key_eqb key_eqb_spec) in Hadd2.
    exists (StorageJson._save_data (set m (Some s) i1)),
           (StorageJson._save_data (set m (Some s) i2)), (set m (Some s) i2).
    split; [exact Hadd1|]. split; [exact Hadd2|]. split; [exact Hadd|].
    split; [exact Hlist|apply set_bound].
  - intros f m title i1 i2 Hload Hrep H1 H2.
    destruct (@csv_add f m title i1 Hload Hrep H1) as (Hadd1 & Hlist1 & Hx1).
    destruct (@csv_add _ _ title i2 Hlist1 Hx1 H2) as (Hadd2 & _ & _).
    destruct (@csv_add f m title i2 Hload Hrep H2) as (Hadd & Hlist & _).
    unfold set in Hadd2. rewrite (dict_set_set key_eqb key_eqb_spec) in Hadd2.
    exists (StorageCsv._save_data (set m title i1)),
           (StorageCsv._save_data (set m title i2)), (set m title i2).
    split; [exact Hadd1|]. split; [exact Hadd2|]. split; [exact Hadd|].
    split; [exact Hlist|apply set_bound].
Qed.

Lemma add_twice_keeps_last_witness :
  (exists f1 f2 m',
      StorageJson.add_movie (Some "B") (PInt 2001) (PFloat 1) (PStr "x")
        Examples.json_abc = Ok f1
      /\ StorageJson.add_movie (Some "B") (PInt 2002) (PFloat 2) (PStr "y") f1 = Ok f2
      /\ StorageJson.add_movie (Some "B") (PInt 2002) (PFloat 2) (PStr "y")
           Examples.json_abc = Ok f2
      /\ StorageJson.list_movies f2 = Ok m'
      /\ bound Examples.abc m' (Some "B") (Info (PInt 2002) (PFloat 2) (PStr "y")))
  /\ (exists f1 f2 m',
         StorageCsv.add_movie (Some "B") (PInt 2001) (PFloat 1) (PStr "x")
           Examples.csv_abc = Ok f1
         /\ StorageCsv.add_movie (Some "B") (PInt 2002) (PFloat 2) (PStr "y") f1 = Ok f2
         /\ StorageCsv.add_movie (Some "B") (PInt 2002) (PFloat 2) (PStr "y")
              Examples.csv_abc = Ok f2
         /\ StorageCsv.list_movies f2 = Ok m'
         /\ bound Examples.abc m' (Some "B") (Info (PInt 2002) (PFloat 2) (PStr "y"))).
Proof.
  split.
  - apply (proj1 add_twice_keeps_last Examples.json_abc Examples.abc "B"
             (Info (PInt 2001) (PFloat 1) (PStr "x"))
             (Info (PInt 2002) (PFloat 2) (PStr "y"))).
    vm_compute. reflexivity.
  - apply (proj2 add_twice_keeps_last Examples.csv_abc Examples.abc (Some "B")
             (Info (PInt 2001) (PFloat 1) (PStr "x"))
             (Info (PInt 2002) (PFloat 2) (PStr "y"))); vm_compute; reflexivity.
Defined.

(* ------------------------------------------------------------------ *)
(** ** The rows of a CSV file *)

Lemma load_rows_fields : forall (rows : list (string * string * string * string))
                                (acc : collection),
    StorageCsv.load_rows
      (List.map (fun r => Csv.zip_row StorageCsv.fieldnames (fields r)) rows) acc
    = Ok (List.fold_left (fun d kv => set d (fst kv) (snd kv))
                         (List.map loaded_entry rows) acc).
Proof.
  induction rows as [|[[[a b] c] d] rows IH]; intros acc; [reflexivity|].
  cbn [List.map StorageCsv.load_rows List.fold_left fields].
  rewrite StorageCsvFacts.load_row_fields.
  rewrite !string_of_list_ascii_of_string.
  cbn [int_ float_ loaded_entry fst snd].
  destruct (int_of_str b); destruct (float_of_str c); cbn [bind catch is_ValueError];
    apply IH.
Qed.

(** X9.  A CSV file that the csv writer wrote, with the header of the four
    columns and rows of four fields each (no field with a carriage return
    or beyond the field size limit), lists an entry for every row: a year
    or a rating that is not a number is [None], and of the rows with one
    title the first gives the place and the last the record, as [dict] does
    with repeated keys.  No such file makes [list_movies] raise. *)
Theorem csv_lists_written_rows :
  forall rows : list (string * string * string * string),
    Forall (fun r => Forall (fun f => StorageCsv.field_ok f = true) (fields r)) rows ->
    StorageCsv.list_movies
      (StorageCsv.Text
         (string_of_list_ascii
            (List.concat (List.map Csv.writerow
                                   (StorageCsv.header :: List.map fields rows)))))
    = Ok (dict_of key_eqb (List.map loaded_entry rows)).
Proof.
  intros rows H. unfold StorageCsv.list_movies, StorageCsv._load_data.
  rewrite list_ascii_of_string_of_list_ascii.
  unfold Csv.DictReader.
  rewrite CsvFacts.reader_rows_written.
  - change (List.map string_of_list_ascii StorageCsv.header) with StorageCsv.fieldnames.
    assert (Hfilter : List.filter (fun r => negb (Csv.is_blank r)) (List.map fields rows)
                      = List.map fields rows).
    { clear. induction rows as [|[[[a b] c] d] rows IH]; [reflexivity|].
      cbn [List.map List.filter Csv.is_blank fields negb]. rewrite IH. reflexivity. }
    rewrite Hfilter, List.map_map, load_rows_fields. reflexivity.
  - constructor; [exact StorageCsvFacts.header_writable|].
    clear - H. induction H as [|[[[a b] c] d] rows Hr _ IH]; [constructor|].
    cbn [List.map]. constructor; [|exact IH].
    split; [cbn; lia|exact Hr].
Qed.

Lemma csv_lists_written_rows_witness :
  StorageCsv.list_movies
    (StorageCsv.Text
       (string_of_list_ascii
          (List.concat
             (List.map Csv.writerow
                (StorageCsv.header
                 :: List.map fields [ ("A", "1999", "n/a", "x");
                                      ("B", "", "7.5", "y, z");
                                      ("A", "MM", "8.5", "") ])))))
  = Ok (dict_of key_eqb
          (List.map loaded_entry [ ("A", "1999", "n/a", "x");
                                   ("B", "", "7.5", "y, z");
                                   ("A", "MM", "8.5", "") ])).
Proof.
  apply (@csv_lists_written_rows
           [ ("A", "1999", "n/a", "x"); ("B", "", "7.5", "y, z"); ("A", "MM", "8.5", "") ]).
  repeat constructor.
Defined.

(* ------------------------------------------------------------------ *)
(** ** The commands *)




(** X11.  The delete command checks nothing: whatever is typed, a blank
    line too, it calls [delete_movie] with the line stripped, and the file
    is written again.  On the JSON storage, and on a CSV file that
    represents its collection exactly, the command returns; the file it
    leaves lists the collection without the title, and the line printed is
    the same whether or not the title was there. *)
Theorem delete_command_removes_title :
  (forall (line : string) (w : MovieApp.world StorageJson.file) (m : collection),
      StorageJson.list_movies (MovieApp.disk w) = Ok m ->
      exists f' m',
        MovieApp._command_delete_movie line w
        = Ok (MovieApp.World f'
                (MovieApp.stdout w
                   ++ ["Movie '" ++ strip line ++ "' deleted (if it existed)."]%string)%list
                (MovieApp.calls w ++ [MovieApp.CallDelete (Some (strip line))])%list)
        /\ StorageJson.list_movies f' = Ok m'
        /\ removed m m' (Some (strip line)))
  /\ (forall (line : string) (w : MovieApp.world StorageCsv.file) (m : collection),
         StorageCsv.list_movies (MovieApp.disk w) = Ok m ->
         StorageCsv.representable m = true ->
         exists f' m',
           MovieApp._command_delete_movie line w
           = Ok (MovieApp.World f'
                   (MovieApp.stdout w
                      ++ ["Movie '" ++ strip line ++ "' deleted (if it existed)."]%string)%list
                   (MovieApp.calls w ++ [MovieApp.CallDelete (Some (strip line))])%list)
           /\ StorageCsv.list_movies f' = Ok m'
           /\ removed m m' (Some (strip line))).
Proof.
  split.
  - intros line w m Hload.
    destruct (@json_delete _ m (Some (strip line)) Hload) as (Hdel & Hlist & _).
    destruct (json_loaded _ Hload) as [Hnd _].
    eexists. eexists. split; [|split; [exact Hlist|apply del_removed; exact Hnd]].
    unfold MovieApp._command_delete_movie, MovieApp.storage_delete_movie.
    cbn [delete_movie StorageJson_IStorage]. rewrite Hdel. reflexivity.
  - intros line w m Hload Hrep.
    destruct (@csv_delete _ m (Some (strip line)) Hload Hrep) as (Hdel & Hlist & _).
    destruct (StorageCsvFacts.representable_spec _ Hrep) as [Hnd _].
    eexists. eexists. split; [|split; [exact Hlist|apply del_removed; exact Hnd]].
    unfold MovieApp._command_delete_movie, MovieApp.storage_delete_movie.
    cbn [delete_movie StorageCsv_IStorage]. rewrite Hdel. reflexivity.
Qed.

Lemma delete_command_removes_title_witness :
  (exists f' m',
      MovieApp._command_delete_movie "  " (MovieApp.World Examples.json_abc [] [])
      = Ok (MovieApp.World f'
              ([] ++ ["Movie '" ++ strip "  " ++ "' deleted (if it existed)."]%string)%list
              ([] ++ [MovieApp.CallDelete (Some (strip "  "))])%list)
      /\ StorageJson.list_movies f' = Ok m'
      /\ removed Examples.abc m' (Some (strip "  ")))
  /\ (exists f' m',
         MovieApp._command_delete_movie " B " (MovieApp.World Examples.csv_abc [] [])
         = Ok (MovieApp.World f'
                 ([] ++ ["Movie '" ++ strip " B " ++ "' deleted (if it existed)."]%string)%list
                 ([] ++ [MovieApp.CallDelete (Some (strip " B "))])%list)
         /\ StorageCsv.list_movies f' = Ok m'
         /\ removed Examples.abc m' (Some (strip " B "))).
Proof.
  split.
  - apply (proj1 delete_command_removes_title "  "
             (MovieApp.World Examples.json_abc [] []) Examples.abc).
    vm_compute. reflexivity.
  - apply (proj2 delete_command_removes_title " B "
             (MovieApp.World Examples.csv_abc [] []) Examples.abc);
      vm_compute; reflexivity.
Defined.

Lemma no_number_filtered : forall m : collection,
    Forall (fun kv => isinstance_number (rating (snd kv)) = false) m ->
    List.filter isinstance_number (List.map rating (dict_values m)) = [].
Proof.
  intros m H. induction H as [|kv m Hkv _ IH]; [reflexivity|].
  unfold dict_values in *. cbn [List.map List.filter]. rewrite Hkv. exact IH.
Qed.

(** X12.  Statistics on a collection without a rating that is a number
    prints one line and returns: that there are no movies when the
    collection is empty, that there are no valid ratings otherwise.  It
    reads the collection once and changes no file. *)
Theorem stats_without_valid_rating :
  forall (F : Type) (storage : IStorage F) (w : MovieApp.world F) (m : collection),
    list_movies (MovieApp.disk w) = Ok m ->
    Forall (fun kv => isinstance_number (rating (snd kv)) = false) m ->
    MovieApp._command_movie_stats w
    = Ok (MovieApp.World (MovieApp.disk w)
            (MovieApp.stdout w
               ++ [match m with
                   | [] => "No movies found. Cannot calculate statistics."
                   | _ => "No valid ratings found. Cannot calculate statistics."
                   end])%list
            (MovieApp.calls w ++ [MovieApp.CallList])%list).
Proof.
  intros F storage w m Hlist Hm.
  unfold MovieApp._command_movie_stats, MovieApp.storage_list_movies.
  rewrite Hlist. cbn [bind].
  destruct m as [|kv m]; [reflexivity|].
  rewrite (no_number_filtered Hm). reflexivity.
Qed.

Lemma stats_without_valid_rating_witness :
  MovieApp._command_movie_stats
    (MovieApp.World
       (StorageJson.Document [("A", Info (PInt 1999) (PStr "8.0") (PStr "N/A"))]) [] [])
  = Ok (MovieApp.World
          (StorageJson.Document [("A", Info (PInt 1999) (PStr "8.0") (PStr "N/A"))])
          ([] ++ ["No valid ratings found. Cannot calculate statistics."])%list
          ([] ++ [MovieApp.CallList])%list).
Proof.
  apply (@stats_without_valid_rating StorageJson.file StorageJson_IStorage
           (MovieApp.World
              (StorageJson.Document [("A", Info (PInt 1999) (PStr "8.0") (PStr "N/A"))])
              [] [])
           [(Some "A", Info (PInt 1999) (PStr "8.0") (PStr "N/A"))]).
  - vm_compute. reflexivity.
  - repeat constructor.
Defined.

Lemma print_each : forall (F : Type) (g : key * info -> string) (m : collection)
                          (w : MovieApp.world F),
    List.fold_left (fun w kv => MovieApp.print w (g kv)) m w
    = MovieApp.World (MovieApp.disk w) (MovieApp.stdout w ++ List.map g m)%list
                     (MovieApp.calls w).
Proof.
  intros F g m. induction m as [|kv m IH]; intros w; cbn [List.fold_left List.map].
  - rewrite List.app_nil_r. destruct w; reflexivity.
  - rewrite IH. unfold MovieApp.print. cbn [MovieApp.disk MovieApp.stdout MovieApp.calls].
    rewrite <- List.app_assoc. reflexivity.
Qed.

(** X13.  The list command reads the collection once, changes no file, and
    prints either the line that there are no movies, or the heading and
    then one line for each movie, in the order of the collection, with the
    title, the year, the rating and the poster. *)
Theorem list_command_prints_movies :
  forall (F : Type) (storage : IStorage F) (w : MovieApp.world F) (m : collection),
    list_movies (MovieApp.disk w) = Ok m ->
    MovieApp._command_list_movies w
    = Ok (MovieApp.World (MovieApp.disk w)
            (MovieApp.stdout w
               ++ match m with
                  | [] => ["No movies found."]
                  | _ => (MovieApp.nl ++ "--- List of Movies ---")%string
                         :: List.map MovieApp.movie_line m
                  end)%list
            (MovieApp.calls w ++ [MovieApp.CallList])%list).
Proof.
  intros F storage w m Hlist.
  unfold MovieApp._command_list_movies, MovieApp.storage_list_movies.
  rewrite Hlist. cbn [bind].
  destruct m as [|kv m]; [reflexivity|].
  rewrite print_each. unfold MovieApp.print.
  cbn [MovieApp.disk MovieApp.stdout MovieApp.calls].
  rewrite <- List.app_assoc. reflexivity.
Qed.

Lemma list_command_prints_movies_witness :
  MovieApp._command_list_movies (MovieApp.World Examples.csv_abc [] [])
  = Ok (MovieApp.World Examples.csv_abc
          ([] ++ (MovieApp.nl ++ "--- List of Movies ---")%string
              :: List.map MovieApp.movie_line Examples.abc)%list
          ([] ++ [MovieApp.CallList])%list).
Proof.
  apply (@list_command_prints_movies StorageCsv.file StorageCsv_IStorage
           (MovieApp.World Examples.csv_abc [] []) Examples.abc).
  vm_compute. reflexivity.
Defined.

(* ------------------------------------------------------------------ *)
(** ** The page generator *)

Lemma append_empty : forall s : string, (s ++ "")%string = s.
Proof. induction s as [|c s IH]; [reflexivity|]. cbn. rewrite IH. reflexivity. Qed.

Lemma append_assoc : forall a b c : string,
    ((a ++ b) ++ c)%string = (a ++ b ++ c)%string.
Proof. induction a as [|x a IH]; intros b c; [reflexivity|]. cbn. rewrite IH. reflexivity. Qed.

Lemma items_folded : forall (g : key * info -> string) (m : collection) (acc : string),
    List.fold_left (fun html kv => html ++ g kv)%string m acc
    = (acc ++ String.concat "" (List.map g m))%string.
Proof.
  intros g m. induction m as [|kv m IH]; intros acc.
  - cbn. symmetry. apply append_empty.
  - cbn [List.fold_left List.map]. rewrite IH, append_assoc. f_equal.
    destruct m as [|kv' m]; [cbn; apply append_empty|reflexivity].
Qed.

Lemma replace_absent : forall old new s : string,
    contains_text old s = false -> replace s old new = s.
Proof.
  intros old new s. unfold replace. induction s as [|c r IH]; intros H; [reflexivity|].
  cbn [contains_text] in H. apply orb_false_iff in H. destruct H as [Hp Hr].
  cbn [replace_from]. rewrite Hp. f_equal. exact (IH Hr).
Qed.

Lemma replace_skip : forall old new t rest : string,
    replace_from (String.length t) old new (t ++ rest) = replace_from 0 old new rest.
Proof.
  intros old new t rest. induction t as [|c t IH]; [reflexivity|].
  cbn [String.length append replace_from]. exact IH.
Qed.

Lemma prefix_app : forall p b : string, String.prefix p (p ++ b) = true.
Proof.
  induction p as [|c p IH]; intros b; [destruct b; reflexivity|].
  cbn [append String.prefix]. destruct (ascii_dec c c); [apply IH|contradiction].
Qed.

(** The mark does not begin with an end of itself: where it does not start
    within a text, it does not start within that text followed by it. *)
Ltac straddle :=
  lazymatch goal with
  | H : String.prefix _ ?a = false |- _ =>
      destruct a as [|? ?]; cbn [append String.prefix] in H |- *;
      [ first [discriminate H | reflexivity]
      | first [discriminate H | destruct (ascii_dec _ _); [straddle|reflexivity]] ]
  end.

Lemma no_straddle : forall (c : ascii) (a rest : string),
    String.prefix placeholder (String c a) = false ->
    String.prefix placeholder (String c a ++ placeholder ++ rest) = false.
Proof.
  intros c a rest H. unfold placeholder in *.
  cbn [append String.prefix] in H |- *.
  destruct (ascii_dec _ _); [straddle|reflexivity].
Qed.

Lemma replace_first : forall new a b : string,
    contains_text placeholder a = false ->
    replace (a ++ placeholder ++ b) placeholder new
    = (a ++ new ++ replace b placeholder new)%string.
Proof.
  intros new a b. unfold replace. induction a as [|c a IH]; intros H.
  - change ("" ++ placeholder ++ b)%string with (String "{" ("{MOVIES}}" ++ b)).
    cbn [replace_from].
    change (String "{" ("{MOVIES}}" ++ b)) with (placeholder ++ b)%string.
    rewrite prefix_app.
    change (String.length placeholder - 1) with (String.length "{MOVIES}}").
    rewrite replace_skip. reflexivity.
  - cbn [contains_text] in H. apply orb_false_iff in H. destruct H as [Hp Hr].
    change (String c a ++ placeholder ++ b)%string
      with (String c (a ++ placeholder ++ b)).
    cbn [replace_from].
    change (String c (a ++ placeholder ++ b))
      with (String c a ++ placeholder ++ b)%string.
    rewrite (no_straddle _ _ b Hp). rewrite (IH Hr). reflexivity.
Qed.

Lemma website_generated :
  forall (F : Type) (storage : IStorage F) (w : MovieApp.world F) (fs : MovieApp.site)
         (m : collection) (s : string),
    list_movies (MovieApp.disk w) = Ok m ->
    m <> [] ->
    MovieApp.template fs = MovieApp.Content s ->
    MovieApp._command_generate_website w fs
    = Ok (MovieApp.World (MovieApp.disk w)
            (MovieApp.stdout w ++ ["Website was generated successfully."])%list
            (MovieApp.calls w ++ [MovieApp.CallList])%list,
          MovieApp.Site (MovieApp.template fs)
            (MovieApp.Content
               (replace (MovieApp.read_text s) placeholder (movie_items m)))).
Proof.
  intros F storage w fs m s Hlist Hne Ht.
  unfold MovieApp._command_generate_website, MovieApp.storage_list_movies.
  rewrite Hlist. cbn [bind].
  destruct m as [|kv m]; [congruence|].
  rewrite Ht, items_folded. reflexivity.
Qed.

(** X14.  The page generator writes nothing unless there are movies and a
    template: on an empty collection, and on a collection with the
    template file missing, it prints the line that says so and leaves
    [index.html] and the storage as they are; with movies and a template
    that is not UTF-8 it raises [UnicodeDecodeError]. *)
Theorem website_needs_movies_and_template :
  forall (F : Type) (storage : IStorage F) (w : MovieApp.world F) (fs : MovieApp.site)
         (m : collection),
    list_movies (MovieApp.disk w) = Ok m ->
    (m = [] \/ MovieApp.template fs = MovieApp.NoFile ->
     MovieApp._command_generate_website w fs
     = Ok (MovieApp.World (MovieApp.disk w)
             (MovieApp.stdout w
                ++ [match m with
                    | [] => "No movies found. Website not generated."
                    | _ => "Template file not found: _static/index_template.html"
                    end])%list
             (MovieApp.calls w ++ [MovieApp.CallList])%list,
           fs))
    /\ (m <> [] -> MovieApp.template fs = MovieApp.NotUtf8 ->
        MovieApp._command_generate_website w fs = Raise UnicodeDecodeError).
Proof.
  intros F storage w fs m Hlist.
  unfold MovieApp._command_generate_website, MovieApp.storage_list_movies.
  rewrite Hlist. cbn [bind]. split.
  - intros [Hm|Ht]; [subst m; reflexivity|].
    destruct m as [|kv m]; [reflexivity|]. rewrite Ht. reflexivity.
  - intros Hne Ht. destruct m as [|kv m]; [congruence|]. rewrite Ht. reflexivity.
Qed.

Lemma website_needs_movies_and_template_witness :
  MovieApp._command_generate_website (MovieApp.World Examples.json_abc [] [])
    (MovieApp.Site MovieApp.NoFile (MovieApp.Content "old page"))
  = Ok (MovieApp.World Examples.json_abc
          ([] ++ ["Template file not found: _static/index_template.html"])%list
          ([] ++ [MovieApp.CallList])%list,
        MovieApp.Site MovieApp.NoFile (MovieApp.Content "old page")).
Proof.
  apply (proj1 (@website_needs_movies_and_template StorageJson.file StorageJson_IStorage
                  (MovieApp.World Examples.json_abc [] [])
                  (MovieApp.Site MovieApp.NoFile (MovieApp.Content "old page"))
                  Examples.abc eq_refl)).
  right. reflexivity.
Defined.

(** X15.  With movies and a template, the page generator writes to
    [index.html] the template with the mark replaced by the items of the
    movies, one [<li>] for each in the order of the collection: where the
    template reads [a], the mark, [b], and the mark does not occur in [a],
    the page is [a], the items, and [b] with its marks replaced alike.  The
    storage is read once and not written. *)
Theorem website_fills_placeholder :
  forall (F : Type) (storage : IStorage F) (w : MovieApp.world F) (fs : MovieApp.site)
         (m : collection) (s a b : string),
    list_movies (MovieApp.disk w) = Ok m ->
    m <> [] ->
    MovieApp.template fs = MovieApp.Content s ->
    MovieApp.read_text s = (a ++ placeholder ++ b)%string ->
    contains_text placeholder a = false ->
    MovieApp._command_generate_website w fs
    = Ok (MovieApp.World (MovieApp.disk w)
            (MovieApp.stdout w ++ ["Website was generated successfully."])%list
            (MovieApp.calls w ++ [MovieApp.CallList])%list,
          MovieApp.Site (MovieApp.template fs)
            (MovieApp.Content
               (a ++ movie_items m ++ replace b placeholder (movie_items m))%string)).
Proof.
  intros F storage w fs m s a b Hlist Hne Ht Hs Ha.
  rewrite (@website_generated _ _ _ _ _ _ Hlist Hne Ht), Hs, (@replace_first _ _ _ Ha).
  reflexivity.
Qed.

Lemma website_fills_placeholder_witness :
  MovieApp._command_generate_website (MovieApp.World Examples.json_abc [] [])
    (MovieApp.Site (MovieApp.Content "<ul>{{MOVIES}}</ul>") MovieApp.NoFile)
  = Ok (MovieApp.World Examples.json_abc
          ([] ++ ["Website was generated successfully."])%list
          ([] ++ [MovieApp.CallList])%list,
        MovieApp.Site (MovieApp.Content "<ul>{{MOVIES}}</ul>")
          (MovieApp.Content
             ("<ul>" ++ movie_items Examples.abc
                     ++ replace "</ul>" placeholder (movie_items Examples.abc))%string)).
Proof.
  apply (@website_fills_placeholder StorageJson.file StorageJson_IStorage
           (MovieApp.World Examples.json_abc [] [])
           (MovieApp.Site (MovieApp.Content "<ul>{{MOVIES}}</ul>") MovieApp.NoFile)
           Examples.abc "<ul>{{MOVIES}}</ul>" "<ul>" "</ul>").
  - reflexivity.
  - discriminate.
  - reflexivity.
  - reflexivity.
  - reflexivity.
Defined.

(** X16.  A template without the mark is copied: with movies, and a template
    in which the mark does not occur, the page generator writes the
    template as read (its line ends as line feeds) to [index.html], no
    movie in it, and reports that the website was generated. *)
Theorem website_without_placeholder :
  forall (F : Type) (storage : IStorage F) (w : MovieApp.world F) (fs : MovieApp.site)
         (m : collection) (s : string),
    list_movies (MovieApp.disk w) = Ok m ->
    m <> [] ->
    MovieApp.template fs = MovieApp.Content s ->
    contains_text placeholder (MovieApp.read_text s) = false ->
    MovieApp._command_generate_website w fs
    = Ok (MovieApp.World (MovieApp.disk w)
            (MovieApp.stdout w ++ ["Website was generated successfully."])%list
            (MovieApp.calls w ++ [MovieApp.CallList])%list,
          MovieApp.Site (MovieApp.template fs) (MovieApp.Content (MovieApp.read_text s))).
Proof.
  intros F storage w fs m s Hlist Hne Ht Hs.
  rewrite (@website_generated _ _ _ _ _ _ Hlist Hne Ht), (@replace_absent _ _ _ Hs).
  reflexivity.
Qed.

Lemma website_without_placeholder_witness :
  MovieApp._command_generate_website (MovieApp.World Examples.json_abc [] [])
    (MovieApp.Site (MovieApp.Content ("<ul>{MOVIES}</ul>" ++ Examples.CRLF)) MovieApp.NoFile)
  = Ok (MovieApp.World Examples.json_abc
          ([] ++ ["Website was generated successfully."])%list
          ([] ++ [MovieApp.CallList])%list,
        MovieApp.Site (MovieApp.Content ("<ul>{MOVIES}</ul>" ++ Examples.CRLF))
          (MovieApp.Content
             (MovieApp.read_text ("<ul>{MOVIES}</ul>" ++ Examples.CRLF)))).
Proof.
  apply (@website_without_placeholder StorageJson.file StorageJson_IStorage
           (MovieApp.World Examples.json_abc [] [])
           (MovieApp.Site (MovieApp.Content ("<ul>{MOVIES}</ul>" ++ Examples.CRLF))
                          MovieApp.NoFile)
           Examples.abc ("<ul>{MOVIES}</ul>" ++ Examples.CRLF)).
  - reflexivity.
  - discriminate.
  - reflexivity.
  - reflexivity.
Defined.

(* ------------------------------------------------------------------ *)
(** ** The menu loop *)

Section RunFacts.
Context {F : Type} {storage : IStorage F}.

Lemma menu_keeps : forall w : MovieApp.world F,
    MovieApp.disk (MovieApp._print_menu w) = MovieApp.disk w
    /\ MovieApp.calls (MovieApp._print_menu w) = MovieApp.calls w.
Proof. intros w. split; reflexivity. Qed.

Lemma list_reads_only : forall w w' : MovieApp.world F,
    MovieApp._command_list_movies w = Ok w' ->
    MovieApp.disk w' = MovieApp.disk w
    /\ MovieApp.calls w' = (MovieApp.calls w ++ [MovieApp.CallList])%list.
Proof.
  intros w w' H. unfold MovieApp._command_list_movies, MovieApp.storage_list_movies in H.
  destruct (list_movies (MovieApp.disk w)) as [m|e]; cbn [bind] in H; [|discriminate].
  destruct m as [|kv m]; [inversion H; split; reflexivity|].
  rewrite print_each in H. inversion H. split; reflexivity.
Qed.

Lemma stats_reads_only : forall w w' : MovieApp.world F,
    MovieApp._command_movie_stats w = Ok w' ->
    MovieApp.disk w' = MovieApp.disk w
    /\ MovieApp.calls w' = (MovieApp.calls w ++ [MovieApp.CallList])%list.
Proof.
  intros w w' H. unfold MovieApp._command_movie_stats, MovieApp.storage_list_movies in H.
  destruct (list_movies (MovieApp.disk w)) as [m|e]; cbn [bind] in H; [|discriminate].
  destruct m as [|kv m]; [inversion H; split; reflexivity|].
  destruct (List.filter isinstance_number (List.map rating (dict_values (kv :: m))));
    [inversion H; split; reflexivity|].
  repeat match type of H with
         | bind ?c _ = Ok _ => destruct c; cbn [bind] in H; [|discriminate]
         end.
  inversion H. split; reflexivity.
Qed.

Lemma website_reads_only : forall (w w' : MovieApp.world F) (fs fs' : MovieApp.site),
    MovieApp._command_generate_website w fs = Ok (w', fs') ->
    MovieApp.disk w' = MovieApp.disk w
    /\ MovieApp.calls w' = (MovieApp.calls w ++ [MovieApp.CallList])%list.
Proof.
  intros w w' fs fs' H.
  unfold MovieApp._command_generate_website, MovieApp.storage_list_movies in H.
  destruct (list_movies (MovieApp.disk w)) as [m|e]; cbn [bind] in H; [|discriminate].
  destruct m as [|kv m]; [inversion H; split; reflexivity|].
  destruct (MovieApp.template fs); inversion H; split; reflexivity.
Qed.

Lemma repeat_snoc : forall (A : Type) (x : A) (l : list A) (n : nat),
    ((l ++ [x]) ++ List.repeat x n)%list = (l ++ List.repeat x (S n))%list.
Proof. intros A x l n. rewrite <- List.app_assoc. reflexivity. Qed.

End RunFacts.

(** X17.  A session in which no line typed is the choice of add, delete or
    update leaves the storage as it was, however it ends (by the choice 0,
    by an exception, or by the end of the input): the file is the one the
    session started with, and the only storage method called is
    [list_movies]. *)
Theorem read_only_session_keeps_storage :
  forall (F : Type) (storage : IStorage F) (omdb : string -> MovieApp.response)
         (inputs : list string) (w : MovieApp.world F) (fs : MovieApp.site),
    List.forallb reads_only inputs = true ->
    MovieApp.disk (final_world (MovieApp.run omdb inputs w fs)) = MovieApp.disk w
    /\ exists n : nat,
         MovieApp.calls (final_world (MovieApp.run omdb inputs w fs))
         = (MovieApp.calls w ++ List.repeat MovieApp.CallList n)%list.
Proof.
  intros F storage omdb.
  induction inputs as [|line rest IH]; intros w fs H.
  - cbn [MovieApp.run final_world]. split; [reflexivity|].
    exists 0%nat. cbn [List.repeat]. rewrite List.app_nil_r. reflexivity.
  - cbn [List.forallb] in H. apply andb_true_iff in H. destruct H as [Hline Hrest].
    unfold reads_only in Hline. cbv zeta in Hline.
    apply negb_true_iff in Hline.
    apply orb_false_iff in Hline. destruct Hline as [Hline H4].
    apply orb_false_iff in Hline. destruct Hline as [H2 H3].
    cbn [MovieApp.run]. cbv zeta. rewrite H2, H3, H4.
    destruct (menu_keeps w) as [Hd Hc].
    set (w1 := MovieApp._print_menu w) in *. clearbody w1.
    destruct (String.eqb (strip line) "0").
    { cbn [final_world]. split; [exact Hd|].
      exists 0%nat. cbn [List.repeat]. rewrite List.app_nil_r. exact Hc. }
    destruct (String.eqb (strip line) "1").
    { destruct (MovieApp._command_list_movies w1) as [w'|e] eqn:E.
      - destruct (list_reads_only _ E) as [Hd' Hc'].
        destruct (IH w' fs Hrest) as [IHd [n IHc]].
        split; [rewrite IHd, Hd', Hd; reflexivity|].
        exists (S n). rewrite IHc, Hc', Hc. apply repeat_snoc.
      - cbn [final_world]. split; [exact Hd|].
        exists 0%nat. cbn [List.repeat]. rewrite List.app_nil_r. exact Hc. }
    destruct (String.eqb (strip line) "5").
    { destruct (MovieApp._command_movie_stats w1) as [w'|e] eqn:E.
      - destruct (stats_reads_only _ E) as [Hd' Hc'].
        destruct (IH w' fs Hrest) as [IHd [n IHc]].
        split; [rewrite IHd, Hd', Hd; reflexivity|].
        exists (S n). rewrite IHc, Hc', Hc. apply repeat_snoc.
      - cbn [final_world]. split; [exact Hd|].
        exists 0%nat. cbn [List.repeat]. rewrite List.app_nil_r. exact Hc. }
    destruct (String.eqb (strip line) "9").
    { destruct (MovieApp._command_generate_website w1 fs) as [[w' fs']|e] eqn:E.
      - destruct (website_reads_only _ _ E) as [Hd' Hc'].
        destruct (IH w' fs' Hrest) as [IHd [n IHc]].
        split; [rewrite IHd, Hd', Hd; reflexivity|].
        exists (S n). rewrite IHc, Hc', Hc. apply repeat_snoc.
      - cbn [final_world]. split; [exact Hd|].
        exists 0%nat. cbn [List.repeat]. rewrite List.app_nil_r. exact Hc. }
    destruct (IH (MovieApp.print w1 "Invalid choice. Try again.") fs Hrest) as [IHd [n IHc]].
    split; [rewrite IHd; exact Hd|]. exists n. rewrite IHc. cbn [MovieApp.print MovieApp.calls].
    rewrite Hc. reflexivity.
Qed.

Lemma read_only_session_keeps_storage_witness :
  MovieApp.disk
    (final_world
       (MovieApp.run Examples.omdb_not_found ["1"; " 5 "; "help"; "9"; "0"]
          (MovieApp.World Examples.json_abc [] [])
          (MovieApp.Site MovieApp.NoFile MovieApp.NoFile)))
  = Examples.json_abc
  /\ exists n : nat,
       MovieApp.calls
         (final_world
            (MovieApp.run Examples.omdb_not_found ["1"; " 5 "; "help"; "9"; "0"]
               (MovieApp.World Examples.json_abc [] [])
               (MovieApp.Site MovieApp.NoFile MovieApp.NoFile)))
       = ([] ++ List.repeat MovieApp.CallList n)%list.
Proof.
  apply (@read_only_session_keeps_storage StorageJson.file StorageJson_IStorage
           Examples.omdb_not_found ["1"; " 5 "; "help"; "9"; "0"]
           (MovieApp.World Examples.json_abc [] [])
           (MovieApp.Site MovieApp.NoFile MovieApp.NoFile)).
  vm_compute. reflexivity.
Defined.

(** X18.  The menu loop catches no exception of the storage: when
    [list_movies] raises, the choices 1 (list), 5 (statistics) and 9
    (website) end the run with that exception, after the menu and before
    anything else is printed or written; the lines typed after the choice
    are not read. *)
Theorem storage_error_ends_session :
  forall (F : Type) (storage : IStorage F) (omdb : string -> MovieApp.response)
         (line : string) (rest : list string) (w : MovieApp.world F) (fs : MovieApp.site)
         (e : exn),
    list_movies (MovieApp.disk w) = Raise e ->
    In (strip line) ["1"; "5"; "9"] ->
    MovieApp.run omdb (line :: rest) w fs
    = MovieApp.Crashed e (MovieApp._print_menu w) fs.
Proof.
  intros F storage omdb line rest w fs e Hlist Hline.
  cbn [MovieApp.run]. cbv zeta.
  assert (H1 : MovieApp._command_list_movies (MovieApp._print_menu w) = Raise e).
  { unfold MovieApp._command_list_movies, MovieApp.storage_list_movies.
    change (MovieApp.disk (MovieApp._print_menu w)) with (MovieApp.disk w).
    rewrite Hlist. reflexivity. }
  assert (H5 : MovieApp._command_movie_stats (MovieApp._print_menu w) = Raise e).
  { unfold MovieApp._command_movie_stats, MovieApp.storage_list_movies.
    change (MovieApp.disk (MovieApp._print_menu w)) with (MovieApp.disk w).
    rewrite Hlist. reflexivity. }
  assert (H9 : MovieApp._command_generate_website (MovieApp._print_menu w) fs = Raise e).
  { unfold MovieApp._command_generate_website, MovieApp.storage_list_movies.
    change (MovieApp.disk (MovieApp._print_menu w)) with (MovieApp.disk w).
    rewrite Hlist. reflexivity. }
  destruct Hline as [H|[H|[H|[]]]]; rewrite <- H; cbn [String.eqb Ascii.eqb Bool.eqb];
    [rewrite H1|rewrite H5|rewrite H9]; reflexivity.
Qed.

Lemma storage_error_ends_session_witness :
  Main.main Examples.omdb_not_found [" 1"; "0"] StorageJson.Undecodable
    (MovieApp.Site MovieApp.NoFile MovieApp.NoFile)
  = MovieApp.Crashed UnicodeDecodeError
      (MovieApp._print_menu (MovieApp.World StorageJson.Undecodable [] []))
      (MovieApp.Site MovieApp.NoFile MovieApp.NoFile).
Proof.
  apply (@storage_error_ends_session StorageJson.file StorageJson_IStorage
           Examples.omdb_not_found " 1" ["0"]
           (MovieApp.World StorageJson.Undecodable [] [])
           (MovieApp.Site MovieApp.NoFile MovieApp.NoFile) UnicodeDecodeError).
  - reflexivity.
  - left. reflexivity.
Defined.

(* ------------------------------------------------------------------ *)
(** ** The replies of the metadata source *)

Lemma add_command_found :
  forall (F : Type) (storage : IStorage F) (omdb : string -> MovieApp.response)
         (line : string) (w : MovieApp.world F) (members : list (string * string)),
    strip line <> "" ->
    omdb (strip line) = MovieApp.Reply members ->
    dict_of String.eqb members <> [] ->
    dict_get String.eqb (dict_of String.eqb members) "Response" <> Some "False" ->
    let data := dict_of String.eqb members in
    let title := MovieApp.get_default data "Title" (strip line) in
    let year := PInt (normal_year data) in
    let rating := PFloat (normal_rating data) in
    let poster := PStr (MovieApp.get_default data "Poster" "N/A") in
    MovieApp._command_add_movie omdb line w
    = (d <- add_movie (Some title) year rating poster (MovieApp.disk w) ;;
       Ok (MovieApp.World d
             (MovieApp.stdout w ++ ["Movie '" ++ title ++ "' added successfully."]%string)%list
             (MovieApp.calls w ++ [MovieApp.CallAdd (Some title) year rating poster])%list)).
Proof.
  intros F storage omdb line w members Hline Homdb Hdata Hresp.
  cbv zeta. unfold MovieApp._command_add_movie.
  destruct (String.eqb (strip line) "") eqn:Hempty.
  { apply String.eqb_eq in Hempty. contradiction. }
  unfold MovieApp._fetch_movie_data. rewrite Homdb. cbv zeta.
  set (data := dict_of String.eqb members) in *. clearbody data.
  revert Hresp.
  destruct (dict_get String.eqb data "Response") as [r|]; intros Hresp;
    [rewrite (not_False_branch _ _ Hresp)|]; cbn [bind];
    (destruct data as [|entry rest]; [congruence|]);
    rewrite catch_year, catch_rating; cbn [bind];
    unfold MovieApp.storage_add_movie;
    destruct (add_movie _ _ _ _ _); reflexivity.
Qed.

(** X19.  Add on the replies that are neither a failed connection nor
    "not found": a body that is not JSON makes the command raise
    ([response.json()] is outside the [try]); the empty object ends it
    with nothing printed and no storage call; a reply without a [Title]
    is stored under the title as typed, stripped. *)
Theorem add_command_other_replies :
  forall (F : Type) (storage : IStorage F) (omdb : string -> MovieApp.response)
         (line : string) (w : MovieApp.world F),
    strip line <> "" ->
    (omdb (strip line) = MovieApp.Garbled ->
     MovieApp._command_add_movie omdb line w = Raise ValueError)
    /\ (omdb (strip line) = MovieApp.Reply [] ->
        MovieApp._command_add_movie omdb line w = Ok w)
    /\ (forall members : list (string * string),
           omdb (strip line) = MovieApp.Reply members ->
           dict_of String.eqb members <> [] ->
           dict_get String.eqb (dict_of String.eqb members) "Response" <> Some "False" ->
           dict_get String.eqb (dict_of String.eqb members) "Title" = None ->
           let data := dict_of String.eqb members in
           let year := PInt (normal_year data) in
           let rating := PFloat (normal_rating data) in
           let poster := PStr (MovieApp.get_default data "Poster" "N/A") in
           MovieApp._command_add_movie omdb line w
           = (d <- add_movie (Some (strip line)) year rating poster (MovieApp.disk w) ;;
              Ok (MovieApp.World d
                    (MovieApp.stdout w
                       ++ ["Movie '" ++ strip line ++ "' added successfully."]%string)%list
                    (MovieApp.calls w
                       ++ [MovieApp.CallAdd (Some (strip line)) year rating poster])%list))).
Proof.
  intros F storage omdb line w Hline.
  assert (Hempty : String.eqb (strip line) "" = false)
    by (apply String.eqb_neq; exact Hline).
  split; [|split].
  - intros H. unfold MovieApp._command_add_movie, MovieApp._fetch_movie_data.
    rewrite Hempty, H. reflexivity.
  - intros H. unfold MovieApp._command_add_movie, MovieApp._fetch_movie_data.
    rewrite Hempty, H. reflexivity.
  - intros members Homdb Hdata Hresp Htitle. cbv zeta.
    rewrite (@add_command_found F storage omdb line w members Hline Homdb Hdata Hresp).
    cbv zeta.
    assert (Ht : MovieApp.get_default (dict_of String.eqb members) "Title" (strip line)
                 = strip line)
      by (unfold MovieApp.get_default; rewrite Htitle; reflexivity).
    rewrite Ht. reflexivity.
Qed.

Lemma add_command_other_replies_witness :
  MovieApp._command_add_movie (fun _ => MovieApp.Reply [("Year", "1999")]) " heat "
    (MovieApp.World StorageJson.Absent [] [])
  = (d <- add_movie (Some "heat") (PInt 1999) (PFloat 0) (PStr "N/A") StorageJson.Absent ;;
     Ok (MovieApp.World d
           ([] ++ ["Movie 'heat' added successfully."])%list
           ([] ++ [MovieApp.CallAdd (Some "heat") (PInt 1999) (PFloat 0) (PStr "N/A")])%list)).
Proof.
  apply (proj2 (proj2 (@add_command_other_replies StorageJson.file StorageJson_IStorage
                         (fun _ => MovieApp.Reply [("Year", "1999")]) " heat "
                         (MovieApp.World StorageJson.Absent [] [])
                         ltac:(vm_compute; discriminate)))
           [("Year", "1999")]).
  - reflexivity.
  - vm_compute. discriminate.
  - vm_compute. discriminate.
  - vm_compute. reflexivity.
Defined.

(* ------------------------------------------------------------------ *)
(** ** A session of the program *)

Lemma choice_add : forall choice : string,
    strip choice = "2" ->
    String.eqb (strip choice) "0" = false
    /\ String.eqb (strip choice) "1" = false
    /\ String.eqb (strip choice) "2" = true.
Proof. intros choice H. rewrite H. repeat split. Qed.

(** X20.  The program, on the session that chooses add, types a title that
    the metadata source knows, and chooses exit: it ends by the exit, and
    [movies.json] then lists the collection it listed before with the
    title of the reply bound to the year, rating and poster of the reply;
    the one storage call is that [add_movie], and the output is the menu,
    the line that the movie was added, the menu, and the line of the
    exit. *)
Theorem main_add_session :
  forall (omdb : string -> MovieApp.response) (choice line quit : string)
         (movies_json : StorageJson.file) (fs : MovieApp.site) (m : collection)
         (members : list (string * string)) (canonical : string),
    strip choice = "2" ->
    strip quit = "0" ->
    strip line <> "" ->
    StorageJson.list_movies movies_json = Ok m ->
    omdb (strip line) = MovieApp.Reply members ->
    dict_get String.eqb (dict_of String.eqb members) "Response" <> Some "False" ->
    dict_get String.eqb (dict_of String.eqb members) "Title" = Some canonical ->
    let data := dict_of String.eqb members in
    let year := PInt (normal_year data) in
    let rating := PFloat (normal_rating data) in
    let poster := PStr (MovieApp.get_default data "Poster" "N/A") in
    exists (f' : StorageJson.file) (m' : collection),
      Main.main omdb [choice; line; quit] movies_json fs
      = MovieApp.Exited
          (MovieApp.World f'
             (menu_lines ++ ["Movie '" ++ canonical ++ "' added successfully."]%string
                ++ menu_lines ++ ["Exiting the app."])%list
             [MovieApp.CallAdd (Some canonical) year rating poster])
          fs
      /\ StorageJson.list_movies f' = Ok m'
      /\ bound m m' (Some canonical) (Info year rating poster).
Proof.
  intros omdb choice line quit movies_json fs m members canonical
         Hchoice Hquit Hline Hload Homdb Hresp Htitle. cbv zeta.
  destruct (@json_add movies_json m canonical
              (Info (PInt (normal_year (dict_of String.eqb members)))
                    (PFloat (normal_rating (dict_of String.eqb members)))
                    (PStr (MovieApp.get_default (dict_of String.eqb members) "Poster" "N/A")))
              Hload) as [Hadd Hlist].
  cbn [year rating poster] in Hadd.
  eexists. eexists. split; [|split; [exact Hlist|apply set_bound]].
  destruct (choice_add _ Hchoice) as (H0 & H1 & H2).
  assert (Hdata : dict_of String.eqb members <> []).
  { intros E. rewrite E in Htitle. discriminate. }
  assert (Ht : MovieApp.get_default (dict_of String.eqb members) "Title" (strip line)
               = canonical)
    by (unfold MovieApp.get_default; rewrite Htitle; reflexivity).
  unfold Main.main. cbn [MovieApp.run]. cbv zeta. rewrite H0, H1, H2.
  rewrite (@add_command_found _ _ omdb line _ members Hline Homdb Hdata Hresp).
  cbv zeta. rewrite Ht.
  change (MovieApp.disk (MovieApp._print_menu (MovieApp.World movies_json [] [])))
    with movies_json.
  cbn [add_movie StorageJson_IStorage]. rewrite Hadd. cbn [bind].
  rewrite Hquit. cbn [String.eqb]. reflexivity.
Qed.

Lemma main_add_session_witness :
  exists (f' : StorageJson.file) (m' : collection),
    Main.main Examples.omdb_inception [" 2"; "inception "; "0"] Examples.json_abc
      (MovieApp.Site MovieApp.NoFile MovieApp.NoFile)
    = MovieApp.Exited
        (MovieApp.World f'
           (menu_lines ++ ["Movie 'Inception' added successfully."]
              ++ menu_lines ++ ["Exiting the app."])%list
           [MovieApp.CallAdd (Some "Inception") (PInt 2010) (PFloat 8.5)
              (PStr "https://example.com/inception.jpg")])
        (MovieApp.Site MovieApp.NoFile MovieApp.NoFile)
    /\ StorageJson.list_movies f' = Ok m'
    /\ bound Examples.abc m' (Some "Inception")
         (Info (PInt 2010) (PFloat 8.5) (PStr "https://example.com/inception.jpg")).
Proof.
  apply (@main_add_session Examples.omdb_inception " 2" "inception " "0"
           Examples.json_abc (MovieApp.Site MovieApp.NoFile MovieApp.NoFile) Examples.abc
           [("Title", "Inception"); ("Year", "2010"); ("imdbRating", "8.5");
            ("Poster", "https://example.com/inception.jpg"); ("Response", "True")]
           "Inception").
  - reflexivity.
  - reflexivity.
  - vm_compute. discriminate.
  - reflexivity.
  - reflexivity.
  - vm_compute. discriminate.
  - reflexivity.
Defined.

(* ------------------------------------------------------------------ *)
(** ** The two backends side by side *)

(** X21.  The two backends agree: from a JSON file and a CSV file that list
    the same collection, one that the CSV file represents exactly, the
    same add, the same delete and the same update (of values that the CSV
    file represents exactly) return in both, and the two files written
    list the same collection again. *)
Theorem backends_agree :
  forall (fj : StorageJson.file) (fc : StorageCsv.file) (m : collection),
    StorageJson.list_movies fj = Ok m ->
    StorageCsv.list_movies fc = Ok m ->
    StorageCsv.representable m = true ->
    (forall (title : key) (y r p : value),
        StorageCsv.entry_ok (title, Info y r p) = true ->
        exists fj' fc' m',
          StorageJson.add_movie title y r p fj = Ok fj'
          /\ StorageCsv.add_movie title y r p fc = Ok fc'
          /\ StorageJson.list_movies fj' = Ok m'
          /\ StorageCsv.list_movies fc' = Ok m')
    /\ (forall title : key,
           exists fj' fc' m',
             StorageJson.delete_movie title fj = Ok fj'
             /\ StorageCsv.delete_movie title fc = Ok fc'
             /\ StorageJson.list_movies fj' = Ok m'
             /\ StorageCsv.list_movies fc' = Ok m')
    /\ (forall (title : key) (r : value),
           StorageCsv.rating_ok r = true ->
           StorageCsv.field_ok (Csv.field_text r) = true ->
           exists fj' fc' m',
             StorageJson.update_movie title r fj = Ok fj'
             /\ StorageCsv.update_movie title r fc = Ok fc'
             /\ StorageJson.list_movies fj' = Ok m'
             /\ StorageCsv.list_movies fc' = Ok m').
Proof.
  intros fj fc m Hj Hc Hrep. split; [|split].
  - intros title y r p Hi.
    destruct (StorageCsvFacts.entry_ok_spec _ Hi) as ([s Hs] & _). cbn [fst] in Hs. subst title.
    destruct (@json_add fj m s (Info y r p) Hj) as [Haj Hlj].
    destruct (@csv_add fc m (Some s) (Info y r p) Hc Hrep Hi) as (Hac & Hlc & _).
    eexists. eexists. eexists.
    split; [exact Haj|]. split; [exact Hac|]. split; [exact Hlj|exact Hlc].
  - intros title.
    destruct (@json_delete fj m title Hj) as (Hdj & Hlj & _).
    destruct (@csv_delete fc m title Hc Hrep) as (Hdc & Hlc & _).
    eexists. eexists. eexists.
    split; [exact Hdj|]. split; [exact Hdc|]. split; [exact Hlj|exact Hlc].
  - intros title r Hr Hf.
    destruct (@json_update fj m title r Hj) as (Huj & Hlj).
    destruct (@csv_update fc m title r Hc Hrep Hr Hf) as (Huc & Hlc).
    eexists. eexists. eexists.
    split; [exact Huj|]. split; [exact Huc|]. split; [exact Hlj|exact Hlc].
Qed.

Lemma backends_agree_witness :
  exists fj' fc' m',
    StorageJson.delete_movie (Some "B") Examples.json_abc = Ok fj'
    /\ StorageCsv.delete_movie (Some "B") Examples.csv_abc = Ok fc'
    /\ StorageJson.list_movies fj' = Ok m'
    /\ StorageCsv.list_movies fc' = Ok m'.
Proof.
  apply (proj1 (proj2 (@backends_agree Examples.json_abc Examples.csv_abc Examples.abc
                         ltac:(vm_compute; reflexivity) ltac:(vm_compute; reflexivity)
                         ltac:(vm_compute; reflexivity)))
           (Some "B")).
Defined.
